(** * Last.fm ETL pipeline: a shallow embedding of [lastfm_etl_fix.py]

    The module fetches five ranking lists from the Last.fm API, reshapes
    each one with pandas and appends it to a BigQuery table.  This file
    embeds the four functions of the module ([extract_global],
    [transform_global], [load_to_bigquery], [etl_global_topdata]) and the
    module-level configuration, and proves the properties of the
    specification about them.

    Conventions of the embedding.
    - Python values are the type [pyval].  [PNull] stands for both
      spellings of a missing value, [None] and the float [NaN] that pandas
      uses to fill holes; the code never tells them apart.  Finite
      floating-point numbers are not modelled: a JSON number is an integer.
      Text is ASCII.
    - A [DataFrame] is its ordered list of named columns together with its
      number of rows (pandas keeps the index even when there is no column).
      Columns hold Python objects (the object dtype pandas gives to the
      strings and nested objects the API returns), so [astype(int)] is
      [int(x)] cell by cell, into 64-bit integers.  pandas re-types a
      column that mixes integers and holes as floats; with integers for
      numbers and [PNull] for both nulls this changes no cell here.
    - Frames live in a heap and are passed by reference, as Python objects
      are: [df[c] = v] updates the frame in place, [df[[...]]] allocates a
      new one.
    - Everything outside the process (clock, HTTP service, warehouse) is a
      [world]: a family of functions of the history of observable events.
      The Prefect decorators [@task] and [@flow] run the decorated body and
      let its exceptions through; they are read as the identity. *)

From stdpp Require Import prelude strings.
From Stdlib Require Import ZArith Ascii Lia.

Set Warnings "-register-all".
Open Scope string_scope.
Open Scope Z_scope.

(** ** Python values *)

Inductive pyval :=
| PNull
| PBool (b : bool)
| PInt (z : Z)
| PStr (s : string)
| PList (l : list pyval)
| PDict (d : list (string * pyval)).

(** A [dict] keeps its keys in insertion order; keys are unique. *)
Definition dict := list (string * pyval).

(** [d.get(k)] as an option; [d.get(k, dflt)] is [default dflt (dict_get k d)]. *)
Fixpoint dict_get (k : string) (d : dict) : option pyval :=
  match d with
  | [] => None
  | (k', v) :: d' => if String.eqb k k' then Some v else dict_get k d'
  end.

(** [d[k] = v]: an existing key keeps its place, a new key goes last. *)
Fixpoint dict_set (k : string) (v : pyval) (d : dict) : dict :=
  match d with
  | [] => [(k, v)]
  | (k', v') :: d' =>
      if String.eqb k k' then (k, v) :: d' else (k', v') :: dict_set k v d'
  end.

(** [d.update(e)] *)
Definition dict_update (d e : dict) : dict :=
  fold_left (fun acc kv => dict_set (fst kv) (snd kv) acc) e d.

(** ** Faults: the exceptions the module can let through *)

Inductive fault :=
| KeyError (key : string)            (* missing dict key or frame column *)
| AttributeError                     (* [.get] on a value that has none *)
| TypeError                          (* [os.environ[k] = None] *)
| IntCastError (cell : pyval)        (* [astype(int)] refusing a cell *)
| FrameError                         (* [pd.DataFrame] refusing its input *)
| RequestException                   (* [requests.get] failing *)
| HTTPError (status : Z)             (* [raise_for_status] *)
| JSONDecodeError                    (* [response.json()] *)
| GoogleAPIError.                    (* any failing warehouse call *)

(** ** [int(x)], as [astype(int)] applies it to the cells of an object column *)

Definition is_space (c : ascii) : bool :=
  let n := nat_of_ascii c in
  ((9 <=? n)%nat && (n <=? 13)%nat) || (n =? 32)%nat.

Definition digit_of (c : ascii) : option Z :=
  let n := nat_of_ascii c in
  if ((48 <=? n)%nat && (n <=? 57)%nat)%bool then Some (Z.of_nat n - 48) else None.

Definition is_underscore (c : ascii) : bool := (nat_of_ascii c =? 95)%nat.

Fixpoint lstrip (l : list ascii) : list ascii :=
  match l with
  | c :: r => if is_space c then lstrip r else l
  | [] => []
  end.

Definition strip (l : list ascii) : list ascii := rev (lstrip (rev (lstrip l))).

(** The digits after the first one: single underscores may separate
    digits, and the literal may not end in one. *)
Fixpoint more_digits (acc : Z) (after_underscore : bool) (l : list ascii) : option Z :=
  match l with
  | [] => if after_underscore then None else Some acc
  | c :: r =>
      if is_underscore c then
        if after_underscore then None else more_digits acc true r
      else
        match digit_of c with
        | Some d => more_digits (10 * acc + d) false r
        | None => None
        end
  end.

Definition unsigned_literal (l : list ascii) : option Z :=
  match l with
  | [] => None
  | c :: r =>
      match digit_of c with
      | Some d => more_digits d false r
      | None => None
      end
  end.

(** [int(s)] for a string, base 10: blanks around, an optional sign, digits. *)
Definition int_of_str (s : string) : option Z :=
  match strip (String.list_ascii_of_string s) with
  | c :: r =>
      if (nat_of_ascii c =? 43)%nat then unsigned_literal r
      else if (nat_of_ascii c =? 45)%nat then Z.opp <$> unsigned_literal r
      else unsigned_literal (c :: r)
  | [] => None
  end.

Definition int64_min : Z := - 2 ^ 63.
Definition int64_max : Z := 2 ^ 63 - 1.
Definition fits_int64 (z : Z) : bool := (int64_min <=? z) && (z <=? int64_max).

(** One cell of [series.astype(int)]: the integer, or the exception
    ([ValueError] for text that is no integer literal, [TypeError] for a
    null or a container, [OverflowError] outside 64 bits). *)
Definition py_int (v : pyval) : fault + Z :=
  let checked z := if fits_int64 z then inr z else inl (IntCastError v) in
  match v with
  | PBool b => inr (if b then 1 else 0)
  | PInt z => checked z
  | PStr s =>
      match int_of_str s with
      | Some z => checked z
      | None => inl (IntCastError v)
      end
  | PNull | PList _ | PDict _ => inl (IntCastError v)
  end.

(** [series.astype(int)]: the first cell that fails gives the exception. *)
Fixpoint astype_int (col : list pyval) : fault + list pyval :=
  match col with
  | [] => inr []
  | v :: col' =>
      match py_int v with
      | inl f => inl f
      | inr z =>
          match astype_int col' with
          | inl f => inl f
          | inr zs => inr (PInt z :: zs)
          end
      end
  end.

(** ** Data frames *)

Record DataFrame := mkFrame {
  columns : list (string * list pyval);
  nrows : nat
}.

(** [df.empty]: some axis has length 0. *)
Definition DataFrame_empty (d : DataFrame) : bool :=
  (nrows d =? 0)%nat || (length (columns d) =? 0)%nat.

Fixpoint col_lookup (c : string) (cols : list (string * list pyval)) : option (list pyval) :=
  match cols with
  | [] => None
  | (c', col) :: cols' => if String.eqb c c' then Some col else col_lookup c cols'
  end.

(** The series behind [df[c]] and [df.get(c)], if the column exists. *)
Definition df_col (c : string) (d : DataFrame) : option (list pyval) :=
  col_lookup c (columns d).

Fixpoint col_set (c : string) (col : list pyval) (cols : list (string * list pyval))
  : list (string * list pyval) :=
  match cols with
  | [] => [(c, col)]
  | (c', col') :: cols' =>
      if String.eqb c c' then (c, col) :: cols' else (c', col') :: col_set c col cols'
  end.

(** [df[c] = series]: a column that exists is replaced where it stands, a
    new one is added last. *)
Definition set_column (c : string) (col : list pyval) (d : DataFrame) : DataFrame :=
  mkFrame (col_set c col (columns d)) (nrows d).

(** [df[c] = scalar]: the scalar in every row. *)
Definition set_scalar (c : string) (v : pyval) (d : DataFrame) : DataFrame :=
  set_column c (replicate (nrows d) v) d.

(** [df[[c1, ..., cn]]]: a new frame with these columns, in this order. *)
Fixpoint select_columns (cs : list string) (d : DataFrame)
  : fault + list (string * list pyval) :=
  match cs with
  | [] => inr []
  | c :: cs' =>
      match df_col c d with
      | None => inl (KeyError c)
      | Some col =>
          match select_columns cs' d with
          | inl f => inl f
          | inr rest => inr ((c, col) :: rest)
          end
      end
  end.

(** The rows of a frame, each as its (column, cell) pairs in column order. *)
Definition row_at (d : DataFrame) (i : nat) : list (string * pyval) :=
  map (fun cc => (fst cc, nth i (snd cc) PNull)) (columns d).

Definition DataFrame_rows (d : DataFrame) : list (list (string * pyval)) :=
  map (row_at d) (seq 0 (nrows d)).

(** Every column has one cell per row. *)
Definition wf_frame (d : DataFrame) : Prop :=
  Forall (fun cc => length (snd cc) = nrows d) (columns d).

(** ** [pd.DataFrame(records)] *)

Definition as_record (v : pyval) : option dict :=
  match v with
  | PDict d => Some d
  | _ => None
  end.

Fixpoint as_records (l : list pyval) : option (list dict) :=
  match l with
  | [] => Some []
  | v :: l' =>
      match as_record v, as_records l' with
      | Some d, Some ds => Some (d :: ds)
      | _, _ => None
      end
  end.

Definition mem_str (s : string) (l : list string) : bool := existsb (String.eqb s) l.

(** The keys of the records in order of first appearance. *)
Fixpoint first_seen (seen : list string) (ks : list string) : list string :=
  match ks with
  | [] => seen
  | k :: ks' => first_seen (if mem_str k seen then seen else seen ++ [k]) ks'
  end.

Definition record_keys (recs : list dict) : list string :=
  first_seen [] (concat (map (map fst) recs)).

(** One column per key, one row per record; a record without the key
    leaves a hole. *)
Definition DataFrame_of_records (recs : list dict) : DataFrame :=
  mkFrame
    (map (fun c => (c, map (fun r => default PNull (dict_get c r)) recs)) (record_keys recs))
    (length recs).

(** ** The outside world *)

(** The lines the module prints. *)
Inductive message :=
| MsgStart
| MsgFetching (method : string)
| MsgNoRows (method : string)
| MsgFetched (n : nat) (method : string)
| MsgNoData (level : string)
| MsgTransforming (level : string)
| MsgSkipUpload (table_name : string)
| MsgUploading (n : nat) (table_id : string)
| MsgUploaded (num_rows : Z).

(** What the process does that can be seen from outside. *)
Inductive event :=
| EvPrint (m : message)
| EvHttpGet (url : string) (params : dict)
| EvClient (project : option string)
| EvLoadJob (rows : DataFrame) (table_id : string) (write_disposition : string) (autodetect : bool)
| EvJobResult
| EvGetTable (table_id : string).

Record response := mkResponse {
  status_code : Z;
  json_body : option pyval      (* [None]: the body is not JSON *)
}.

(** The answers of the clock, the HTTP service and the warehouse; each
    may depend on everything that happened before.  [None] and [false]
    stand for a call that raises. *)
Record world := mkWorld {
  utcnow : list event -> string;
  http_get : list event -> string -> dict -> option response;
  bq_client : list event -> option string -> bool;
  bq_load : list event -> DataFrame -> string -> bool;
  bq_result : list event -> bool;
  bq_get_table : list event -> string -> option Z
}.

(** The module-level settings read from the environment. *)
Record config := mkConfig {
  LASTFM_API_KEY : option string;
  GCP_PROJECT_ID : option string;
  BQ_DATASET : option string;
  GOOGLE_APPLICATION_CREDENTIALS : option string
}.

(** Lines 11-18: four [os.getenv] reads, then
    [os.environ["GOOGLE_APPLICATION_CREDENTIALS"] = ...], which refuses [None]. *)
Definition module_init (getenv : string -> option string) : fault + config :=
  let api_key := getenv "LASTFM_API_KEY" in
  let project := getenv "GCP_PROJECT_ID" in
  let dataset := getenv "BQ_DATASET" in
  let credentials := getenv "GOOGLE_APPLICATION_CREDENTIALS" in
  match credentials with
  | None => inl TypeError
  | Some _ => inr (mkConfig api_key project dataset credentials)
  end.

Definition BQ_TABLE_GEO_ARTISTS := "lastfm_geo_top_artists".
Definition BQ_TABLE_GEO_TRACKS := "lastfm_geo_top_tracks".
Definition BQ_TABLE_CHART_ARTISTS := "lastfm_chart_top_artists".
Definition BQ_TABLE_CHART_TRACKS := "lastfm_chart_top_tracks".
Definition BQ_TABLE_CHART_TAGS := "lastfm_chart_top_tags".
Definition BASE_URL := "https://ws.audioscrobbler.com/2.0/".

(** ** Program states and the monad of the embedding *)

(** References to frames are positions in the heap. *)
Definition ref := nat.

Record state := mkState {
  heap : list DataFrame;
  log : list event
}.

Definition initial_state : state := mkState [] [].

(** A computation runs from a state to a state and either raises or
    returns; the state reached is kept when it raises. *)
Definition M (A : Type) : Type := state -> state * (fault + A).

#[global] Instance M_ret : MRet M := fun A a st => (st, inr a).

#[global] Instance M_bind : MBind M := fun A B f m st =>
  match m st with
  | (st', inr a) => f a st'
  | (st', inl e) => (st', inl e)
  end.

Definition raise {A : Type} (e : fault) : M A := fun st => (st, inl e).

Definition lift {A : Type} (r : fault + A) : M A := fun st => (st, r).

Definition add_log (e : event) (st : state) : state :=
  mkState (heap st) (log st ++ [e]).

Definition empty_frame : DataFrame := mkFrame [] 0.

Definition frame_at (st : state) (df : ref) : DataFrame :=
  default empty_frame (heap st !! df).

Definition with_frame (df : ref) (d : DataFrame) (st : state) : state :=
  mkState (<[df := d]> (heap st)) (log st).

Definition with_new_frame (d : DataFrame) (st : state) : state :=
  mkState (heap st ++ [d]) (log st).

Definition emit (e : event) : M unit := fun st => (add_log e st, inr tt).

Definition say (m : message) : M unit := emit (EvPrint m).

Definition frame (df : ref) : M DataFrame := fun st => (st, inr (frame_at st df)).

Definition update (df : ref) (f : DataFrame -> DataFrame) : M unit :=
  fun st => (with_frame df (f (frame_at st df)) st, inr tt).

Definition alloc (d : DataFrame) : M ref :=
  fun st => (with_new_frame d st, inr (length (heap st))).

(** ** The module's functions *)

(** The right-hand side of [df[c] = ...]: a series, or a scalar put in
    every row. *)
Inductive rhs :=
| Series (col : list pyval)
| Scalar (v : pyval).

Definition assign (c : string) (v : rhs) (d : DataFrame) : DataFrame :=
  match v with
  | Series col => set_column c col d
  | Scalar x => set_scalar c x d
  end.

(** [lambda x: x.get("name") if isinstance(x, dict) else None] *)
Definition artist_name_of (x : pyval) : pyval :=
  match x with
  | PDict d => default PNull (dict_get "name" d)
  | _ => PNull
  end.

(** [v.get(k, dflt)]: only a dict has the method. *)
Definition py_get (v : pyval) (k : string) (dflt : pyval) : fault + pyval :=
  match v with
  | PDict d => inr (default dflt (dict_get k d))
  | _ => inl AttributeError
  end.

(** The literal [key_map] of [extract_global], and [key_map[method]]. *)
Definition key_map : list (string * (string * string)) :=
  [ ("geo.gettopartists", ("topartists", "artist"));
    ("geo.gettoptracks", ("tracks", "track"));
    ("chart.gettopartists", ("artists", "artist"));
    ("chart.gettoptracks", ("tracks", "track"));
    ("chart.gettoptags", ("tags", "tag")) ].

Fixpoint key_map_getitem (method : string) (m : list (string * (string * string)))
  : fault + (string * string) :=
  match m with
  | [] => inl (KeyError method)
  | (k, v) :: m' => if String.eqb method k then inr v else key_map_getitem method m'
  end.

(** How an f-string prints an optional setting. *)
Definition fmt (o : option string) : string := default "None" o.

Definition opt_str (o : option string) : pyval :=
  match o with
  | Some s => PStr s
  | None => PNull
  end.

Section Pipeline.

(** The world the process runs in. *)
Variable w : world.

(** What [pd.DataFrame] does with an argument that is not a list of
    dicts (pandas decides; the module never relies on it). *)
Variable DataFrame_other : pyval -> fault + DataFrame.

(** The module-level settings, as [module_init] left them. *)
Variable cfg : config.

(** *** Primitive operations *)

Definition utcnow_isoformat : M string := fun st => (st, inr (utcnow w (log st))).

Definition getitem (df : ref) (c : string) : M (list pyval) :=
  d ← frame df;
  match df_col c d with
  | Some col => mret col
  | None => raise (KeyError c)
  end.

(** [df.get(c, None)] *)
Definition df_get (df : ref) (c : string) : M rhs :=
  d ← frame df;
  mret (match df_col c d with
        | Some col => Series col
        | None => Scalar PNull
        end).

Definition setitem (df : ref) (c : string) (v : rhs) : M unit := update df (assign c v).

Definition select (df : ref) (cs : list string) : M ref :=
  d ← frame df;
  cols ← lift (select_columns cs d);
  alloc (mkFrame cols (nrows d)).

Definition pd_DataFrame (records : pyval) : M ref :=
  d ← lift (match records with
            | PList l =>
                match as_records l with
                | Some recs => inr (DataFrame_of_records recs)
                | None => DataFrame_other records
                end
            | _ => DataFrame_other records
            end);
  alloc d.

Definition requests_get (url : string) (params : dict) : M response :=
  fun st =>
    let st' := add_log (EvHttpGet url params) st in
    match http_get w (log st) url params with
    | Some r => (st', inr r)
    | None => (st', inl RequestException)
    end.

Definition raise_for_status (r : response) : M unit :=
  if (400 <=? status_code r) && (status_code r <? 600)
  then raise (HTTPError (status_code r))
  else mret tt.

Definition response_json (r : response) : M pyval :=
  match json_body r with
  | Some v => mret v
  | None => raise JSONDecodeError
  end.

(** A warehouse call: the event, then the world's answer. *)
Definition warehouse {A : Type} (e : event) (answer : list event -> option A) : M A :=
  fun st =>
    let st' := add_log e st in
    match answer (log st) with
    | Some a => (st', inr a)
    | None => (st', inl GoogleAPIError)
    end.

Definition succeeded (b : bool) : option unit := if b then Some tt else None.

(** *** [extract_global] (lines 29-60) *)

(** The dict [base_params] after [base_params.update(params)]. *)
Definition base_params (method : string) (params : dict) : dict :=
  dict_update
    [ ("method", PStr method);
      ("api_key", opt_str (LASTFM_API_KEY cfg));
      ("format", PStr "json");
      ("limit", PInt 100) ]
    params.

Definition extract_global (method : string) (params : dict) : M ref :=
  say (MsgFetching method);;
  response ← requests_get BASE_URL (base_params method params);
  raise_for_status response;;
  data ← response_json response;
  keys ← lift (key_map_getitem method key_map);
  let parent_key := fst keys in
  let child_key := snd keys in
  inner ← lift (py_get data parent_key (PDict []));
  records ← lift (py_get inner child_key (PList []));
  df ← pd_DataFrame records;
  d ← frame df;
  (if DataFrame_empty d
   then say (MsgNoRows method)
   else say (MsgFetched (nrows d) method));;
  mret df.

(** *** [transform_global] (lines 62-92) *)

Definition transform_global (df : ref) (level : string) : M ref :=
  d ← frame df;
  if DataFrame_empty d then
    say (MsgNoData level);;
    mret df
  else
    say (MsgTransforming level);;
    now ← utcnow_isoformat;
    if mem_str level ["geo_artists"; "chart_artists"] then
      name ← getitem df "name";
      setitem df "artist_name" (Series name);;
      listeners ← getitem df "listeners";
      listeners ← lift (astype_int listeners);
      setitem df "listeners" (Series listeners);;
      playcount ← df_get df "playcount";
      setitem df "playcount" playcount;;
      setitem df "timestamp" (Scalar (PStr now));;
      select df ["artist_name"; "listeners"; "playcount"; "timestamp"]
    else if mem_str level ["geo_tracks"; "chart_tracks"] then
      artist ← getitem df "artist";
      setitem df "artist_name" (Series (map artist_name_of artist));;
      name ← getitem df "name";
      setitem df "track_name" (Series name);;
      listeners ← getitem df "listeners";
      listeners ← lift (astype_int listeners);
      setitem df "listeners" (Series listeners);;
      setitem df "timestamp" (Scalar (PStr now));;
      select df ["artist_name"; "track_name"; "listeners"; "timestamp"]
    else if String.eqb level "chart_tags" then
      name ← getitem df "name";
      setitem df "tag_name" (Series name);;
      reach ← getitem df "reach";
      reach ← lift (astype_int reach);
      setitem df "reach" (Series reach);;
      taggings ← getitem df "taggings";
      taggings ← lift (astype_int taggings);
      setitem df "taggings" (Series taggings);;
      setitem df "timestamp" (Scalar (PStr now));;
      select df ["tag_name"; "reach"; "taggings"; "timestamp"]
    else
      mret df.

(** *** [load_to_bigquery] (lines 94-112) *)

Definition load_to_bigquery (df : ref) (table_name : string) : M unit :=
  d ← frame df;
  if DataFrame_empty d then
    say (MsgSkipUpload table_name)
  else
    warehouse (EvClient (GCP_PROJECT_ID cfg))
      (fun h => succeeded (bq_client w h (GCP_PROJECT_ID cfg)));;
    let table_id :=
      fmt (GCP_PROJECT_ID cfg) +:+ "." +:+ fmt (BQ_DATASET cfg) +:+ "." +:+ table_name in
    say (MsgUploading (nrows d) table_id);;
    warehouse (EvLoadJob d table_id "WRITE_APPEND" true)
      (fun h => succeeded (bq_load w h d table_id));;
    warehouse EvJobResult (fun h => succeeded (bq_result w h));;
    num_rows ← warehouse (EvGetTable table_id) (fun h => bq_get_table w h table_id);
    say (MsgUploaded num_rows).

(** *** [etl_global_topdata] (lines 115-137) *)

Definition etl_global_topdata : M unit :=
  say MsgStart;;
  df_geo_artists ← extract_global "geo.gettopartists" [("country", PStr "indonesia")];
  df_geo_artists_t ← transform_global df_geo_artists "geo_artists";
  load_to_bigquery df_geo_artists_t BQ_TABLE_GEO_ARTISTS;;
  df_geo_tracks ← extract_global "geo.gettoptracks" [("country", PStr "indonesia")];
  df_geo_tracks_t ← transform_global df_geo_tracks "geo_tracks";
  load_to_bigquery df_geo_tracks_t BQ_TABLE_GEO_TRACKS;;
  df_chart_artists ← extract_global "chart.gettopartists" [];
  df_chart_artists_t ← transform_global df_chart_artists "chart_artists";
  load_to_bigquery df_chart_artists_t BQ_TABLE_CHART_ARTISTS;;
  df_chart_tracks ← extract_global "chart.gettoptracks" [];
  df_chart_tracks_t ← transform_global df_chart_tracks "chart_tracks";
  load_to_bigquery df_chart_tracks_t BQ_TABLE_CHART_TRACKS;;
  df_chart_tags ← extract_global "chart.gettoptags" [];
  df_chart_tags_t ← transform_global df_chart_tags "chart_tags";
  load_to_bigquery df_chart_tags_t BQ_TABLE_CHART_TAGS.

End Pipeline.

(** One run of the process: the module is loaded, then the flow is called. *)
Definition run (w : world) (DataFrame_other : pyval -> fault + DataFrame)
  (getenv : string -> option string) : state * (fault + unit) :=
  match module_init getenv with
  | inl f => (initial_state, inl f)
  | inr cfg => etl_global_topdata w DataFrame_other cfg initial_state
  end.

(** * Notions used in the statements *)

(** A reference is valid in a state when it points into the heap. *)
Definition valid (df : ref) (st : state) : Prop := (df < length (heap st))%nat.

(** ** Shapes *)

(** The five shape kinds, and the columns [transform_global] projects
    each of them to (the lists of lines 76, 83 and 90). *)
Definition known_levels : list string :=
  ["geo_artists"; "geo_tracks"; "chart_artists"; "chart_tracks"; "chart_tags"].

Definition derived_columns (level : string) : list string :=
  if mem_str level ["geo_artists"; "chart_artists"] then
    ["artist_name"; "listeners"; "playcount"; "timestamp"]
  else if mem_str level ["geo_tracks"; "chart_tracks"] then
    ["artist_name"; "track_name"; "listeners"; "timestamp"]
  else if String.eqb level "chart_tags" then
    ["tag_name"; "reach"; "taggings"; "timestamp"]
  else [].

(** The frames [transform_global] returns, by shape. *)
Definition artists_out (name listeners playcount : list pyval) (now : string) (n : nat)
  : DataFrame :=
  mkFrame [("artist_name", name); ("listeners", listeners); ("playcount", playcount);
           ("timestamp", replicate n (PStr now))] n.

Definition tracks_out (artist_name name listeners : list pyval) (now : string) (n : nat)
  : DataFrame :=
  mkFrame [("artist_name", artist_name); ("track_name", name); ("listeners", listeners);
           ("timestamp", replicate n (PStr now))] n.

Definition tags_out (name reach taggings : list pyval) (now : string) (n : nat)
  : DataFrame :=
  mkFrame [("tag_name", name); ("reach", reach); ("taggings", taggings);
           ("timestamp", replicate n (PStr now))] n.

(** A frame without its [timestamp] column. *)
Definition drop_timestamp (d : DataFrame) : DataFrame :=
  mkFrame (filter (fun cc => String.eqb (fst cc) "timestamp" = false) (columns d)) (nrows d).

(** Two outcomes of [transform_global] agree up to the timestamp: the
    same exception, or returned tables that are equal once their
    [timestamp] column is left out. *)
Definition same_modulo_timestamp (a b : state * (fault + ref)) : Prop :=
  match snd a, snd b with
  | inr o1, inr o2 =>
      drop_timestamp (frame_at (fst a) o1) = drop_timestamp (frame_at (fst b) o2)
  | inl e1, inl e2 => e1 = e2
  | _, _ => False
  end.

(** ** Logs *)

Definition is_print (e : event) : bool :=
  match e with
  | EvPrint _ => true
  | _ => false
  end.

Definition is_http (e : event) : bool :=
  match e with
  | EvHttpGet _ _ => true
  | _ => false
  end.

(** The events that leave the process: requests and warehouse calls. *)
Definition is_external_call (e : event) : bool := negb (is_print e).

(** The [method] parameters of the HTTP requests of a log, in order. *)
Fixpoint http_methods (l : list event) : list pyval :=
  match l with
  | [] => []
  | EvHttpGet _ params :: l' => default PNull (dict_get "method" params) :: http_methods l'
  | _ :: l' => http_methods l'
  end.

(** A computation is quiet for [Q] when every event it adds to the log
    satisfies [Q], however it ends. *)
Definition quiet {A : Type} (Q : event -> Prop) (m : M A) : Prop :=
  forall st, exists new, log (fst (m st)) = (log st ++ new)%list /\ Forall Q new.

(** ** Stages *)

(** One sub-pipeline of the flow: the arguments of its three calls. *)
Record stage := mkStage {
  stage_method : string;
  stage_params : dict;
  stage_level : string;
  stage_table : string
}.

(** The five sub-pipelines of [etl_global_topdata], in the order of
    lines 119-137. *)
Definition five_stages : list stage :=
  [ mkStage "geo.gettopartists" [("country", PStr "indonesia")] "geo_artists" BQ_TABLE_GEO_ARTISTS;
    mkStage "geo.gettoptracks" [("country", PStr "indonesia")] "geo_tracks" BQ_TABLE_GEO_TRACKS;
    mkStage "chart.gettopartists" [] "chart_artists" BQ_TABLE_CHART_ARTISTS;
    mkStage "chart.gettoptracks" [] "chart_tracks" BQ_TABLE_CHART_TRACKS;
    mkStage "chart.gettoptags" [] "chart_tags" BQ_TABLE_CHART_TAGS ].

Definition five_methods : list pyval :=
  [ PStr "geo.gettopartists"; PStr "geo.gettoptracks"; PStr "chart.gettopartists";
    PStr "chart.gettoptracks"; PStr "chart.gettoptags" ].

(** The [method] parameter a stage puts in its request. *)
Definition request_method (cfg : config) (s : stage) : pyval :=
  default PNull (dict_get "method" (base_params cfg (stage_method s) (stage_params s))).

(** The three lines of one sub-pipeline, and a sequence of sub-pipelines. *)
Definition run_stage (w : world) (DataFrame_other : pyval -> fault + DataFrame)
  (cfg : config) (s : stage) : M unit :=
  df ← extract_global w DataFrame_other cfg (stage_method s) (stage_params s);
  df_t ← transform_global w df (stage_level s);
  load_to_bigquery w cfg df_t (stage_table s).

Fixpoint run_stages (w : world) (DataFrame_other : pyval -> fault + DataFrame)
  (cfg : config) (l : list stage) : M unit :=
  match l with
  | [] => mret tt
  | s :: l' => run_stage w DataFrame_other cfg s;; run_stages w DataFrame_other cfg l'
  end.

(** What [extract_global] does once [requests.get] has returned. *)
Definition after_request (DataFrame_other : pyval -> fault + DataFrame)
  (method : string) (response : response) : M ref :=
  raise_for_status response;;
  data ← response_json response;
  keys ← lift (key_map_getitem method key_map);
  inner ← lift (py_get data (fst keys) (PDict []));
  records ← lift (py_get inner (snd keys) (PList []));
  df ← pd_DataFrame DataFrame_other records;
  d ← frame df;
  (if DataFrame_empty d
   then say (MsgNoRows method)
   else say (MsgFetched (nrows d) method));;
  mret df.

(** ** The outcome of a fetch *)

(** What [pd.DataFrame] makes of the value found under the two keys. *)
Definition frame_of_value (DataFrame_other : pyval -> fault + DataFrame)
  (records : pyval) : fault + DataFrame :=
  match records with
  | PList l =>
      match as_records l with
      | Some recs => inr (DataFrame_of_records recs)
      | None => DataFrame_other records
      end
  | _ => DataFrame_other records
  end.

(** The table [extract_global] builds, or the exception it raises, from
    the answer the world gives to its request after [history]. *)
Definition fetched (w : world) (DataFrame_other : pyval -> fault + DataFrame)
  (cfg : config) (method : string) (params : dict) (history : list event)
  : fault + DataFrame :=
  match http_get w history BASE_URL (base_params cfg method params) with
  | None => inl RequestException
  | Some r =>
      if (400 <=? status_code r) && (status_code r <? 600)
      then inl (HTTPError (status_code r))
      else
        match json_body r with
        | None => inl JSONDecodeError
        | Some data =>
            match key_map_getitem method key_map with
            | inl e => inl e
            | inr keys =>
                match py_get data (fst keys) (PDict []) with
                | inl e => inl e
                | inr inner =>
                    match py_get inner (snd keys) (PList []) with
                    | inl e => inl e
                    | inr records => frame_of_value DataFrame_other records
                    end
                end
            end
        end
  end.

(** The state right after the request of [extract_global]. *)
Definition requested (cfg : config) (method : string) (params : dict) (st : state) : state :=
  add_log (EvHttpGet BASE_URL (base_params cfg method params))
    (add_log (EvPrint (MsgFetching method)) st).

(** The line [extract_global] prints about the table it built. *)
Definition fetch_line (method : string) (d : DataFrame) : message :=
  if DataFrame_empty d then MsgNoRows method else MsgFetched (nrows d) method.

(** ** Tables that only grow *)

(** [D] has the rows of [d] and at least its columns, and is well formed
    if [d] is. *)
Definition grown (d D : DataFrame) : Prop :=
  nrows D = nrows d /\
  (forall c, is_Some (df_col c d) -> is_Some (df_col c D)) /\
  (wf_frame d -> wf_frame D).

(** ** What is loaded *)

(** The identifier [load_to_bigquery] resolves a table name to. *)
Definition table_id_of (cfg : config) (table_name : string) : string :=
  fmt (GCP_PROJECT_ID cfg) +:+ "." +:+ fmt (BQ_DATASET cfg) +:+ "." +:+ table_name.

(** The four warehouse calls of one load, in the order of lines 100-111. *)
Definition load_calls (cfg : config) (d : DataFrame) (table_name : string) : list event :=
  [ EvClient (GCP_PROJECT_ID cfg);
    EvLoadJob d (table_id_of cfg table_name) "WRITE_APPEND" true;
    EvJobResult;
    EvGetTable (table_id_of cfg table_name) ].

(** A load job that appends, to the destination of one of the stages, a
    non-empty table with the columns of that stage's shape. *)
Definition well_loaded (cfg : config) (stages : list stage) (e : event) : Prop :=
  match e with
  | EvLoadJob rows table_id write_disposition autodetect =>
      write_disposition = "WRITE_APPEND" /\
      autodetect = true /\
      DataFrame_empty rows = false /\
      exists s,
        In s stages /\
        table_id = table_id_of cfg (stage_table s) /\
        map fst (columns rows) = derived_columns (stage_level s)
  | _ => True
  end.

(** ** Plain decimal text *)

(** The number a list of decimal digits writes. *)
Definition decimal_value (l : list ascii) : Z :=
  fold_left (fun acc c => 10 * acc + default 0 (digit_of c)) l 0.

(** Text made of one to eighteen decimal digits and nothing else, the way
    Last.fm writes its counts. *)
Definition plain_decimal (s : string) : Prop :=
  let l := String.list_ascii_of_string s in
  l <> [] /\ Forall (fun c => is_Some (digit_of c)) l /\ (length l <= 18)%nat.

(** ** A warehouse that accepts *)

(** Every warehouse call succeeds, whatever happened before. *)
Definition accepting (w : world) : Prop :=
  (forall h p, bq_client w h p = true) /\
  (forall h d t, bq_load w h d t = true) /\
  (forall h, bq_result w h = true) /\
  (forall h t, is_Some (bq_get_table w h t)).

(** * Sample inputs *)

(** An environment where only the credential path is set. *)
Definition env_credentials_only : string -> option string :=
  fun k => if String.eqb k "GOOGLE_APPLICATION_CREDENTIALS" then Some "key.json" else None.

(** An environment with the four settings. *)
Definition env_complete : string -> option string :=
  fun k =>
    if String.eqb k "GOOGLE_APPLICATION_CREDENTIALS" then Some "key.json"
    else if String.eqb k "LASTFM_API_KEY" then Some "0123abcd"
    else if String.eqb k "GCP_PROJECT_ID" then Some "project"
    else if String.eqb k "BQ_DATASET" then Some "lastfm"
    else None.

Definition sample_config : config :=
  mkConfig (Some "0123abcd") (Some "project") (Some "lastfm") (Some "key.json").

(** A world whose HTTP service refuses every request with status 403 and
    whose warehouse refuses every call. *)
Definition refusing_world : world :=
  mkWorld (fun _ => "2024-05-01T00:00:00")
          (fun _ _ _ => Some (mkResponse 403 None))
          (fun _ _ => false)
          (fun _ _ _ => false)
          (fun _ => false)
          (fun _ _ => None).

(** A world whose HTTP service answers every request with the given JSON
    body and whose warehouse accepts every call. *)
Definition answering_world (body : pyval) : world :=
  mkWorld (fun _ => "2024-05-02T00:00:00")
          (fun _ _ _ => Some (mkResponse 200 (Some body)))
          (fun _ _ => true)
          (fun _ _ _ => true)
          (fun _ => true)
          (fun _ _ => Some 1).

(** [pd.DataFrame] refusing whatever is not a list of dicts. *)
Definition refuse_other : pyval -> fault + DataFrame := fun _ => inl FrameError.

(** The body Last.fm sends with an error: none of the outer keys. *)
Definition sample_error_body : pyval :=
  PDict [("error", PInt 6); ("message", PStr "Invalid parameters")].

(** A body with an empty list of tracks. *)
Definition sample_no_tracks : pyval := PDict [("tracks", PDict [("track", PList [])])].

(** A state with one frame, at reference 0. *)
Definition sample_state (d : DataFrame) : state := mkState [d] [].

Definition sample_artists : DataFrame :=
  mkFrame [("name", [PStr "X"; PStr "Y"]); ("listeners", [PStr "10"; PStr " 2_000 "])] 2.

Definition sample_tracks : DataFrame :=
  mkFrame [("name", [PStr "T"; PStr "U"]);
           ("artist", [PDict [("name", PStr "A"); ("mbid", PStr "")]; PStr "B"]);
           ("listeners", [PStr "5"; PInt 7])] 2.

Definition sample_tags : DataFrame :=
  mkFrame [("name", [PStr "rock"]); ("reach", [PStr "12"]); ("taggings", [PStr "345"])] 1.

Definition sample_tags_text : DataFrame :=
  mkFrame [("name", [PStr "rock"]); ("reach", [PStr "many"]); ("taggings", [PStr "345"])] 1.

Definition sample_empty : DataFrame := mkFrame [] 0.

(** A body with one artist, as Last.fm answers [geo.gettopartists]. *)
Definition sample_top_artists : pyval :=
  PDict [("topartists",
          PDict [("artist", PList [PDict [("name", PStr "X"); ("listeners", PStr "10")]])])].

(** Records with fields missing: the second has no [name], the first no
    [playcount]. *)
Definition sample_records : list dict :=
  [ [("name", PStr "X"); ("listeners", PStr "10")];
    [("listeners", PStr "7"); ("playcount", PStr "3")] ].

(** Tags whose [reach] is a number and whose [taggings] is not. *)
Definition sample_tags_half : DataFrame :=
  mkFrame [("name", [PStr "rock"]); ("reach", [PStr "12"]); ("taggings", [PStr "many"])] 1.

(** * Properties *)

(** ** Columns of a frame *)

Lemma col_lookup_set_eq c v cols : col_lookup c (col_set c v cols) = Some v.
Proof.
  induction cols as [|[c' v'] cols IH]; simpl.
  - by rewrite String.eqb_refl.
  - destruct (String.eqb c c') eqn:E; simpl; rewrite ?String.eqb_refl, ?E; done.
Qed.

Lemma col_lookup_set_ne c c' v cols :
  String.eqb c' c = false -> col_lookup c' (col_set c v cols) = col_lookup c' cols.
Proof.
  intros Hne. induction cols as [|[k v'] cols IH]; simpl.
  - by rewrite Hne.
  - destruct (String.eqb c k) eqn:E; simpl.
    + apply String.eqb_eq in E. subst k. by rewrite Hne.
    + by rewrite IH.
Qed.

Lemma df_col_set_eq c v d : df_col c (set_column c v d) = Some v.
Proof. apply col_lookup_set_eq. Qed.

Lemma df_col_set_ne c c' v d :
  String.eqb c' c = false -> df_col c' (set_column c v d) = df_col c' d.
Proof. apply col_lookup_set_ne. Qed.

Lemma nrows_set_column c v d : nrows (set_column c v d) = nrows d.
Proof. reflexivity. Qed.

Lemma col_lookup_length c col cols n :
  Forall (fun cc => length (snd cc) = n) cols ->
  col_lookup c cols = Some col -> length col = n.
Proof.
  induction 1 as [|[k v] cols Hk _ IH]; simpl; [done|].
  destruct (String.eqb c k); [|done]. by intros [= <-].
Qed.

Lemma df_col_length c col d : wf_frame d -> df_col c d = Some col -> length col = nrows d.
Proof. apply col_lookup_length. Qed.

(** The frames [pd.DataFrame] builds from records are well formed. *)
Lemma DataFrame_of_records_wf recs : wf_frame (DataFrame_of_records recs).
Proof.
  unfold wf_frame, DataFrame_of_records. cbn [columns nrows].
  apply Forall_forall. intros cc Hcc.
  apply list_elem_of_fmap in Hcc as [c [-> _]]. simpl. apply length_map.
Qed.

(** ** States *)

Lemma frame_at_with_frame df d st : valid df st -> frame_at (with_frame df d st) df = d.
Proof. intros H. unfold frame_at, with_frame. simpl. by rewrite list_lookup_insert_eq. Qed.

Lemma frame_at_with_frame_ne df df' d st :
  df <> df' -> frame_at (with_frame df d st) df' = frame_at st df'.
Proof. intros H. unfold frame_at, with_frame. simpl. by rewrite list_lookup_insert_ne. Qed.

Lemma frame_at_add_log e st df : frame_at (add_log e st) df = frame_at st df.
Proof. reflexivity. Qed.

Lemma frame_at_new d st : frame_at (with_new_frame d st) (length (heap st)) = d.
Proof.
  unfold frame_at, with_new_frame. simpl.
  rewrite lookup_app_r by lia. by rewrite Nat.sub_diag.
Qed.

Lemma frame_at_old d st df : valid df st -> frame_at (with_new_frame d st) df = frame_at st df.
Proof. intros H. unfold frame_at, with_new_frame. simpl. by rewrite lookup_app_l. Qed.

Lemma with_frame_twice df d1 d2 st :
  with_frame df d2 (with_frame df d1 st) = with_frame df d2 st.
Proof. unfold with_frame. simpl. by rewrite list_insert_insert_eq. Qed.

Lemma length_heap_with_frame df d st : length (heap (with_frame df d st)) = length (heap st).
Proof. apply length_insert. Qed.

Lemma frame_at_out d d' df e st :
  frame_at (with_new_frame d (with_frame df d' (add_log e st))) (length (heap st)) = d.
Proof.
  change (length (heap st)) with (length (heap (add_log e st))).
  rewrite <- (length_heap_with_frame df d' (add_log e st)). apply frame_at_new.
Qed.

Lemma valid_with_frame df df' d st : valid df st -> valid df (with_frame df' d st).
Proof. unfold valid. by rewrite length_heap_with_frame. Qed.

Lemma valid_add_log df e st : valid df st -> valid df (add_log e st).
Proof. done. Qed.

Lemma valid_with_new_frame df d st : valid df st -> valid df (with_new_frame d st).
Proof. unfold valid, with_new_frame. simpl. rewrite length_app. lia. Qed.

(** ** One step of a computation *)

Lemma bind_assoc {A B C} (m : M A) (f : A -> M B) (g : B -> M C) st :
  ((m ≫= f) ≫= g) st = (m ≫= fun a => f a ≫= g) st.
Proof.
  unfold mbind, M_bind. destruct (m st) as [st' [e|a]]; reflexivity.
Qed.

Lemma bind_say {B} m (k : unit -> M B) st : (say m ≫= k) st = k tt (add_log (EvPrint m) st).
Proof. reflexivity. Qed.

Lemma bind_frame {B} df (k : DataFrame -> M B) st : (frame df ≫= k) st = k (frame_at st df) st.
Proof. reflexivity. Qed.

Lemma bind_utcnow {B} w (k : string -> M B) st :
  (utcnow_isoformat w ≫= k) st = k (utcnow w (log st)) st.
Proof. reflexivity. Qed.

Lemma bind_getitem {B} df c (k : list pyval -> M B) st :
  (getitem df c ≫= k) st =
  match df_col c (frame_at st df) with
  | Some col => k col st
  | None => (st, inl (KeyError c))
  end.
Proof.
  unfold getitem, mbind, M_bind, frame. simpl.
  by destruct (df_col c (frame_at st df)).
Qed.

Lemma bind_setitem {B} df c v (k : unit -> M B) st :
  (setitem df c v ≫= k) st = k tt (with_frame df (assign c v (frame_at st df)) st).
Proof. reflexivity. Qed.

Lemma bind_lift {A B} (r : fault + A) (k : A -> M B) st :
  (lift r ≫= k) st = match r with inr a => k a st | inl e => (st, inl e) end.
Proof. by destruct r. Qed.

Lemma bind_df_get {B} df c (k : rhs -> M B) st :
  (df_get df c ≫= k) st =
  k (match df_col c (frame_at st df) with
     | Some col => Series col
     | None => Scalar PNull
     end) st.
Proof. reflexivity. Qed.

Lemma select_run df cs st :
  select df cs st =
  match select_columns cs (frame_at st df) with
  | inr cols =>
      (with_new_frame (mkFrame cols (nrows (frame_at st df))) st, inr (length (heap st)))
  | inl e => (st, inl e)
  end.
Proof.
  unfold select, mbind, M_bind, frame, lift. simpl.
  by destruct (select_columns _ _).
Qed.

(** ** [transform_global], branch by branch

    Each lemma below runs one branch of [transform_global] on an arbitrary
    frame and records every way it can end: which exception leaves it, and
    what the input frame looks like at that point. *)

Ltac same_frame :=
  rewrite ?with_frame_twice, ?frame_at_with_frame
    by auto using valid_add_log, valid_with_frame.

Ltac other_column :=
  repeat first [ rewrite df_col_set_eq | rewrite df_col_set_ne by reflexivity ].

Lemma transform_empty w st df level :
  DataFrame_empty (frame_at st df) = true ->
  transform_global w df level st = (add_log (EvPrint (MsgNoData level)) st, inr df).
Proof. intros He. unfold transform_global. by rewrite bind_frame, He. Qed.

Lemma transform_other_level w st df level :
  DataFrame_empty (frame_at st df) = false ->
  mem_str level ["geo_artists"; "chart_artists"] = false ->
  mem_str level ["geo_tracks"; "chart_tracks"] = false ->
  String.eqb level "chart_tags" = false ->
  transform_global w df level st = (add_log (EvPrint (MsgTransforming level)) st, inr df).
Proof.
  intros He Ha Ht Hg. unfold transform_global.
  by rewrite bind_frame, He, bind_say, bind_utcnow, Ha, Ht, Hg.
Qed.

Lemma transform_artists_run w st df level :
  valid df st ->
  DataFrame_empty (frame_at st df) = false ->
  mem_str level ["geo_artists"; "chart_artists"] = true ->
  let d := frame_at st df in
  let st0 := add_log (EvPrint (MsgTransforming level)) st in
  let now := utcnow w (log st0) in
  transform_global w df level st =
  match df_col "name" d with
  | None => (st0, inl (KeyError "name"))
  | Some name =>
      let d1 := set_column "artist_name" name d in
      match df_col "listeners" d with
      | None => (with_frame df d1 st0, inl (KeyError "listeners"))
      | Some listeners =>
          match astype_int listeners with
          | inl e => (with_frame df d1 st0, inl e)
          | inr zs =>
              let pc := default (replicate (nrows d) PNull) (df_col "playcount" d) in
              let d4 := set_scalar "timestamp" (PStr now)
                          (set_column "playcount" pc (set_column "listeners" zs d1)) in
              (with_new_frame (artists_out name zs pc now (nrows d)) (with_frame df d4 st0),
               inr (length (heap st)))
          end
      end
  end.
Proof.
  intros Hv He Hl d st0 now.
  unfold transform_global. rewrite bind_frame, He, bind_say, bind_utcnow, Hl.
  fold st0. fold now.
  assert (Hv0 : valid df st0) by done.
  rewrite bind_getitem. change (frame_at st0 df) with d.
  destruct (df_col "name" d) as [name|] eqn:Hn; [|done].
  rewrite bind_setitem, bind_getitem. same_frame.
  change (frame_at st0 df) with d. cbn [assign]. other_column.
  destruct (df_col "listeners" d) as [listeners|] eqn:Hli; [|done].
  rewrite bind_lift.
  destruct (astype_int listeners) as [e|zs] eqn:Hz; [done|].
  rewrite bind_setitem. same_frame.
  rewrite bind_df_get. same_frame.
  rewrite bind_setitem. same_frame.
  rewrite bind_setitem. same_frame.
  rewrite select_run. same_frame.
  cbn [assign]. other_column.
  assert (Hpc : assign "playcount"
            match df_col "playcount" d with
            | Some col => Series col
            | None => Scalar PNull
            end (set_column "listeners" zs (set_column "artist_name" name d))
          = set_column "playcount" (default (replicate (nrows d) PNull) (df_col "playcount" d))
              (set_column "listeners" zs (set_column "artist_name" name d))).
  { by destruct (df_col "playcount" d). }
  rewrite Hpc. unfold set_scalar. cbn [select_columns]. other_column.
  rewrite !nrows_set_column, length_heap_with_frame. reflexivity.
Qed.

Lemma transform_tracks_run w st df level :
  valid df st ->
  DataFrame_empty (frame_at st df) = false ->
  mem_str level ["geo_artists"; "chart_artists"] = false ->
  mem_str level ["geo_tracks"; "chart_tracks"] = true ->
  let d := frame_at st df in
  let st0 := add_log (EvPrint (MsgTransforming level)) st in
  let now := utcnow w (log st0) in
  transform_global w df level st =
  match df_col "artist" d with
  | None => (st0, inl (KeyError "artist"))
  | Some artist =>
      let d1 := set_column "artist_name" (map artist_name_of artist) d in
      match df_col "name" d with
      | None => (with_frame df d1 st0, inl (KeyError "name"))
      | Some name =>
          let d2 := set_column "track_name" name d1 in
          match df_col "listeners" d with
          | None => (with_frame df d2 st0, inl (KeyError "listeners"))
          | Some listeners =>
              match astype_int listeners with
              | inl e => (with_frame df d2 st0, inl e)
              | inr zs =>
                  let d4 := set_scalar "timestamp" (PStr now) (set_column "listeners" zs d2) in
                  (with_new_frame
                     (tracks_out (map artist_name_of artist) name zs now (nrows d))
                     (with_frame df d4 st0),
                   inr (length (heap st)))
              end
          end
      end
  end.
Proof.
  intros Hv He Ha Hl d st0 now.
  unfold transform_global. rewrite bind_frame, He, bind_say, bind_utcnow, Ha, Hl.
  fold st0. fold now.
  assert (Hv0 : valid df st0) by done.
  rewrite bind_getitem. change (frame_at st0 df) with d.
  destruct (df_col "artist" d) as [artist|] eqn:Har; [|done].
  rewrite bind_setitem, bind_getitem. same_frame.
  change (frame_at st0 df) with d. cbn [assign]. other_column.
  destruct (df_col "name" d) as [name|] eqn:Hn; [|done].
  rewrite bind_setitem, bind_getitem. same_frame.
  cbn [assign]. other_column.
  destruct (df_col "listeners" d) as [listeners|] eqn:Hli; [|done].
  rewrite bind_lift.
  destruct (astype_int listeners) as [e|zs] eqn:Hz; [done|].
  rewrite bind_setitem. same_frame.
  rewrite bind_setitem. same_frame.
  rewrite select_run. same_frame.
  cbn [assign]. unfold set_scalar. cbn [select_columns]. other_column.
  rewrite !nrows_set_column, length_heap_with_frame. reflexivity.
Qed.

Lemma transform_tags_run w st df level :
  valid df st ->
  DataFrame_empty (frame_at st df) = false ->
  mem_str level ["geo_artists"; "chart_artists"] = false ->
  mem_str level ["geo_tracks"; "chart_tracks"] = false ->
  String.eqb level "chart_tags" = true ->
  let d := frame_at st df in
  let st0 := add_log (EvPrint (MsgTransforming level)) st in
  let now := utcnow w (log st0) in
  transform_global w df level st =
  match df_col "name" d with
  | None => (st0, inl (KeyError "name"))
  | Some name =>
      let d1 := set_column "tag_name" name d in
      match df_col "reach" d with
      | None => (with_frame df d1 st0, inl (KeyError "reach"))
      | Some reach =>
          match astype_int reach with
          | inl e => (with_frame df d1 st0, inl e)
          | inr rz =>
              let d2 := set_column "reach" rz d1 in
              match df_col "taggings" d with
              | None => (with_frame df d2 st0, inl (KeyError "taggings"))
              | Some taggings =>
                  match astype_int taggings with
                  | inl e => (with_frame df d2 st0, inl e)
                  | inr tz =>
                      let d4 := set_scalar "timestamp" (PStr now)
                                  (set_column "taggings" tz d2) in
                      (with_new_frame (tags_out name rz tz now (nrows d))
                         (with_frame df d4 st0),
                       inr (length (heap st)))
                  end
              end
          end
      end
  end.
Proof.
  intros Hv He Ha Ht Hl d st0 now.
  unfold transform_global. rewrite bind_frame, He, bind_say, bind_utcnow, Ha, Ht, Hl.
  fold st0. fold now.
  assert (Hv0 : valid df st0) by done.
  rewrite bind_getitem. change (frame_at st0 df) with d.
  destruct (df_col "name" d) as [name|] eqn:Hn; [|done].
  rewrite bind_setitem, bind_getitem. same_frame.
  change (frame_at st0 df) with d. cbn [assign]. other_column.
  destruct (df_col "reach" d) as [reach|] eqn:Hr; [|done].
  rewrite bind_lift.
  destruct (astype_int reach) as [e|rz] eqn:Hrz; [done|].
  rewrite bind_setitem, bind_getitem. same_frame.
  cbn [assign]. other_column.
  destruct (df_col "taggings" d) as [taggings|] eqn:Htg; [|done].
  rewrite bind_lift.
  destruct (astype_int taggings) as [e|tz] eqn:Htz; [done|].
  rewrite bind_setitem. same_frame.
  rewrite bind_setitem. same_frame.
  rewrite select_run. same_frame.
  cbn [assign]. unfold set_scalar. cbn [select_columns]. other_column.
  rewrite !nrows_set_column, length_heap_with_frame. reflexivity.
Qed.

(** ** Integer coercion *)

Lemma py_int_fits v z : py_int v = inr z -> fits_int64 z = true.
Proof.
  destruct v as [|b|n|s|l|d]; simpl; try discriminate.
  - intros [= <-]. by destruct b.
  - destruct (fits_int64 n) eqn:E; [|discriminate]. by intros [= <-].
  - destruct (int_of_str s) as [n|]; [|discriminate].
    destruct (fits_int64 n) eqn:E; [|discriminate]. by intros [= <-].
Qed.

Lemma py_int_PInt z : fits_int64 z = true -> py_int (PInt z) = inr z.
Proof. intros H. simpl. by rewrite H. Qed.

Lemma astype_int_cells col zs :
  astype_int col = inr zs ->
  Forall2 (fun v c => exists z, py_int v = inr z /\ c = PInt z) col zs.
Proof.
  revert zs. induction col as [|v col IH]; simpl; intros zs.
  - intros [= <-]. constructor.
  - destruct (py_int v) as [e|z] eqn:Hv; [discriminate|].
    destruct (astype_int col) as [e|zs'] eqn:Hc; [discriminate|].
    intros [= <-]. constructor; eauto.
Qed.

Lemma astype_int_ok col :
  Forall (fun v => exists z, py_int v = inr z) col -> exists zs, astype_int col = inr zs.
Proof.
  induction 1 as [|v col [z Hz] _ [zs IH]]; simpl; [eauto|].
  rewrite Hz, IH. eauto.
Qed.

Lemma astype_int_fault col v e :
  v ∈ col -> py_int v = inl e -> exists e', astype_int col = inl e'.
Proof.
  induction 1 as [v col|v u col Hin IH]; simpl; intros Hv.
  - rewrite Hv. eauto.
  - destruct (py_int u) as [e1|z]; [eauto|].
    destruct (IH Hv) as [e' ->]. eauto.
Qed.

(** Coercing a coerced column changes nothing. *)
Lemma astype_int_idem col zs : astype_int col = inr zs -> astype_int zs = inr zs.
Proof.
  intros H. apply astype_int_cells in H.
  induction H as [|v c col zs [z [Hz ->]] _ IH]; [done|].
  cbn [astype_int]. rewrite (py_int_PInt z) by eauto using py_int_fits.
  by rewrite IH.
Qed.

(** Text without a decimal digit is not a number. *)
Lemma In_lstrip c l : In c (lstrip l) -> In c l.
Proof.
  induction l as [|c' l IH]; simpl; [done|].
  destruct (is_space c'); [|done]. auto.
Qed.

Lemma In_strip c l : In c (strip l) -> In c l.
Proof.
  unfold strip. intros Hc. apply in_rev, In_lstrip in Hc.
  apply in_rev in Hc. by apply In_lstrip.
Qed.

Lemma int_of_str_no_digit s :
  (forall c, In c (String.list_ascii_of_string s) -> digit_of c = None) ->
  int_of_str s = None.
Proof.
  intros Hs. unfold int_of_str.
  assert (Hstrip : forall c, In c (strip (String.list_ascii_of_string s)) -> digit_of c = None).
  { intros c Hc. by apply Hs, In_strip. }
  destruct (strip (String.list_ascii_of_string s)) as [|c r]; [done|].
  assert (Hr : unsigned_literal r = None).
  { destruct r as [|c' r]; [done|]. simpl.
    rewrite (Hstrip c') by (right; left; done). done. }
  destruct (nat_of_ascii c =? 43)%nat; [done|].
  destruct (nat_of_ascii c =? 45)%nat; [by rewrite Hr|].
  simpl. by rewrite (Hstrip c) by (left; done).
Qed.

(** ** Rows of the projected frames *)

Lemma DataFrame_rows_lookup d i row :
  DataFrame_rows d !! i = Some row -> (i < nrows d)%nat /\ row = row_at d i.
Proof.
  unfold DataFrame_rows. rewrite list_lookup_fmap.
  destruct (seq 0 (nrows d) !! i) as [j|] eqn:Hj; [|done].
  apply lookup_seq in Hj as [-> Hlt]. by intros [= <-].
Qed.

Lemma nth_replicate_lt {A} (x y : A) n i : (i < n)%nat -> nth i (replicate n x) y = x.
Proof.
  revert i. induction n as [|n IH]; intros [|i] H; simpl; try lia; [done|].
  apply IH. lia.
Qed.

Lemma nth_astype_int col zs i :
  astype_int col = inr zs -> (i < length col)%nat ->
  exists z, py_int (nth i col PNull) = inr z /\ nth i zs PNull = PInt z.
Proof.
  intros H. apply astype_int_cells in H. revert i.
  induction H as [|v c col zs [z [Hz ->]] _ IH]; intros [|i]; simpl; try lia.
  - eauto.
  - intros Hi. apply IH. lia.
Qed.

Lemma nth_map_lt {A B} (f : A -> B) l i a b :
  (i < length l)%nat -> nth i (map f l) b = f (nth i l a).
Proof.
  revert i. induction l as [|x l IH]; intros [|i]; simpl; try lia; [done|].
  intros Hi. apply IH. lia.
Qed.

Lemma level_artists level :
  level = "geo_artists" \/ level = "chart_artists" ->
  mem_str level ["geo_artists"; "chart_artists"] = true.
Proof. by intros [-> | ->]. Qed.

Lemma level_tracks level :
  level = "geo_tracks" \/ level = "chart_tracks" ->
  mem_str level ["geo_artists"; "chart_artists"] = false /\
  mem_str level ["geo_tracks"; "chart_tracks"] = true.
Proof. by intros [-> | ->]. Qed.

(** ** The artist shapes *)

Lemma transform_artists_ok w st df level name listeners zs :
  valid df st ->
  DataFrame_empty (frame_at st df) = false ->
  level = "geo_artists" \/ level = "chart_artists" ->
  df_col "name" (frame_at st df) = Some name ->
  df_col "listeners" (frame_at st df) = Some listeners ->
  astype_int listeners = inr zs ->
  let d := frame_at st df in
  let st0 := add_log (EvPrint (MsgTransforming level)) st in
  let now := utcnow w (log st0) in
  let pc := default (replicate (nrows d) PNull) (df_col "playcount" d) in
  transform_global w df level st =
  (with_new_frame (artists_out name zs pc now (nrows d))
     (with_frame df
        (set_scalar "timestamp" (PStr now)
           (set_column "playcount" pc
              (set_column "listeners" zs (set_column "artist_name" name d))))
        st0),
   inr (length (heap st))).
Proof.
  intros Hv He Hl Hn Hli Hz. cbv zeta.
  rewrite transform_artists_run by auto using level_artists.
  cbv zeta. by rewrite Hn, Hli, Hz.
Qed.

(** The exact condition under which the artist branch returns. *)
Lemma transform_artists_returns w st df level st' out :
  valid df st ->
  DataFrame_empty (frame_at st df) = false ->
  level = "geo_artists" \/ level = "chart_artists" ->
  transform_global w df level st = (st', inr out) ->
  exists name listeners zs,
    df_col "name" (frame_at st df) = Some name /\
    df_col "listeners" (frame_at st df) = Some listeners /\
    astype_int listeners = inr zs.
Proof.
  intros Hv He Hl. rewrite transform_artists_run by auto using level_artists.
  cbv zeta.
  destruct (df_col "name" (frame_at st df)) as [name|]; [|done].
  destruct (df_col "listeners" (frame_at st df)) as [listeners|]; [|done].
  destruct (astype_int listeners) as [e|zs] eqn:Hz; [done|].
  intros _. by eexists _, _, _.
Qed.

(** C1.  On a non-empty table of an artist shape (its [name] and
    [listeners] columns are there and every [listeners] cell can be read
    as an integer), [transform_global] returns a table with the columns
    artist_name, listeners, playcount, timestamp in this order; in each
    row [listeners] is the integer read from the source cell, the
    timestamp is the one value of the call, and [playcount] is the source
    cell, or null when the source has no [playcount] column.  The single
    record [{name: "X", listeners: "10"}] becomes the row
    [("X", 10, None, ts)]. *)
Theorem C1_artist_rows w DataFrame_other st df level name listeners :
  valid df st ->
  wf_frame (frame_at st df) ->
  DataFrame_empty (frame_at st df) = false ->
  level = "geo_artists" \/ level = "chart_artists" ->
  df_col "name" (frame_at st df) = Some name ->
  df_col "listeners" (frame_at st df) = Some listeners ->
  Forall (fun v => exists z, py_int v = inr z) listeners ->
  (exists st' out ts,
     transform_global w df level st = (st', inr out) /\
     map fst (columns (frame_at st' out)) =
       ["artist_name"; "listeners"; "playcount"; "timestamp"] /\
     length (DataFrame_rows (frame_at st' out)) = nrows (frame_at st df) /\
     forall i row,
       DataFrame_rows (frame_at st' out) !! i = Some row ->
       exists z,
         py_int (nth i listeners PNull) = inr z /\
         row = [ ("artist_name", nth i name PNull);
                 ("listeners", PInt z);
                 ("playcount",
                   match df_col "playcount" (frame_at st df) with
                   | Some playcount => nth i playcount PNull
                   | None => PNull
                   end);
                 ("timestamp", PStr ts) ]) /\
  (forall st1, exists st' out ts,
     (raw ← pd_DataFrame DataFrame_other
              (PList [PDict [("name", PStr "X"); ("listeners", PStr "10")]]);
      transform_global w raw level) st1 = (st', inr out) /\
     DataFrame_rows (frame_at st' out) =
       [[ ("artist_name", PStr "X"); ("listeners", PInt 10);
          ("playcount", PNull); ("timestamp", PStr ts) ]]).
Proof.
  intros Hv Hwf He Hl Hn Hli Hok. split.
  - destruct (astype_int_ok _ Hok) as [zs Hz].
    eexists _, _, _. split; [by eapply transform_artists_ok|].
    rewrite frame_at_out. split; [done|]. split.
    { unfold DataFrame_rows. by rewrite length_map, length_seq. }
    intros i row Hrow. apply DataFrame_rows_lookup in Hrow as [Hi ->].
    cbn [artists_out nrows] in Hi.
    assert (Hlen : length listeners = nrows (frame_at st df)) by eauto using df_col_length.
    destruct (nth_astype_int listeners zs i Hz) as [z [Hpy Hnth]]; [lia|].
    exists z. split; [done|].
    unfold row_at, artists_out. cbn [columns map fst snd].
    rewrite Hnth, nth_replicate_lt by done.
    destruct (df_col "playcount" (frame_at st df)); simpl; [done|].
    by rewrite nth_replicate_lt.
  - intros st1.
    set (d := mkFrame [("name", [PStr "X"]); ("listeners", [PStr "10"])] 1).
    assert (Hraw : forall k : ref -> M ref,
      (pd_DataFrame DataFrame_other
         (PList [PDict [("name", PStr "X"); ("listeners", PStr "10")]]) ≫= k) st1
      = k (length (heap st1)) (with_new_frame d st1)) by reflexivity.
    rewrite Hraw.
    eexists _, _, _. split.
    + eapply transform_artists_ok; rewrite ?frame_at_new; try done.
      unfold valid, with_new_frame. simpl. rewrite length_app. simpl. lia.
    + by rewrite frame_at_out, frame_at_new.
Qed.

(** ** Empty tables *)

Lemma load_empty w cfg st df table_name :
  DataFrame_empty (frame_at st df) = true ->
  load_to_bigquery w cfg df table_name st =
  (add_log (EvPrint (MsgSkipUpload table_name)) st, inr tt).
Proof. intros He. unfold load_to_bigquery. by rewrite bind_frame, He. Qed.

(** C2.  On an empty table [transform_global] returns the very table it
    was given, for every shape kind: no exception, the heap is untouched
    (no timestamp, no column added) and only the "no data" line is
    printed.  [load_to_bigquery] on an empty table returns normally and
    the only event is its printed line: no client, no load job, no
    metadata read. *)
Theorem C2_empty_table w cfg st df level table_name :
  DataFrame_empty (frame_at st df) = true ->
  (exists st',
     transform_global w df level st = (st', inr df) /\
     heap st' = heap st /\
     frame_at st' df = frame_at st df /\
     log st' = (log st ++ [EvPrint (MsgNoData level)])%list) /\
  (exists st',
     load_to_bigquery w cfg df table_name st = (st', inr tt) /\
     heap st' = heap st /\
     log st' = (log st ++ [EvPrint (MsgSkipUpload table_name)])%list /\
     filter (fun e => is_external_call e = true) (log st') =
     filter (fun e => is_external_call e = true) (log st)).
Proof.
  intros He. split.
  - eexists. split; [by apply transform_empty|]. done.
  - eexists. split; [by apply load_empty|]. repeat split.
    simpl. rewrite filter_app. simpl. by rewrite app_nil_r.
Qed.

(** ** The track shapes *)

Lemma transform_tracks_ok w st df level artist name listeners zs :
  valid df st ->
  DataFrame_empty (frame_at st df) = false ->
  level = "geo_tracks" \/ level = "chart_tracks" ->
  df_col "artist" (frame_at st df) = Some artist ->
  df_col "name" (frame_at st df) = Some name ->
  df_col "listeners" (frame_at st df) = Some listeners ->
  astype_int listeners = inr zs ->
  let d := frame_at st df in
  let st0 := add_log (EvPrint (MsgTransforming level)) st in
  let now := utcnow w (log st0) in
  transform_global w df level st =
  (with_new_frame (tracks_out (map artist_name_of artist) name zs now (nrows d))
     (with_frame df
        (set_scalar "timestamp" (PStr now)
           (set_column "listeners" zs
              (set_column "track_name" name
                 (set_column "artist_name" (map artist_name_of artist) d))))
        st0),
   inr (length (heap st))).
Proof.
  intros Hv He Hl Har Hn Hli Hz. cbv zeta.
  destruct (level_tracks _ Hl) as [Ha Ht].
  rewrite transform_tracks_run by done.
  cbv zeta. by rewrite Har, Hn, Hli, Hz.
Qed.

(** C3.  On a non-empty table of a track shape, [artist_name] in each
    output row is the [name] entry of the source [artist] cell when that
    cell is a mapping (null if the mapping has no such entry), and null
    when the cell is anything else; what the [artist] cells are has no
    part in whether the call returns.  A track record whose [artist] is a
    string gives a row with a null [artist_name] and no exception. *)
Theorem C3_track_artist_name w DataFrame_other st df level artist name listeners :
  valid df st ->
  wf_frame (frame_at st df) ->
  DataFrame_empty (frame_at st df) = false ->
  level = "geo_tracks" \/ level = "chart_tracks" ->
  df_col "artist" (frame_at st df) = Some artist ->
  df_col "name" (frame_at st df) = Some name ->
  df_col "listeners" (frame_at st df) = Some listeners ->
  Forall (fun v => exists z, py_int v = inr z) listeners ->
  (exists st' out,
     transform_global w df level st = (st', inr out) /\
     length (DataFrame_rows (frame_at st' out)) = nrows (frame_at st df) /\
     forall i row,
       DataFrame_rows (frame_at st' out) !! i = Some row ->
       (forall a, nth i artist PNull = PDict a ->
          dict_get "artist_name" row = Some (default PNull (dict_get "name" a))) /\
       ((forall a, nth i artist PNull <> PDict a) ->
          dict_get "artist_name" row = Some PNull)) /\
  (forall st1 s, exists st' out ts,
     (raw ← pd_DataFrame DataFrame_other
              (PList [PDict [("name", PStr "T"); ("artist", PStr s);
                             ("listeners", PStr "5")]]);
      transform_global w raw level) st1 = (st', inr out) /\
     DataFrame_rows (frame_at st' out) =
       [[ ("artist_name", PNull); ("track_name", PStr "T");
          ("listeners", PInt 5); ("timestamp", PStr ts) ]]).
Proof.
  intros Hv Hwf He Hl Har Hn Hli Hok. split.
  - destruct (astype_int_ok _ Hok) as [zs Hz].
    eexists _, _. split; [by eapply transform_tracks_ok|].
    rewrite frame_at_out. split.
    { unfold DataFrame_rows. by rewrite length_map, length_seq. }
    intros i row Hrow. apply DataFrame_rows_lookup in Hrow as [Hi ->].
    cbn [tracks_out nrows] in Hi.
    assert (Hlen : length artist = nrows (frame_at st df)) by eauto using df_col_length.
    unfold row_at, tracks_out. cbn [columns map fst snd dict_get String.eqb].
    change (String.eqb "artist_name" "artist_name") with true. cbv iota.
    rewrite (nth_map_lt artist_name_of artist i PNull PNull) by lia.
    split.
    + by intros a ->.
    + intros Hno. destruct (nth i artist PNull); try done. by destruct (Hno d).
  - intros st1 s.
    set (d := mkFrame [("name", [PStr "T"]); ("artist", [PStr s]);
                       ("listeners", [PStr "5"])] 1).
    assert (Hraw : forall k : ref -> M ref,
      (pd_DataFrame DataFrame_other
         (PList [PDict [("name", PStr "T"); ("artist", PStr s);
                        ("listeners", PStr "5")]]) ≫= k) st1
      = k (length (heap st1)) (with_new_frame d st1)) by reflexivity.
    rewrite Hraw.
    eexists _, _, _. split.
    + eapply transform_tracks_ok; rewrite ?frame_at_new; try done.
      unfold valid, with_new_frame. simpl. rewrite length_app. simpl. lia.
    + by rewrite frame_at_out, frame_at_new.
Qed.

(** ** The tag shape *)

Lemma transform_tags_ok w st df name reach taggings rz tz :
  valid df st ->
  DataFrame_empty (frame_at st df) = false ->
  df_col "name" (frame_at st df) = Some name ->
  df_col "reach" (frame_at st df) = Some reach ->
  df_col "taggings" (frame_at st df) = Some taggings ->
  astype_int reach = inr rz ->
  astype_int taggings = inr tz ->
  let d := frame_at st df in
  let st0 := add_log (EvPrint (MsgTransforming "chart_tags")) st in
  let now := utcnow w (log st0) in
  transform_global w df "chart_tags" st =
  (with_new_frame (tags_out name rz tz now (nrows d))
     (with_frame df
        (set_scalar "timestamp" (PStr now)
           (set_column "taggings" tz
              (set_column "reach" rz (set_column "tag_name" name d))))
        st0),
   inr (length (heap st))).
Proof.
  intros Hv He Hn Hr Ht Hrz Htz. cbv zeta.
  rewrite transform_tags_run by done.
  cbv zeta. by rewrite Hn, Hr, Hrz, Ht, Htz.
Qed.

(** C4.  On a non-empty table of the tag shape, when the three source
    columns are there and every [reach] and [taggings] cell can be read
    as an integer, [transform_global] returns rows with exactly the
    columns tag_name, reach, taggings, timestamp, [reach] and [taggings]
    being the integers read from the source cells.  A text cell of
    [reach] or [taggings] that is not an integer literal makes the call
    raise, and so does a missing [name], [reach] or [taggings] column. *)
Theorem C4_tag_rows w st df :
  valid df st ->
  wf_frame (frame_at st df) ->
  DataFrame_empty (frame_at st df) = false ->
  (forall name reach taggings,
     df_col "name" (frame_at st df) = Some name ->
     df_col "reach" (frame_at st df) = Some reach ->
     df_col "taggings" (frame_at st df) = Some taggings ->
     Forall (fun v => exists z, py_int v = inr z) reach ->
     Forall (fun v => exists z, py_int v = inr z) taggings ->
     exists st' out ts,
       transform_global w df "chart_tags" st = (st', inr out) /\
       map fst (columns (frame_at st' out)) = ["tag_name"; "reach"; "taggings"; "timestamp"] /\
       length (DataFrame_rows (frame_at st' out)) = nrows (frame_at st df) /\
       forall i row,
         DataFrame_rows (frame_at st' out) !! i = Some row ->
         exists r t,
           py_int (nth i reach PNull) = inr r /\
           py_int (nth i taggings PNull) = inr t /\
           row = [ ("tag_name", nth i name PNull); ("reach", PInt r);
                   ("taggings", PInt t); ("timestamp", PStr ts) ]) /\
  (forall c col s,
     c = "reach" \/ c = "taggings" ->
     df_col c (frame_at st df) = Some col ->
     In (PStr s) col ->
     int_of_str s = None ->
     exists st' e, transform_global w df "chart_tags" st = (st', inl e)) /\
  (forall c,
     c = "name" \/ c = "reach" \/ c = "taggings" ->
     df_col c (frame_at st df) = None ->
     exists st' e, transform_global w df "chart_tags" st = (st', inl e)).
Proof.
  intros Hv Hwf He. split; [|split].
  - intros name reach taggings Hn Hr Ht Hrok Htok.
    destruct (astype_int_ok _ Hrok) as [rz Hrz].
    destruct (astype_int_ok _ Htok) as [tz Htz].
    eexists _, _, _. split; [by eapply transform_tags_ok|].
    rewrite frame_at_out. split; [done|]. split.
    { unfold DataFrame_rows. by rewrite length_map, length_seq. }
    intros i row Hrow. apply DataFrame_rows_lookup in Hrow as [Hi ->].
    cbn [tags_out nrows] in Hi.
    assert (Hlr : length reach = nrows (frame_at st df)) by eauto using df_col_length.
    assert (Hlt : length taggings = nrows (frame_at st df)) by eauto using df_col_length.
    destruct (nth_astype_int reach rz i Hrz) as [r [Hpr Hnr]]; [lia|].
    destruct (nth_astype_int taggings tz i Htz) as [t [Hpt Hnt]]; [lia|].
    exists r, t. split; [done|]. split; [done|].
    unfold row_at, tags_out. cbn [columns map fst snd].
    by rewrite Hnr, Hnt, nth_replicate_lt.
  - intros c col s Hc Hcol Hin Hs.
    assert (Hbad : exists e, astype_int col = inl e).
    { apply (astype_int_fault col (PStr s) (IntCastError (PStr s))).
      - by apply list_elem_of_In.
      - simpl. by rewrite Hs. }
    destruct Hbad as [e Hbad].
    rewrite transform_tags_run by done. cbv zeta.
    destruct (df_col "name" (frame_at st df)); [|eauto].
    destruct (df_col "reach" (frame_at st df)) as [reach|] eqn:Hr; [|eauto].
    destruct (astype_int reach) as [e1|rz] eqn:Hrz; [eauto|].
    destruct (df_col "taggings" (frame_at st df)) as [taggings|] eqn:Ht; [|eauto].
    destruct (astype_int taggings) as [e2|tz] eqn:Htz; [eauto|].
    destruct Hc as [-> | ->]; congruence.
  - intros c Hc Hcol.
    rewrite transform_tags_run by done. cbv zeta.
    destruct (df_col "name" (frame_at st df)) eqn:Hn; [|eauto].
    destruct (df_col "reach" (frame_at st df)) as [reach|] eqn:Hr; [|eauto].
    destruct (astype_int reach) as [e1|rz] eqn:Hrz; [eauto|].
    destruct (df_col "taggings" (frame_at st df)) as [taggings|] eqn:Ht; [|eauto].
    destruct (astype_int taggings) as [e2|tz] eqn:Htz; [eauto|].
    destruct Hc as [-> | [-> | ->]]; congruence.
Qed.

(** ** [extract_global] *)

Lemma key_map_getitem_known method outer inner :
  In (method, (outer, inner)) key_map ->
  key_map_getitem method key_map = inr (outer, inner).
Proof.
  unfold key_map. simpl.
  intros [H|[H|[H|[H|[H|[]]]]]]; injection H as <- <- <-; reflexivity.
Qed.

Lemma key_map_getitem_unknown method m :
  ~ In method (map fst m) -> key_map_getitem method m = inl (KeyError method).
Proof.
  induction m as [|[k v] m IH]; simpl; [done|].
  intros Hno. destruct (String.eqb method k) eqn:E.
  - apply String.eqb_eq in E. destruct Hno. by left.
  - apply IH. intros Hin. apply Hno. by right.
Qed.

(** [extract_global] once the request has been answered with a JSON body. *)
Lemma extract_global_answered w DataFrame_other cfg method params st r data :
  http_get w (log st ++ [EvPrint (MsgFetching method)]) BASE_URL
    (base_params cfg method params) = Some r ->
  (400 <=? status_code r) && (status_code r <? 600) = false ->
  json_body r = Some data ->
  extract_global w DataFrame_other cfg method params st =
  (keys ← lift (key_map_getitem method key_map);
   inner ← lift (py_get data (fst keys) (PDict []));
   records ← lift (py_get inner (snd keys) (PList []));
   df ← pd_DataFrame DataFrame_other records;
   d ← frame df;
   (if DataFrame_empty d
    then say (MsgNoRows method)
    else say (MsgFetched (nrows d) method));;
   mret df)
    (add_log (EvHttpGet BASE_URL (base_params cfg method params))
       (add_log (EvPrint (MsgFetching method)) st)).
Proof.
  intros Hget Hstatus Hbody.
  unfold extract_global. rewrite bind_say.
  unfold mbind at 1, M_bind at 1, requests_get.
  cbn [log add_log]. rewrite Hget.
  unfold raise_for_status. rewrite Hstatus.
  unfold mbind at 1, M_bind at 1. cbn [mret M_ret].
  unfold response_json. rewrite Hbody. reflexivity.
Qed.

Lemma bind_pd_DataFrame_records {B} DataFrame_other l recs (k : ref -> M B) st :
  as_records l = Some recs ->
  (pd_DataFrame DataFrame_other (PList l) ≫= k) st =
  k (length (heap st)) (with_new_frame (DataFrame_of_records recs) st).
Proof.
  intros Hrecs. unfold pd_DataFrame. by rewrite bind_assoc, bind_lift, Hrecs.
Qed.

(** C5.  For each of the five methods of [key_map], once the request is
    answered with a JSON object: if the outer key is not in the object,
    or it holds an object without the inner key, [extract_global]
    returns a table with no row and no column and raises nothing; if both
    keys are there and hold a list of records, it returns the table of
    these records.  For a method that is not in [key_map] the call
    raises, whatever the world answers; when the request itself went
    well the exception is the [KeyError] of the missing mapping. *)
Theorem C5_extract_lookup w DataFrame_other cfg method params st :
  (forall outer inner r data,
     In (method, (outer, inner)) key_map ->
     http_get w (log st ++ [EvPrint (MsgFetching method)]) BASE_URL
       (base_params cfg method params) = Some r ->
     (400 <=? status_code r) && (status_code r <? 600) = false ->
     json_body r = Some (PDict data) ->
     (dict_get outer data = None \/
      exists sub, dict_get outer data = Some (PDict sub) /\ dict_get inner sub = None) ->
     exists st' df,
       extract_global w DataFrame_other cfg method params st = (st', inr df) /\
       frame_at st' df = mkFrame [] 0 /\
       DataFrame_empty (frame_at st' df) = true) /\
  (forall outer inner r data sub l recs,
     In (method, (outer, inner)) key_map ->
     http_get w (log st ++ [EvPrint (MsgFetching method)]) BASE_URL
       (base_params cfg method params) = Some r ->
     (400 <=? status_code r) && (status_code r <? 600) = false ->
     json_body r = Some (PDict data) ->
     dict_get outer data = Some (PDict sub) ->
     dict_get inner sub = Some (PList l) ->
     as_records l = Some recs ->
     exists st' df,
       extract_global w DataFrame_other cfg method params st = (st', inr df) /\
       frame_at st' df = DataFrame_of_records recs) /\
  (~ In method (map fst key_map) ->
     exists st' e,
       extract_global w DataFrame_other cfg method params st = (st', inl e) /\
       forall r data,
         http_get w (log st ++ [EvPrint (MsgFetching method)]) BASE_URL
           (base_params cfg method params) = Some r ->
         (400 <=? status_code r) && (status_code r <? 600) = false ->
         json_body r = Some data ->
         e = KeyError method).
Proof.
  split; [|split].
  - intros outer inner r data Hin Hget Hstatus Hbody Habsent.
    rewrite (extract_global_answered _ _ _ _ _ _ r (PDict data)) by done.
    rewrite (key_map_getitem_known _ _ _ Hin), bind_lift. cbn [fst snd py_get].
    assert (Hrec : exists v, default (PDict []) (dict_get outer data) = PDict v
                             /\ dict_get inner v = None)
      by (destruct Habsent as [-> | [sub [-> Hsub]]]; eauto).
    destruct Hrec as [v [-> Hv]].
    rewrite bind_lift. cbn [py_get]. rewrite Hv, bind_lift. cbn [default from_option id].
    rewrite (bind_pd_DataFrame_records _ [] []) by done.
    rewrite bind_frame, frame_at_new.
    eexists _, _. split; [reflexivity|].
    match goal with
    | |- ?a = _ /\ _ => assert (H : a = mkFrame [] 0) by apply frame_at_new
    end.
    by rewrite H.
  - intros outer inner r data sub l recs Hin Hget Hstatus Hbody Houter Hinner Hrecs.
    rewrite (extract_global_answered _ _ _ _ _ _ r (PDict data)) by done.
    rewrite (key_map_getitem_known _ _ _ Hin), bind_lift. cbn [fst snd py_get].
    rewrite Houter, bind_lift. cbn [default from_option id py_get].
    rewrite Hinner, bind_lift. cbn [default from_option id].
    rewrite (bind_pd_DataFrame_records _ l recs) by done.
    rewrite bind_frame, frame_at_new.
    destruct (DataFrame_empty _);
      (eexists _, _; split; [reflexivity|apply frame_at_new]).
  - intros Hunknown.
    unfold extract_global. rewrite bind_say.
    unfold mbind at 1, M_bind at 1, requests_get. cbn [log add_log].
    destruct (http_get w _ _ _) as [r|] eqn:Hget; [|eexists _, _; split; [reflexivity|done]].
    unfold raise_for_status.
    destruct ((400 <=? status_code r) && (status_code r <? 600)) eqn:Hstatus.
    { eexists _, _. split; [reflexivity|]. intros r' data [= <-]. congruence. }
    unfold mbind at 1, M_bind at 1. cbn [mret M_ret].
    unfold response_json.
    destruct (json_body r) as [data|] eqn:Hbody.
    2:{ eexists _, _. split; [reflexivity|]. intros r' data [= <-]. congruence. }
    unfold mbind at 1, M_bind at 1. cbn [mret M_ret].
    rewrite bind_lift, key_map_getitem_unknown by done.
    eexists _, _. split; [reflexivity|done].
Qed.

(** ** What a computation adds to the log *)

Lemma quiet_ret {A} Q (a : A) : quiet Q (mret a).
Proof. intros st. exists []. by rewrite app_nil_r. Qed.

Lemma quiet_raise {A} Q e : quiet Q (@raise A e).
Proof. intros st. exists []. by rewrite app_nil_r. Qed.

Lemma quiet_lift {A} Q (r : fault + A) : quiet Q (lift r).
Proof. intros st. exists []. by rewrite app_nil_r. Qed.

Lemma quiet_frame Q df : quiet Q (frame df).
Proof. intros st. exists []. by rewrite app_nil_r. Qed.

Lemma quiet_update Q df f : quiet Q (update df f).
Proof. intros st. exists []. by rewrite app_nil_r. Qed.

Lemma quiet_alloc Q d : quiet Q (alloc d).
Proof. intros st. exists []. by rewrite app_nil_r. Qed.

Lemma quiet_utcnow Q w : quiet Q (utcnow_isoformat w).
Proof. intros st. exists []. by rewrite app_nil_r. Qed.

Lemma quiet_emit (Q : event -> Prop) e : Q e -> quiet Q (emit e).
Proof. intros He st. exists [e]. split; [done|]. by constructor. Qed.

Lemma quiet_bind {A B} Q (m : M A) (f : A -> M B) :
  quiet Q m -> (forall a, quiet Q (f a)) -> quiet Q (m ≫= f).
Proof.
  intros Hm Hf st. unfold mbind, M_bind.
  destruct (Hm st) as [new1 [Hlog1 Hnew1]].
  destruct (m st) as [st1 [e|a]]; simpl in *.
  - eauto.
  - destruct (Hf a st1) as [new2 [Hlog2 Hnew2]].
    exists (new1 ++ new2)%list. split.
    + by rewrite Hlog2, Hlog1, app_assoc.
    + by apply Forall_app.
Qed.

Lemma quiet_warehouse {A} (Q : event -> Prop) e (answer : list event -> option A) :
  Q e -> quiet Q (warehouse e answer).
Proof.
  intros He st. exists [e]. unfold warehouse.
  destruct (answer (log st)); (split; [done|by constructor]).
Qed.

Lemma quiet_requests_get (Q : event -> Prop) w url params :
  Q (EvHttpGet url params) -> quiet Q (requests_get w url params).
Proof.
  intros He st. exists [EvHttpGet url params]. unfold requests_get.
  destruct (http_get w (log st) url params); (split; [done|by constructor]).
Qed.

Ltac quiet_step :=
  first
    [ apply quiet_ret | apply quiet_raise | apply quiet_lift | apply quiet_frame
    | apply quiet_update | apply quiet_alloc | apply quiet_utcnow
    | by apply quiet_emit
    | by apply quiet_warehouse
    | by apply quiet_requests_get
    | apply quiet_bind; [|intros] ].

Ltac quiet_cases :=
  match goal with
  | |- quiet _ (if ?b then _ else _) => destruct b
  | |- quiet _ (match ?x with _ => _ end) => destruct x
  end.

Ltac quiet_all := repeat first [ quiet_step | quiet_cases ].

(** [transform_global] only prints. *)
Lemma transform_global_quiet w df level :
  quiet (fun e => is_print e = true) (transform_global w df level).
Proof.
  unfold transform_global, getitem, setitem, df_get, select, say. quiet_all.
Qed.

(** [load_to_bigquery] prints and calls the warehouse. *)
Lemma load_to_bigquery_quiet w cfg df table_name :
  quiet (fun e => is_http e = false) (load_to_bigquery w cfg df table_name).
Proof. unfold load_to_bigquery, say. quiet_all. Qed.

(** What [extract_global] does after its request only prints. *)
Lemma after_request_quiet DataFrame_other method r :
  quiet (fun e => is_print e = true) (after_request DataFrame_other method r).
Proof.
  unfold after_request, raise_for_status, response_json, pd_DataFrame, say. quiet_all.
Qed.

Lemma extract_global_request w DataFrame_other cfg method params st :
  extract_global w DataFrame_other cfg method params st =
  (requests_get w BASE_URL (base_params cfg method params)
     ≫= after_request DataFrame_other method)
    (add_log (EvPrint (MsgFetching method)) st).
Proof. reflexivity. Qed.

(** The log after [extract_global]: its line, its one request, then
    lines only. *)
Lemma extract_global_log w DataFrame_other cfg method params st :
  exists new,
    log (fst (extract_global w DataFrame_other cfg method params st)) =
      (log st ++ EvPrint (MsgFetching method)
              :: EvHttpGet BASE_URL (base_params cfg method params) :: new)%list /\
    Forall (fun e => is_print e = true) new.
Proof.
  rewrite extract_global_request. unfold mbind, M_bind, requests_get.
  cbn [log add_log].
  destruct (http_get w _ _ _) as [r|].
  - destruct (after_request_quiet DataFrame_other method r
                (add_log (EvHttpGet BASE_URL (base_params cfg method params))
                   (add_log (EvPrint (MsgFetching method)) st)))
      as [new [Hlog Hnew]].
    exists new. split; [|done].
    destruct (after_request _ _ _ _) as [st' [e|a]]; simpl in *;
      rewrite Hlog, <- !app_assoc; reflexivity.
  - exists []. split; [|done]. simpl. by rewrite <- !app_assoc.
Qed.

(** ** The flow as a sequence of stages *)

Ltac run_next :=
  match goal with
  | |- context [extract_global ?w ?o ?c ?m ?p ?s] =>
      destruct (extract_global w o c m p s) as [? [?|?]]
  | |- context [transform_global ?w ?d ?l ?s] =>
      destruct (transform_global w d l s) as [? [?|?]]
  | |- context [load_to_bigquery ?w ?c ?d ?t ?s] =>
      destruct (load_to_bigquery w c d t s) as [? [?|[]]]
  end;
  cbv beta iota; try reflexivity.

Lemma etl_global_topdata_stages w DataFrame_other cfg st :
  etl_global_topdata w DataFrame_other cfg st =
  (say MsgStart;; run_stages w DataFrame_other cfg five_stages) st.
Proof.
  unfold etl_global_topdata. rewrite !bind_say.
  generalize (add_log (EvPrint MsgStart) st). clear st. intros st.
  unfold five_stages, run_stages, run_stage.
  cbn [stage_method stage_params stage_level stage_table].
  unfold mbind, M_bind, mret, M_ret.
  repeat run_next.
Qed.

Lemma http_methods_app l1 l2 :
  http_methods (l1 ++ l2) = (http_methods l1 ++ http_methods l2)%list.
Proof.
  induction l1 as [|e l1 IH]; simpl; [done|].
  destruct e; simpl; by rewrite ?IH.
Qed.

Lemma http_methods_none l : Forall (fun e => is_http e = false) l -> http_methods l = [].
Proof.
  induction 1 as [|e l He _ IH]; simpl; [done|].
  destruct e; simpl in *; done.
Qed.

Lemma run_stage_steps w DataFrame_other cfg s st :
  run_stage w DataFrame_other cfg s st =
  match extract_global w DataFrame_other cfg (stage_method s) (stage_params s) st with
  | (st1, inl e) => (st1, inl e)
  | (st1, inr df) =>
      match transform_global w df (stage_level s) st1 with
      | (st2, inl e) => (st2, inl e)
      | (st2, inr df_t) => load_to_bigquery w cfg df_t (stage_table s) st2
      end
  end.
Proof.
  unfold run_stage, mbind, M_bind.
  destruct (extract_global _ _ _ _ _ _) as [st1 [e|df]]; [done|].
  by destruct (transform_global _ _ _ _) as [st2 [e|df_t]].
Qed.

(** A stage issues exactly one HTTP request, the one of its method. *)
Lemma run_stage_methods w DataFrame_other cfg s st :
  http_methods (log (fst (run_stage w DataFrame_other cfg s st))) =
  (http_methods (log st) ++ [request_method cfg s])%list.
Proof.
  rewrite run_stage_steps.
  destruct (extract_global_log w DataFrame_other cfg (stage_method s) (stage_params s) st)
    as [new [Hlog Hnew]].
  assert (Hnew' : http_methods new = []).
  { apply http_methods_none. eapply Forall_impl; [exact Hnew|].
    by intros [] H. }
  assert (Hafter : http_methods
            (log (fst (extract_global w DataFrame_other cfg
                         (stage_method s) (stage_params s) st))) =
          (http_methods (log st) ++ [request_method cfg s])%list).
  { rewrite Hlog, http_methods_app. simpl. by rewrite Hnew'. }
  destruct (extract_global _ _ _ _ _ _) as [st1 [e|df]]; [done|].
  simpl in Hafter.
  destruct (transform_global_quiet w df (stage_level s) st1) as [new2 [Hlog2 Hnew2]].
  assert (Hnew2' : http_methods new2 = []).
  { apply http_methods_none. eapply Forall_impl; [exact Hnew2|].
    by intros [] H. }
  destruct (transform_global _ _ _ _) as [st2 [e|df_t]]; simpl in Hlog2.
  { simpl. by rewrite Hlog2, http_methods_app, Hnew2', app_nil_r. }
  destruct (load_to_bigquery_quiet w cfg df_t (stage_table s) st2) as [new3 [Hlog3 Hnew3]].
  rewrite Hlog3, Hlog2, !http_methods_app, Hnew2', (http_methods_none new3) by done.
  by rewrite !app_nil_r.
Qed.

Lemma run_stages_cons w DataFrame_other cfg s l st :
  run_stages w DataFrame_other cfg (s :: l) st =
  match run_stage w DataFrame_other cfg s st with
  | (st1, inl e) => (st1, inl e)
  | (st1, inr _) => run_stages w DataFrame_other cfg l st1
  end.
Proof. reflexivity. Qed.

(** The requests of a run: a prefix of the methods of its stages, in
    order, and all of them when the run returns. *)
Lemma run_stages_methods w DataFrame_other cfg l st :
  exists k,
    (k <= length l)%nat /\
    http_methods (log (fst (run_stages w DataFrame_other cfg l st))) =
      (http_methods (log st) ++ take k (map (request_method cfg) l))%list /\
    (forall u, snd (run_stages w DataFrame_other cfg l st) = inr u -> k = length l) /\
    (forall e, snd (run_stages w DataFrame_other cfg l st) = inl e -> (0 < k)%nat).
Proof.
  revert st. induction l as [|s l IH]; intros st.
  - exists 0%nat. simpl. rewrite app_nil_r.
    split; [done|]. split; [done|]. split; [done|discriminate].
  - rewrite run_stages_cons.
    pose proof (run_stage_methods w DataFrame_other cfg s st) as Hs.
    destruct (run_stage w DataFrame_other cfg s st) as [st1 [e|u]]; simpl in Hs.
    + exists 1%nat. simpl.
      split; [lia|]. split; [done|]. split; [discriminate|lia].
    + destruct (IH st1) as [k [Hk [Hm [Hret Hfault]]]].
      exists (S k). simpl.
      split; [lia|]. split; [by rewrite Hm, Hs, <- app_assoc|].
      split; [|lia]. intros u' Hu. by rewrite (Hret u' Hu).
Qed.

(** A stage that raises ends the run in the state it raised in. *)
Lemma run_stages_abort w DataFrame_other cfg l1 s l2 st st1 st2 e :
  run_stages w DataFrame_other cfg l1 st = (st1, inr tt) ->
  run_stage w DataFrame_other cfg s st1 = (st2, inl e) ->
  run_stages w DataFrame_other cfg (l1 ++ s :: l2) st = (st2, inl e).
Proof.
  revert st. induction l1 as [|s1 l1 IH]; intros st; simpl app.
  - intros [= <-] Hs. by rewrite run_stages_cons, Hs.
  - rewrite !run_stages_cons.
    destruct (run_stage w DataFrame_other cfg s1 st) as [st' [e'|u]]; [done|].
    apply IH.
Qed.

(** A stage that returns hands over to the next one. *)
Lemma run_stages_continue w DataFrame_other cfg l1 s l2 st st1 st2 :
  run_stages w DataFrame_other cfg l1 st = (st1, inr tt) ->
  run_stage w DataFrame_other cfg s st1 = (st2, inr tt) ->
  run_stages w DataFrame_other cfg (l1 ++ s :: l2) st =
  run_stages w DataFrame_other cfg l2 st2.
Proof.
  revert st. induction l1 as [|s1 l1 IH]; intros st; simpl app.
  - intros [= <-] Hs. by rewrite run_stages_cons, Hs.
  - rewrite !run_stages_cons.
    destruct (run_stage w DataFrame_other cfg s1 st) as [st' [e'|u]]; [done|].
    apply IH.
Qed.

(** A stage whose fetch is empty prints two more lines and returns. *)
Lemma run_stage_empty w DataFrame_other cfg s st st1 df :
  extract_global w DataFrame_other cfg (stage_method s) (stage_params s) st = (st1, inr df) ->
  DataFrame_empty (frame_at st1 df) = true ->
  run_stage w DataFrame_other cfg s st =
  (add_log (EvPrint (MsgSkipUpload (stage_table s)))
     (add_log (EvPrint (MsgNoData (stage_level s))) st1), inr tt).
Proof.
  intros Hx He. rewrite run_stage_steps, Hx.
  rewrite transform_empty by done. by rewrite load_empty.
Qed.

(** C8.  A run of the flow is the five sub-pipelines in the order
    geo_artists, geo_tracks, chart_artists, chart_tracks, chart_tags, one
    after the other.  Its HTTP requests are those of the first [k]
    sub-pipelines in that order, with [k = 5] when the run returns.  An
    exception raised by the fetch, the transform or the load of a
    sub-pipeline is the outcome of the whole run, in the state where it
    was raised: nothing of a later sub-pipeline is executed.  A
    sub-pipeline whose fetch is empty returns, and the run goes on with
    the next one. *)
Theorem C8_flow_order w DataFrame_other cfg st :
  let start := add_log (EvPrint MsgStart) st in
  let final := etl_global_topdata w DataFrame_other cfg st in
  map stage_level five_stages =
    ["geo_artists"; "geo_tracks"; "chart_artists"; "chart_tracks"; "chart_tags"] /\
  final = run_stages w DataFrame_other cfg five_stages start /\
  (exists k,
     (k <= 5)%nat /\
     http_methods (log (fst final)) = (http_methods (log st) ++ take k five_methods)%list /\
     (snd final = inr tt -> k = 5%nat)) /\
  (forall before s rest st1 st2 e,
     five_stages = (before ++ s :: rest)%list ->
     run_stages w DataFrame_other cfg before start = (st1, inr tt) ->
     run_stage w DataFrame_other cfg s st1 = (st2, inl e) ->
     final = (st2, inl e)) /\
  (forall s st1 st2 e,
     (extract_global w DataFrame_other cfg (stage_method s) (stage_params s) st1
        = (st2, inl e) \/
      (exists st' df,
         extract_global w DataFrame_other cfg (stage_method s) (stage_params s) st1
           = (st', inr df) /\
         (transform_global w df (stage_level s) st' = (st2, inl e) \/
          exists st'' df_t,
            transform_global w df (stage_level s) st' = (st'', inr df_t) /\
            load_to_bigquery w cfg df_t (stage_table s) st'' = (st2, inl e)))) ->
     run_stage w DataFrame_other cfg s st1 = (st2, inl e)) /\
  (forall before s rest st1 st2 df,
     five_stages = (before ++ s :: rest)%list ->
     run_stages w DataFrame_other cfg before start = (st1, inr tt) ->
     extract_global w DataFrame_other cfg (stage_method s) (stage_params s) st1
       = (st2, inr df) ->
     DataFrame_empty (frame_at st2 df) = true ->
     final =
     run_stages w DataFrame_other cfg rest
       (add_log (EvPrint (MsgSkipUpload (stage_table s)))
          (add_log (EvPrint (MsgNoData (stage_level s))) st2))).
Proof.
  intros start final.
  assert (Hfinal : final = run_stages w DataFrame_other cfg five_stages start).
  { unfold final. by rewrite etl_global_topdata_stages, bind_say. }
  split; [done|]. split; [done|]. split; [|split; [|split]].
  - destruct (run_stages_methods w DataFrame_other cfg five_stages start)
      as [k [Hk [Hm [Hret _]]]].
    exists k. rewrite Hfinal. split; [done|]. split.
    + rewrite Hm. unfold start. cbn [log add_log].
      rewrite http_methods_app. simpl. by rewrite app_nil_r.
    + intros Hu. by rewrite (Hret tt Hu).
  - intros before s rest st1 st2 e Hsplit Hbefore Hs.
    rewrite Hfinal, Hsplit. by eapply run_stages_abort.
  - intros s st1 st2 e H. rewrite run_stage_steps.
    destruct H as [-> | [st' [df [-> [-> | [st'' [df_t [-> ->]]]]]]]]; done.
  - intros before s rest st1 st2 df Hsplit Hbefore Hx He.
    rewrite Hfinal, Hsplit. eapply run_stages_continue; [done|].
    by apply (run_stage_empty _ _ _ _ _ _ df).
Qed.

(** ** Configuration *)

(** With the credential path set, the module loads whatever the other
    three settings are. *)
Lemma module_init_loads getenv c :
  getenv "GOOGLE_APPLICATION_CREDENTIALS" = Some c ->
  module_init getenv =
  inr (mkConfig (getenv "LASTFM_API_KEY") (getenv "GCP_PROJECT_ID") (getenv "BQ_DATASET")
         (Some c)).
Proof. intros H. unfold module_init. by rewrite H. Qed.

(** The first request of the flow is always issued. *)
Lemma etl_global_topdata_first_request w DataFrame_other cfg st :
  exists rest,
    log (fst (etl_global_topdata w DataFrame_other cfg st)) =
    (log st ++ EvPrint MsgStart
            :: EvPrint (MsgFetching "geo.gettopartists")
            :: EvHttpGet BASE_URL
                 [ ("method", PStr "geo.gettopartists");
                   ("api_key", opt_str (LASTFM_API_KEY cfg));
                   ("format", PStr "json");
                   ("limit", PInt 100);
                   ("country", PStr "indonesia") ]
            :: rest)%list.
Proof.
  unfold etl_global_topdata. rewrite bind_say.
  set (st0 := add_log (EvPrint MsgStart) st).
  destruct (extract_global_log w DataFrame_other cfg "geo.gettopartists"
              [("country", PStr "indonesia")] st0) as [new [Hlog _]].
  match goal with
  | |- context [(extract_global ?a ?b ?c ?m ?p ≫= ?k) st0] =>
      assert (Hk : forall df, quiet (fun _ => True) (k df))
  end.
  { intros df. quiet_all; unfold raise_for_status, response_json; quiet_all. }
  unfold mbind at 1, M_bind at 1.
  destruct (extract_global _ _ _ _ _ _) as [st1 [e|df]]; simpl in Hlog.
  - exists new. simpl. rewrite Hlog. unfold st0. simpl. by rewrite <- app_assoc.
  - destruct (Hk df st1) as [more [Hmore _]].
    exists (new ++ more)%list. rewrite Hmore, Hlog. unfold st0. simpl.
    by rewrite <- !app_assoc.
Qed.

(** A run with only the credential path set: the API key is absent, the
    request is issued all the same (with [api_key] null), and the only
    exception is the HTTP error raised after it. *)
Lemma C6_missing_api_key_still_requests :
  env_credentials_only "LASTFM_API_KEY" = None /\
  run refusing_world refuse_other env_credentials_only =
  (mkState []
     [ EvPrint MsgStart;
       EvPrint (MsgFetching "geo.gettopartists");
       EvHttpGet BASE_URL
         [ ("method", PStr "geo.gettopartists"); ("api_key", PNull);
           ("format", PStr "json"); ("limit", PInt 100);
           ("country", PStr "indonesia") ] ],
   inl (HTTPError 403)).
Proof. split; reflexivity. Qed.

(** C6, as the code has it.  Without the credential path the module
    raises while it loads: the run ends with that exception and an empty
    log, so before any network or warehouse call.  With the credential
    path set the module loads whatever the API key, the project id and
    the dataset name are (an absent one is read as [None]), and the run
    issues its first HTTP request, whose [api_key] is null when the key
    is absent. *)
Theorem C6_configuration w DataFrame_other getenv :
  (getenv "GOOGLE_APPLICATION_CREDENTIALS" = None ->
   run w DataFrame_other getenv = (initial_state, inl TypeError)) /\
  (forall c,
     getenv "GOOGLE_APPLICATION_CREDENTIALS" = Some c ->
     module_init getenv =
       inr (mkConfig (getenv "LASTFM_API_KEY") (getenv "GCP_PROJECT_ID")
              (getenv "BQ_DATASET") (Some c)) /\
     exists rest,
       log (fst (run w DataFrame_other getenv)) =
       EvPrint MsgStart
         :: EvPrint (MsgFetching "geo.gettopartists")
         :: EvHttpGet BASE_URL
              [ ("method", PStr "geo.gettopartists");
                ("api_key", opt_str (getenv "LASTFM_API_KEY"));
                ("format", PStr "json");
                ("limit", PInt 100);
                ("country", PStr "indonesia") ]
         :: rest).
Proof.
  split.
  - intros H. unfold run, module_init. by rewrite H.
  - intros c H. split; [by apply module_init_loads|].
    unfold run. rewrite (module_init_loads getenv c H).
    destruct (etl_global_topdata_first_request w DataFrame_other
                (mkConfig (getenv "LASTFM_API_KEY") (getenv "GCP_PROJECT_ID")
                   (getenv "BQ_DATASET") (Some c)) initial_state) as [rest Hrest].
    exists rest. exact Hrest.
Qed.

(** ** Levels *)

Lemma mem_str_false s l : ~ In s l -> mem_str s l = false.
Proof.
  induction l as [|x l IH]; simpl; [done|].
  intros Hno. destruct (String.eqb s x) eqn:E.
  - apply String.eqb_eq in E. destruct Hno. by left.
  - apply IH. intros Hin. apply Hno. by right.
Qed.

(** C10.  On a non-empty table and a shape kind that is none of the five,
    [transform_global] returns the very table it was given: no
    exception, the heap is untouched (no timestamp, no column added or
    removed), and the only event is the printed line. *)
Theorem C10_unknown_level w st df level :
  DataFrame_empty (frame_at st df) = false ->
  ~ In level known_levels ->
  exists st',
    transform_global w df level st = (st', inr df) /\
    heap st' = heap st /\
    frame_at st' df = frame_at st df /\
    log st' = (log st ++ [EvPrint (MsgTransforming level)])%list.
Proof.
  intros He Hno.
  assert (Ha : mem_str level ["geo_artists"; "chart_artists"] = false).
  { apply mem_str_false. intros [<-|[<-|[]]]; apply Hno; simpl; auto. }
  assert (Ht : mem_str level ["geo_tracks"; "chart_tracks"] = false).
  { apply mem_str_false. intros [<-|[<-|[]]]; apply Hno; simpl; auto. }
  assert (Hg : String.eqb level "chart_tags" = false).
  { destruct (String.eqb level "chart_tags") eqn:E; [|done].
    apply String.eqb_eq in E. destruct Hno. subst. simpl. auto 10. }
  eexists. split; [by apply transform_other_level|]. done.
Qed.

(** ** In-place update of the input table *)

Lemma known_level_cases level :
  In level known_levels ->
  mem_str level ["geo_artists"; "chart_artists"] = true \/
  (mem_str level ["geo_artists"; "chart_artists"] = false /\
   mem_str level ["geo_tracks"; "chart_tracks"] = true) \/
  (mem_str level ["geo_artists"; "chart_artists"] = false /\
   mem_str level ["geo_tracks"; "chart_tracks"] = false /\
   String.eqb level "chart_tags" = true).
Proof.
  unfold known_levels. simpl.
  intros [<-|[<-|[<-|[<-|[<-|[]]]]]]; auto.
Qed.

Lemma df_col_set_is_Some c c' v d :
  is_Some (df_col c d) -> is_Some (df_col c (set_column c' v d)).
Proof.
  intros H. destruct (String.eqb c c') eqn:E.
  - apply String.eqb_eq in E. subst. by rewrite df_col_set_eq.
  - by rewrite df_col_set_ne.
Qed.

Lemma DataFrame_empty_set_column c v d :
  DataFrame_empty d = false -> DataFrame_empty (set_column c v d) = false.
Proof.
  unfold DataFrame_empty. simpl. intros H.
  apply orb_false_iff in H as [Hn _]. rewrite Hn. simpl.
  by destruct (columns d) as [|[k x] cols]; simpl; [|destruct (String.eqb c k)].
Qed.

(** The state after a branch that returned: the input frame replaced, the
    projection added last, everything else as it was. *)
Lemma returned_state df st e d out :
  valid df st ->
  let st' := with_new_frame out (with_frame df d (add_log e st)) in
  frame_at st' df = d /\
  frame_at st' (length (heap st)) = out /\
  (forall r, r <> df -> valid r st -> frame_at st' r = frame_at st r).
Proof.
  intros Hv st'. split; [|split].
  - unfold st'. rewrite frame_at_old by by apply valid_with_frame.
    by apply frame_at_with_frame.
  - apply frame_at_out.
  - intros r Hr Hvr. unfold st'. rewrite frame_at_old by by apply valid_with_frame.
    by rewrite frame_at_with_frame_ne.
Qed.

Ltac derived_column :=
  unfold set_scalar, artists_out, tracks_out, tags_out; other_column;
  split; [reflexivity|eexists; reflexivity].

(** C9.  When [transform_global] returns on a non-empty table of one of
    the five shape kinds, the value returned is a new frame, with exactly
    the columns of that shape, while the frame passed in has been changed
    in place: it now holds every one of these columns (artist_name,
    timestamp, the coerced integer columns, ...) with the same content as
    the frame returned, next to all the columns it had.  No other frame
    is touched. *)
Theorem C9_input_mutated w st df level st' out :
  valid df st ->
  DataFrame_empty (frame_at st df) = false ->
  In level known_levels ->
  transform_global w df level st = (st', inr out) ->
  out = length (heap st) /\
  out <> df /\
  map fst (columns (frame_at st' out)) = derived_columns level /\
  (forall c, In c (derived_columns level) ->
     df_col c (frame_at st' df) = df_col c (frame_at st' out) /\
     is_Some (df_col c (frame_at st' out))) /\
  (forall c, is_Some (df_col c (frame_at st df)) -> is_Some (df_col c (frame_at st' df))) /\
  (forall r, r <> df -> valid r st -> frame_at st' r = frame_at st r).
Proof.
  intros Hv He Hlevel.
  assert (Hne : length (heap st) <> df) by (unfold valid in Hv; lia).
  destruct (known_level_cases _ Hlevel) as [Ha | [[Ha Ht] | [Ha [Ht Hg]]]].
  - rewrite transform_artists_run by done. cbv zeta.
    destruct (df_col "name" (frame_at st df)) as [name|]; [|done].
    destruct (df_col "listeners" (frame_at st df)) as [listeners|]; [|done].
    destruct (astype_int listeners) as [e|zs]; [done|].
    intros [= <- <-].
    match goal with
    | |- context [with_new_frame ?o (with_frame df ?d (add_log ?e st))] =>
        destruct (returned_state df st e d o Hv) as [Hin [Hout Hrest]]
    end.
    rewrite Hin, Hout. unfold derived_columns. rewrite Ha.
    split; [done|]. split; [done|]. split; [done|]. split; [|split; [|done]].
    + simpl. intros c [<-|[<-|[<-|[<-|[]]]]]; derived_column.
    + intros c Hc. unfold set_scalar. by repeat apply df_col_set_is_Some.
  - rewrite transform_tracks_run by done. cbv zeta.
    destruct (df_col "artist" (frame_at st df)) as [artist|]; [|done].
    destruct (df_col "name" (frame_at st df)) as [name|]; [|done].
    destruct (df_col "listeners" (frame_at st df)) as [listeners|]; [|done].
    destruct (astype_int listeners) as [e|zs]; [done|].
    intros [= <- <-].
    match goal with
    | |- context [with_new_frame ?o (with_frame df ?d (add_log ?e st))] =>
        destruct (returned_state df st e d o Hv) as [Hin [Hout Hrest]]
    end.
    rewrite Hin, Hout. unfold derived_columns. rewrite Ha, Ht.
    split; [done|]. split; [done|]. split; [done|]. split; [|split; [|done]].
    + simpl. intros c [<-|[<-|[<-|[<-|[]]]]]; derived_column.
    + intros c Hc. unfold set_scalar. by repeat apply df_col_set_is_Some.
  - rewrite transform_tags_run by done. cbv zeta.
    destruct (df_col "name" (frame_at st df)) as [name|]; [|done].
    destruct (df_col "reach" (frame_at st df)) as [reach|]; [|done].
    destruct (astype_int reach) as [e|rz]; [done|].
    destruct (df_col "taggings" (frame_at st df)) as [taggings|]; [|done].
    destruct (astype_int taggings) as [e|tz]; [done|].
    intros [= <- <-].
    match goal with
    | |- context [with_new_frame ?o (with_frame df ?d (add_log ?e st))] =>
        destruct (returned_state df st e d o Hv) as [Hin [Hout Hrest]]
    end.
    rewrite Hin, Hout. unfold derived_columns. rewrite Ha, Ht, Hg.
    split; [done|]. split; [done|]. split; [done|]. split; [|split; [|done]].
    + simpl. intros c [<-|[<-|[<-|[<-|[]]]]]; derived_column.
    + intros c Hc. unfold set_scalar. by repeat apply df_col_set_is_Some.
Qed.

(** ** Normalising twice *)

Ltac frames :=
  rewrite ?frame_at_old, ?frame_at_with_frame, ?frame_at_add_log
    by auto using valid_with_frame, valid_add_log, valid_with_new_frame.

Ltac still_valid := auto using valid_with_frame, valid_add_log, valid_with_new_frame.

Ltac still_filled := frames; unfold set_scalar; repeat apply DataFrame_empty_set_column; done.

(** A second call on the table the first call left behind. *)
Lemma transform_twice w1 w2 st df level :
  valid df st ->
  same_modulo_timestamp
    (transform_global w1 df level st)
    (transform_global w2 df level (fst (transform_global w1 df level st))).
Proof.
  intros Hv. unfold same_modulo_timestamp.
  destruct (DataFrame_empty (frame_at st df)) eqn:He.
  { rewrite transform_empty by done. cbn [fst snd].
    rewrite transform_empty by done. done. }
  destruct (mem_str level ["geo_artists"; "chart_artists"]) eqn:Ha;
    [|destruct (mem_str level ["geo_tracks"; "chart_tracks"]) eqn:Ht;
      [|destruct (String.eqb level "chart_tags") eqn:Hg]].
  - rewrite (transform_artists_run w1) by done. cbv zeta.
    destruct (df_col "name" (frame_at st df)) as [name|] eqn:Hn.
    2:{ cbn [fst snd]. rewrite transform_artists_run by still_valid || done.
        cbv zeta. frames. by rewrite Hn. }
    destruct (df_col "listeners" (frame_at st df)) as [listeners|] eqn:Hl.
    2:{ cbn [fst snd]. rewrite transform_artists_run; [|still_valid|still_filled|done].
        cbv zeta. frames. other_column. by rewrite Hn, Hl. }
    destruct (astype_int listeners) as [e|zs] eqn:Hz.
    { cbn [fst snd]. rewrite transform_artists_run; [|still_valid|still_filled|done].
      cbv zeta. frames. other_column. by rewrite Hn, Hl, Hz. }
    cbn [fst snd]. rewrite transform_artists_run; [|still_valid|still_filled|done].
    cbv zeta. frames. unfold set_scalar. other_column.
    rewrite Hn. cbv beta iota. rewrite (astype_int_idem _ _ Hz). cbn [fst snd].
    rewrite !frame_at_out. reflexivity.
  - rewrite (transform_tracks_run w1) by done. cbv zeta.
    destruct (df_col "artist" (frame_at st df)) as [artist|] eqn:Har.
    2:{ cbn [fst snd]. rewrite transform_tracks_run by still_valid || done.
        cbv zeta. frames. by rewrite Har. }
    destruct (df_col "name" (frame_at st df)) as [name|] eqn:Hn.
    2:{ cbn [fst snd]. rewrite transform_tracks_run; [|still_valid|still_filled|done..].
        cbv zeta. frames. other_column. by rewrite Har, Hn. }
    destruct (df_col "listeners" (frame_at st df)) as [listeners|] eqn:Hl.
    2:{ cbn [fst snd]. rewrite transform_tracks_run; [|still_valid|still_filled|done..].
        cbv zeta. frames. other_column. by rewrite Har, Hn, Hl. }
    destruct (astype_int listeners) as [e|zs] eqn:Hz.
    { cbn [fst snd]. rewrite transform_tracks_run; [|still_valid|still_filled|done..].
      cbv zeta. frames. other_column. by rewrite Har, Hn, Hl, Hz. }
    cbn [fst snd]. rewrite transform_tracks_run; [|still_valid|still_filled|done..].
    cbv zeta. frames. unfold set_scalar. other_column.
    rewrite Har, Hn. cbv beta iota. rewrite (astype_int_idem _ _ Hz). cbn [fst snd].
    rewrite !frame_at_out. reflexivity.
  - rewrite (transform_tags_run w1) by done. cbv zeta.
    destruct (df_col "name" (frame_at st df)) as [name|] eqn:Hn.
    2:{ cbn [fst snd]. rewrite transform_tags_run by still_valid || done.
        cbv zeta. frames. by rewrite Hn. }
    destruct (df_col "reach" (frame_at st df)) as [reach|] eqn:Hr.
    2:{ cbn [fst snd]. rewrite transform_tags_run; [|still_valid|still_filled|done..].
        cbv zeta. frames. other_column. by rewrite Hn, Hr. }
    destruct (astype_int reach) as [e|rz] eqn:Hrz.
    { cbn [fst snd]. rewrite transform_tags_run; [|still_valid|still_filled|done..].
      cbv zeta. frames. other_column. by rewrite Hn, Hr, Hrz. }
    destruct (df_col "taggings" (frame_at st df)) as [taggings|] eqn:Htg.
    2:{ cbn [fst snd]. rewrite transform_tags_run; [|still_valid|still_filled|done..].
        cbv zeta. frames. other_column. rewrite Hn. cbv beta iota.
        by rewrite (astype_int_idem _ _ Hrz), Htg. }
    destruct (astype_int taggings) as [e|tz] eqn:Htz.
    { cbn [fst snd]. rewrite transform_tags_run; [|still_valid|still_filled|done..].
      cbv zeta. frames. other_column. rewrite Hn. cbv beta iota.
      by rewrite (astype_int_idem _ _ Hrz), Htg, Htz. }
    cbn [fst snd]. rewrite transform_tags_run; [|still_valid|still_filled|done..].
    cbv zeta. frames. unfold set_scalar. other_column.
    rewrite Hn. cbv beta iota.
    rewrite (astype_int_idem _ _ Hrz), (astype_int_idem _ _ Htz). cbn [fst snd].
    rewrite !frame_at_out. reflexivity.
  - rewrite (transform_other_level w1) by done. cbn [fst snd].
    rewrite transform_other_level by done. done.
Qed.

(** A call on another copy of the same table, in any state and world. *)
Lemma transform_copy w1 w2 st df st_c df_c level :
  valid df st ->
  valid df_c st_c ->
  frame_at st_c df_c = frame_at st df ->
  same_modulo_timestamp
    (transform_global w1 df level st)
    (transform_global w2 df_c level st_c).
Proof.
  intros Hv Hvc Hsame. unfold same_modulo_timestamp.
  destruct (DataFrame_empty (frame_at st df)) eqn:He.
  { rewrite !transform_empty by congruence. cbn [fst snd].
    by rewrite !frame_at_add_log, Hsame. }
  destruct (mem_str level ["geo_artists"; "chart_artists"]) eqn:Ha;
    [|destruct (mem_str level ["geo_tracks"; "chart_tracks"]) eqn:Ht;
      [|destruct (String.eqb level "chart_tags") eqn:Hg]].
  - rewrite !transform_artists_run by congruence. cbv zeta. rewrite Hsame.
    destruct (df_col "name" (frame_at st df)) as [name|]; [|done].
    destruct (df_col "listeners" (frame_at st df)) as [listeners|]; [|done].
    destruct (astype_int listeners) as [e|zs]; [done|].
    cbn [fst snd]. by rewrite !frame_at_out.
  - rewrite !transform_tracks_run by congruence. cbv zeta. rewrite Hsame.
    destruct (df_col "artist" (frame_at st df)) as [artist|]; [|done].
    destruct (df_col "name" (frame_at st df)) as [name|]; [|done].
    destruct (df_col "listeners" (frame_at st df)) as [listeners|]; [|done].
    destruct (astype_int listeners) as [e|zs]; [done|].
    cbn [fst snd]. by rewrite !frame_at_out.
  - rewrite !transform_tags_run by congruence. cbv zeta. rewrite Hsame.
    destruct (df_col "name" (frame_at st df)) as [name|]; [|done].
    destruct (df_col "reach" (frame_at st df)) as [reach|]; [|done].
    destruct (astype_int reach) as [e|rz]; [done|].
    destruct (df_col "taggings" (frame_at st df)) as [taggings|]; [|done].
    destruct (astype_int taggings) as [e|tz]; [done|].
    cbn [fst snd]. by rewrite !frame_at_out.
  - rewrite !transform_other_level by congruence. cbn [fst snd].
    by rewrite !frame_at_add_log, Hsame.
Qed.

(** C7.  Normalising the same table twice gives the same outcome up to
    the timestamp, for every table and every shape kind: the second call
    may be made on the very table the first call has changed in place, or
    on an untouched copy of it, at another time.  Both calls raise the
    same exception, or both return, and the returned tables are equal
    column for column once [timestamp] is left out. *)
Theorem C7_same_rows_twice w1 w2 st df level :
  valid df st ->
  same_modulo_timestamp
    (transform_global w1 df level st)
    (transform_global w2 df level (fst (transform_global w1 df level st))) /\
  (forall st_c df_c,
     valid df_c st_c ->
     frame_at st_c df_c = frame_at st df ->
     same_modulo_timestamp
       (transform_global w1 df level st)
       (transform_global w2 df_c level st_c)).
Proof.
  intros Hv. split.
  - by apply transform_twice.
  - intros st_c df_c Hvc Hsame. by apply transform_copy.
Qed.

(** * More of the module *)

(** ** [extract_global], every way it can end *)

Lemma extract_global_fetched w DataFrame_other cfg method params st :
  extract_global w DataFrame_other cfg method params st =
  match fetched w DataFrame_other cfg method params
          (log st ++ [EvPrint (MsgFetching method)]) with
  | inl e => (requested cfg method params st, inl e)
  | inr d =>
      (add_log (EvPrint (fetch_line method d))
         (with_new_frame d (requested cfg method params st)),
       inr (length (heap st)))
  end.
Proof.
  unfold fetched, requested.
  unfold extract_global. rewrite bind_say.
  unfold mbind at 1, M_bind at 1, requests_get. cbn [log add_log].
  destruct (http_get w _ _ _) as [r|]; [|done].
  unfold raise_for_status.
  destruct ((400 <=? status_code r) && (status_code r <? 600)); [done|].
  unfold mbind at 1, M_bind at 1. cbn [mret M_ret].
  unfold response_json.
  destruct (json_body r) as [data|]; [|done].
  unfold mbind at 1, M_bind at 1. cbn [mret M_ret].
  rewrite bind_lift. destruct (key_map_getitem method key_map) as [e|keys]; [done|].
  rewrite bind_lift. destruct (py_get data (fst keys) (PDict [])) as [e|inner]; [done|].
  rewrite bind_lift. destruct (py_get inner (snd keys) (PList [])) as [e|records]; [done|].
  unfold pd_DataFrame. rewrite bind_assoc, bind_lift.
  change (match records with
          | PList l =>
              match as_records l with
              | Some recs => inr (DataFrame_of_records recs)
              | None => DataFrame_other records
              end
          | _ => DataFrame_other records
          end) with (frame_of_value DataFrame_other records).
  destruct (frame_of_value DataFrame_other records) as [e|d]; [done|].
  unfold mbind at 1, M_bind at 1, alloc. rewrite bind_frame, frame_at_new.
  unfold fetch_line. by destruct (DataFrame_empty d).
Qed.

(** X1.  Whatever the world answers and however the call ends,
    [extract_global] issues exactly one HTTP request, to [BASE_URL] with
    [base_params], right after its first line; all it adds to the log
    after the request is at most one printed line. *)
Theorem extract_global_one_request w DataFrame_other cfg method params st :
  exists lines,
    log (fst (extract_global w DataFrame_other cfg method params st)) =
      (log st ++ EvPrint (MsgFetching method)
              :: EvHttpGet BASE_URL (base_params cfg method params) :: lines)%list /\
    Forall (fun e => is_print e = true) lines /\
    (length lines <= 1)%nat /\
    filter (fun e => is_external_call e = true)
      (log (fst (extract_global w DataFrame_other cfg method params st))) =
    (filter (fun e => is_external_call e = true) (log st)
       ++ [EvHttpGet BASE_URL (base_params cfg method params)])%list.
Proof.
  rewrite extract_global_fetched.
  destruct (fetched _ _ _ _ _ _) as [e|d]; cbn [fst log requested add_log with_new_frame].
  - exists []. split; [by rewrite <- app_assoc|]. split; [done|]. split; [simpl; lia|].
    rewrite !filter_app. simpl. by rewrite app_nil_r.
  - exists [EvPrint (fetch_line method d)].
    split; [by rewrite <- !app_assoc|]. split; [by repeat constructor|].
    split; [simpl; lia|].
    rewrite !filter_app. simpl. by rewrite !app_nil_r.
Qed.

(** X2.  The exceptions of [extract_global], in the order the code meets
    them: a request that fails raises [RequestException]; a 4xx or 5xx
    status raises [HTTPError] whatever the body and the method are; a body
    that is not JSON raises [JSONDecodeError]; for a known method, a JSON
    body that is not an object, or whose outer key holds something that is
    not an object, raises [AttributeError].  No table is built when the
    call raises: the heap is as it was. *)
Theorem extract_global_faults w DataFrame_other cfg method params st :
  let history := (log st ++ [EvPrint (MsgFetching method)])%list in
  let answer := http_get w history BASE_URL (base_params cfg method params) in
  let outcome := extract_global w DataFrame_other cfg method params st in
  (answer = None -> snd outcome = inl RequestException) /\
  (forall r,
     answer = Some r ->
     (400 <=? status_code r) && (status_code r <? 600) = true ->
     snd outcome = inl (HTTPError (status_code r))) /\
  (forall r,
     answer = Some r ->
     (400 <=? status_code r) && (status_code r <? 600) = false ->
     json_body r = None ->
     snd outcome = inl JSONDecodeError) /\
  (forall r data outer inner,
     answer = Some r ->
     (400 <=? status_code r) && (status_code r <? 600) = false ->
     json_body r = Some data ->
     In (method, (outer, inner)) key_map ->
     (forall d, data <> PDict d) \/
     (exists d v, data = PDict d /\ dict_get outer d = Some v /\ forall sub, v <> PDict sub) ->
     snd outcome = inl AttributeError) /\
  (forall e, snd outcome = inl e -> fst outcome = requested cfg method params st) /\
  (forall e, snd outcome = inl e -> heap (fst outcome) = heap st).
Proof.
  intros history answer outcome. unfold outcome.
  rewrite extract_global_fetched. fold history. unfold fetched. fold answer.
  split; [|split; [|split; [|split; [|split]]]].
  - by intros ->.
  - by intros r -> ->.
  - by intros r -> -> ->.
  - intros r data outer inner -> -> -> Hin Hbad.
    rewrite (key_map_getitem_known _ _ _ Hin). cbn [fst snd].
    destruct Hbad as [Hdata | [d [v [-> [Hv Hsub]]]]].
    + destruct data; try done. by destruct (Hdata d).
    + cbn [py_get]. rewrite Hv. cbn [default from_option id].
      destruct v; try done. by destruct (Hsub d0).
  - intros e. by destruct (match answer with Some _ => _ | None => _ end).
  - intros e. by destruct (match answer with Some _ => _ | None => _ end).
Qed.

(** X3.  When [extract_global] returns, the table it returns is a new
    one: its reference is the next free one, the heap has exactly that one
    frame more, every frame that existed is as it was, and the line
    printed last tells whether the new table is empty or how many rows it
    has. *)
Theorem extract_global_fresh_table w DataFrame_other cfg method params st st' df :
  extract_global w DataFrame_other cfg method params st = (st', inr df) ->
  df = length (heap st) /\
  valid df st' /\
  heap st' = (heap st ++ [frame_at st' df])%list /\
  (forall r, valid r st -> frame_at st' r = frame_at st r) /\
  log st' =
    (log st ++ [ EvPrint (MsgFetching method);
                 EvHttpGet BASE_URL (base_params cfg method params);
                 EvPrint (if DataFrame_empty (frame_at st' df)
                          then MsgNoRows method
                          else MsgFetched (nrows (frame_at st' df)) method) ])%list.
Proof.
  rewrite extract_global_fetched.
  destruct (fetched _ _ _ _ _ _) as [e|d]; [done|].
  intros [= <- <-].
  assert (Hd : frame_at
                 (add_log (EvPrint (fetch_line method d))
                    (with_new_frame d (requested cfg method params st)))
                 (length (heap st)) = d)
    by exact (frame_at_new d (requested cfg method params st)).
  rewrite Hd. split; [done|]. split; [|split; [done|split]].
  - unfold valid. cbn [heap add_log with_new_frame requested]. rewrite length_app. simpl. lia.
  - intros r Hr. rewrite frame_at_add_log, frame_at_old; [reflexivity|exact Hr].
  - cbn [log add_log with_new_frame requested]. by rewrite <- !app_assoc.
Qed.

(** ** [transform_global], every way it can end *)

Lemma with_frame_same df st : with_frame df (frame_at st df) st = st.
Proof.
  unfold with_frame, frame_at. destruct st as [h l]. simpl. f_equal.
  destruct (h !! df) as [d|] eqn:Hd; simpl.
  - by apply list_insert_id.
  - apply list_insert_ge. by apply lookup_ge_None.
Qed.

Lemma astype_int_length col zs : astype_int col = inr zs -> length zs = length col.
Proof. intros H. symmetry. eapply Forall2_length, astype_int_cells, H. Qed.

Lemma wf_set_column c col d :
  wf_frame d -> length col = nrows d -> wf_frame (set_column c col d).
Proof.
  destruct d as [cols n]. unfold wf_frame, set_column. simpl. intros Hwf Hlen.
  induction Hwf as [|[k v] cols Hk Hcols IH]; simpl.
  - by constructor.
  - destruct (String.eqb c k); constructor; simpl; auto.
Qed.

Lemma grown_refl d : grown d d.
Proof. by split. Qed.

Lemma grown_set_column c v d D :
  (wf_frame d -> length v = nrows d) -> grown d D -> grown d (set_column c v D).
Proof.
  intros Hv [Hn [Hc Hwf]]. split; [done|]. split.
  - intros k Hk. by apply df_col_set_is_Some, Hc.
  - intros Hd. apply wf_set_column; [by apply Hwf|]. rewrite Hn. by apply Hv.
Qed.

Lemma grown_set_scalar c v d D : grown d D -> grown d (set_scalar c v D).
Proof.
  intros HD. apply grown_set_column; [|done].
  intros _. rewrite length_replicate. by destruct HD.
Qed.

Ltac column_length :=
  intros Hwf;
  try match goal with
      | |- context [default _ (df_col ?c ?d)] =>
          destruct (df_col c d) eqn:?; cbn [default from_option id]
      end;
  repeat first
    [ rewrite length_map
    | rewrite length_replicate
    | erewrite astype_int_length by eassumption ];
  first [ reflexivity | eapply df_col_length; eassumption ].

Ltac projected_wf :=
  intros Hwf; unfold wf_frame, artists_out, tracks_out, tags_out; cbn [columns nrows];
  repeat (constructor; [cbn [snd]; revert Hwf; column_length|]); constructor.

Ltac grown_chain :=
  repeat first
    [ apply grown_refl
    | apply grown_set_scalar
    | apply grown_set_column; [column_length|] ].

(** The state [transform_global] ends in: one line printed, the frame
    passed in replaced by a grown one, and on return of a projection one
    new frame. *)
Lemma transform_global_state w st df level :
  valid df st ->
  exists m D,
    (m = MsgNoData level \/ m = MsgTransforming level) /\
    grown (frame_at st df) D /\
    let st0 := with_frame df D (add_log (EvPrint m) st) in
    ((exists e, transform_global w df level st = (st0, inl e)) \/
     (transform_global w df level st = (st0, inr df) /\ D = frame_at st df /\
      (DataFrame_empty (frame_at st df) = true \/ ~ In level known_levels)) \/
     (exists out,
        transform_global w df level st = (with_new_frame out st0, inr (length (heap st))) /\
        nrows out = nrows (frame_at st df) /\
        map fst (columns out) = derived_columns level /\
        (wf_frame (frame_at st df) -> wf_frame out) /\
        In level known_levels /\
        DataFrame_empty (frame_at st df) = false /\
        forall c, In c (derived_columns level) ->
          df_col c D = df_col c out /\ is_Some (df_col c out))).
Proof.
  intros Hv.
  destruct (DataFrame_empty (frame_at st df)) eqn:He.
  { exists (MsgNoData level), (frame_at st df).
    split; [by left|]. split; [apply grown_refl|]. cbv zeta. right. left.
    rewrite transform_empty by done.
    rewrite <- (frame_at_add_log (EvPrint (MsgNoData level)) st df), with_frame_same.
    auto. }
  assert (Hsame : forall m, with_frame df (frame_at st df) (add_log (EvPrint m) st)
                            = add_log (EvPrint m) st).
  { intros m. by rewrite <- (frame_at_add_log (EvPrint m) st df), with_frame_same. }
  destruct (mem_str level ["geo_artists"; "chart_artists"]) eqn:Ha;
    [|destruct (mem_str level ["geo_tracks"; "chart_tracks"]) eqn:Ht;
      [|destruct (String.eqb level "chart_tags") eqn:Hg]].
  - assert (Hk : In level known_levels).
    { simpl in Ha. apply orb_true_iff in Ha as [Ha|Ha].
      - apply String.eqb_eq in Ha. subst. simpl. auto.
      - rewrite orb_false_r in Ha. apply String.eqb_eq in Ha. subst. simpl. auto. }
    exists (MsgTransforming level).
    rewrite transform_artists_run by done. cbv zeta.
    destruct (df_col "name" (frame_at st df)) as [name|] eqn:Hn.
    2:{ exists (frame_at st df). split; [by right|]. split; [apply grown_refl|].
        left. rewrite Hsame. eauto. }
    destruct (df_col "listeners" (frame_at st df)) as [listeners|] eqn:Hl.
    2:{ eexists. split; [by right|]. split; [|left; eauto].
        grown_chain. }
    destruct (astype_int listeners) as [e|zs] eqn:Hz.
    { eexists. split; [by right|]. split; [|left; eauto].
      grown_chain. }
    eexists. split; [by right|]. split; [|right; right; eexists; split; [reflexivity|]].
    { grown_chain. }
    unfold derived_columns. rewrite Ha.
    split; [done|]. split; [done|]. split; [projected_wf|]. split; [done|]. split; [done|].
    simpl. intros c [<-|[<-|[<-|[<-|[]]]]]; derived_column.
  - assert (Hk : In level known_levels).
    { simpl in Ht. apply orb_true_iff in Ht as [Ht|Ht].
      - apply String.eqb_eq in Ht. subst. simpl. auto.
      - rewrite orb_false_r in Ht. apply String.eqb_eq in Ht. subst. simpl. auto. }
    exists (MsgTransforming level).
    rewrite transform_tracks_run by done. cbv zeta.
    destruct (df_col "artist" (frame_at st df)) as [artist|] eqn:Har.
    2:{ exists (frame_at st df). split; [by right|]. split; [apply grown_refl|].
        left. rewrite Hsame. eauto. }
    destruct (df_col "name" (frame_at st df)) as [name|] eqn:Hn.
    2:{ eexists. split; [by right|]. split; [|left; eauto].
        grown_chain. }
    destruct (df_col "listeners" (frame_at st df)) as [listeners|] eqn:Hl.
    2:{ eexists. split; [by right|]. split; [|left; eauto].
        grown_chain. }
    destruct (astype_int listeners) as [e|zs] eqn:Hz.
    { eexists. split; [by right|]. split; [|left; eauto].
      grown_chain. }
    eexists. split; [by right|]. split; [|right; right; eexists; split; [reflexivity|]].
    { grown_chain. }
    unfold derived_columns. rewrite Ha, Ht.
    split; [done|]. split; [done|]. split; [projected_wf|]. split; [done|]. split; [done|].
    simpl. intros c [<-|[<-|[<-|[<-|[]]]]]; derived_column.
  - assert (Hk : In level known_levels).
    { apply String.eqb_eq in Hg. subst. simpl. auto 10. }
    exists (MsgTransforming level).
    rewrite transform_tags_run by done. cbv zeta.
    destruct (df_col "name" (frame_at st df)) as [name|] eqn:Hn.
    2:{ exists (frame_at st df). split; [by right|]. split; [apply grown_refl|].
        left. rewrite Hsame. eauto. }
    destruct (df_col "reach" (frame_at st df)) as [reach|] eqn:Hr.
    2:{ eexists. split; [by right|]. split; [|left; eauto].
        grown_chain. }
    destruct (astype_int reach) as [e|rz] eqn:Hrz.
    { eexists. split; [by right|]. split; [|left; eauto].
      grown_chain. }
    destruct (df_col "taggings" (frame_at st df)) as [taggings|] eqn:Htg.
    2:{ eexists. split; [by right|]. split; [|left; eauto].
        grown_chain. }
    destruct (astype_int taggings) as [e|tz] eqn:Htz.
    { eexists. split; [by right|]. split; [|left; eauto].
      grown_chain. }
    eexists. split; [by right|]. split; [|right; right; eexists; split; [reflexivity|]].
    { grown_chain. }
    unfold derived_columns. rewrite Ha, Ht, Hg.
    split; [done|]. split; [done|]. split; [projected_wf|]. split; [done|]. split; [done|].
    simpl. intros c [<-|[<-|[<-|[<-|[]]]]]; derived_column.
  - exists (MsgTransforming level), (frame_at st df).
    split; [by right|]. split; [apply grown_refl|]. cbv zeta. right. left.
    rewrite transform_other_level by done. rewrite Hsame.
    split; [done|]. split; [done|]. right.
    unfold known_levels. simpl. intros [<-|[<-|[<-|[<-|[<-|[]]]]]]; discriminate.
Qed.

(** X4.  However [transform_global] ends, also when it raises: it prints
    exactly one line and makes no call outside the process; no table other
    than the one passed in is changed; the table passed in keeps its rows
    and every column it had; and a call that raises leaves no new table
    behind. *)
Theorem transform_global_effect w st df level :
  valid df st ->
  let outcome := transform_global w df level st in
  (exists m, log (fst outcome) = (log st ++ [EvPrint m])%list) /\
  (forall r, r <> df -> valid r st -> frame_at (fst outcome) r = frame_at st r) /\
  nrows (frame_at (fst outcome) df) = nrows (frame_at st df) /\
  (forall c, is_Some (df_col c (frame_at st df)) ->
             is_Some (df_col c (frame_at (fst outcome) df))) /\
  (forall e, snd outcome = inl e -> length (heap (fst outcome)) = length (heap st)).
Proof.
  intros Hv outcome. unfold outcome.
  destruct (transform_global_state w st df level Hv)
    as [m [D [_ [[Hn [Hc _]] Hend]]]].
  cbv zeta in Hend.
  assert (Hv0 : valid df (add_log (EvPrint m) st)) by done.
  destruct Hend as [[e He] | [[He _] | [out [He _]]]]; rewrite He; cbn [fst snd].
  - split; [by exists m|]. split; [|split; [|split]].
    + intros r Hr _. by rewrite frame_at_with_frame_ne.
    + by rewrite frame_at_with_frame.
    + by rewrite frame_at_with_frame.
    + intros e0 _. exact (length_heap_with_frame df D (add_log (EvPrint m) st)).
  - split; [by exists m|]. split; [|split; [|split]].
    + intros r Hr _. by rewrite frame_at_with_frame_ne.
    + by rewrite frame_at_with_frame.
    + by rewrite frame_at_with_frame.
    + done.
  - destruct (returned_state df st (EvPrint m) D out Hv) as [Hin [_ Hrest]].
    split; [by exists m|]. split; [exact Hrest|]. split; [|split].
    + by rewrite Hin.
    + by rewrite Hin.
    + done.
Qed.

(** X5.  When [transform_global] returns, for any shape kind, the table
    returned has exactly as many rows as the table passed in; and if the
    table passed in is well formed (one cell per row in every column), so
    are the table returned and the table passed in as the call left it. *)
Theorem transform_global_keeps_rows w st df level st' out :
  valid df st ->
  transform_global w df level st = (st', inr out) ->
  valid out st' /\
  nrows (frame_at st' out) = nrows (frame_at st df) /\
  length (DataFrame_rows (frame_at st' out)) = nrows (frame_at st df) /\
  (wf_frame (frame_at st df) ->
   wf_frame (frame_at st' out) /\ wf_frame (frame_at st' df)).
Proof.
  intros Hv Hrun.
  assert (Hrows : forall d, length (DataFrame_rows d) = nrows d).
  { intros d. unfold DataFrame_rows. by rewrite length_map, length_seq. }
  rewrite Hrows.
  destruct (transform_global_state w st df level Hv)
    as [m [D [_ [[Hn [_ Hwf]] Hend]]]].
  cbv zeta in Hend.
  assert (Hv0 : valid df (add_log (EvPrint m) st)) by done.
  destruct Hend as [[e He] | [[Hret [HD _]] | [o [Hret [Ho [_ [Hwfo _]]]]]]].
  - congruence.
  - rewrite Hret in Hrun. injection Hrun as <- <-. subst D.
    rewrite frame_at_with_frame by done.
    split; [by apply valid_with_frame|]. done.
  - rewrite Hret in Hrun. injection Hrun as <- <-.
    destruct (returned_state df st (EvPrint m) D o Hv) as [Hin [Hout _]].
    rewrite Hin, Hout. split; [|by auto].
    unfold valid, with_new_frame. cbn [heap]. rewrite length_app, length_heap_with_frame.
    simpl. lia.
Qed.

Lemma astype_int_returns col zs :
  astype_int col = inr zs -> Forall (fun v => exists z, py_int v = inr z) col.
Proof.
  intros H. apply astype_int_cells in H.
  induction H as [|v c col zs [z [Hz _]] _ IH]; constructor; eauto.
Qed.

Lemma astype_int_iff col :
  (exists zs, astype_int col = inr zs) <->
  Forall (fun v => exists z, py_int v = inr z) col.
Proof.
  split.
  - intros [zs H]. by eapply astype_int_returns.
  - apply astype_int_ok.
Qed.

(** X6.  The exact condition under which [transform_global] returns on a
    non-empty table: for an artist shape, a [name] column and a
    [listeners] column whose every cell [int()] accepts; for a track
    shape, an [artist] column besides; for the tag shape, a [name] column
    and [reach] and [taggings] columns whose every cell [int()] accepts.
    Nothing else matters: not [playcount], not what the [name] or
    [artist] cells are. *)
Theorem transform_global_returns_iff w st df level :
  valid df st ->
  DataFrame_empty (frame_at st df) = false ->
  let d := frame_at st df in
  let returns := exists st' out, transform_global w df level st = (st', inr out) in
  let integers c :=
    exists col, df_col c d = Some col /\ Forall (fun v => exists z, py_int v = inr z) col in
  (level = "geo_artists" \/ level = "chart_artists" ->
   (returns <-> is_Some (df_col "name" d) /\ integers "listeners")) /\
  (level = "geo_tracks" \/ level = "chart_tracks" ->
   (returns <->
    is_Some (df_col "artist" d) /\ is_Some (df_col "name" d) /\ integers "listeners")) /\
  (level = "chart_tags" ->
   (returns <-> is_Some (df_col "name" d) /\ integers "reach" /\ integers "taggings")).
Proof.
  intros Hv He d returns integers. unfold returns, integers, d.
  split; [|split].
  - intros Hl. rewrite transform_artists_run by auto using level_artists. cbv zeta.
    destruct (df_col "name" (frame_at st df)) as [name|].
    2:{ split; [by intros [? [? ?]]|]. by intros [[? ?] _]. }
    destruct (df_col "listeners" (frame_at st df)) as [listeners|].
    2:{ split; [by intros [? [? ?]]|]. by intros [_ [? [? _]]]. }
    destruct (astype_int listeners) as [e|zs] eqn:Hz.
    + split; [by intros [? [? ?]]|]. intros [_ [col [[= <-] Hcol]]].
      apply astype_int_ok in Hcol as [zs Hzs]. congruence.
    + split; [|eauto]. intros _. split; [done|].
      exists listeners. split; [done|]. by eapply astype_int_returns.
  - intros Hl. destruct (level_tracks _ Hl) as [Ha Ht].
    rewrite transform_tracks_run by done. cbv zeta.
    destruct (df_col "artist" (frame_at st df)) as [artist|].
    2:{ split; [by intros [? [? ?]]|]. by intros [[? ?] _]. }
    destruct (df_col "name" (frame_at st df)) as [name|].
    2:{ split; [by intros [? [? ?]]|]. by intros [_ [[? ?] _]]. }
    destruct (df_col "listeners" (frame_at st df)) as [listeners|].
    2:{ split; [by intros [? [? ?]]|]. by intros [_ [_ [? [? _]]]]. }
    destruct (astype_int listeners) as [e|zs] eqn:Hz.
    + split; [by intros [? [? ?]]|]. intros [_ [_ [col [[= <-] Hcol]]]].
      apply astype_int_ok in Hcol as [zs Hzs]. congruence.
    + split; [|eauto]. intros _. split; [done|]. split; [done|].
      exists listeners. split; [done|]. by eapply astype_int_returns.
  - intros ->. rewrite transform_tags_run by done. cbv zeta.
    destruct (df_col "name" (frame_at st df)) as [name|].
    2:{ split; [by intros [? [? ?]]|]. by intros [[? ?] _]. }
    destruct (df_col "reach" (frame_at st df)) as [reach|].
    2:{ split; [by intros [? [? ?]]|]. by intros [_ [[? [? _]] _]]. }
    destruct (astype_int reach) as [e|rz] eqn:Hrz.
    { split; [by intros [? [? ?]]|]. intros [_ [[col [[= <-] Hcol]] _]].
      apply astype_int_ok in Hcol as [zs Hzs]. congruence. }
    destruct (df_col "taggings" (frame_at st df)) as [taggings|].
    2:{ split; [by intros [? [? ?]]|]. by intros [_ [_ [? [? _]]]]. }
    destruct (astype_int taggings) as [e|tz] eqn:Htz.
    + split; [by intros [? [? ?]]|]. intros [_ [_ [col [[= <-] Hcol]]]].
      apply astype_int_ok in Hcol as [zs Hzs]. congruence.
    + split; [|eauto]. intros _. split; [done|]. split.
      * exists reach. split; [done|]. by eapply astype_int_returns.
      * exists taggings. split; [done|]. by eapply astype_int_returns.
Qed.

(** X7.  An exception does not undo what [transform_global] has already
    written to the table passed in.  Tag shape: when [name] and [reach]
    are fine but [taggings] is missing or has a cell [int()] rejects, the
    call raises and the caller's table has gained [tag_name] and has its
    [reach] column replaced by the integers, with [taggings] and
    [timestamp] as they were.  Artist shapes: when [listeners] is missing
    or has such a cell, the call raises and the caller's table has gained
    [artist_name], with [listeners] as it was. *)
Theorem transform_global_no_rollback w st df :
  valid df st ->
  DataFrame_empty (frame_at st df) = false ->
  let d := frame_at st df in
  (forall name reach rz,
     df_col "name" d = Some name ->
     df_col "reach" d = Some reach ->
     astype_int reach = inr rz ->
     (df_col "taggings" d = None \/
      exists taggings e, df_col "taggings" d = Some taggings /\ astype_int taggings = inl e) ->
     exists st' e,
       transform_global w df "chart_tags" st = (st', inl e) /\
       df_col "tag_name" (frame_at st' df) = Some name /\
       df_col "reach" (frame_at st' df) = Some rz /\
       df_col "taggings" (frame_at st' df) = df_col "taggings" d /\
       df_col "timestamp" (frame_at st' df) = df_col "timestamp" d) /\
  (forall level name,
     level = "geo_artists" \/ level = "chart_artists" ->
     df_col "name" d = Some name ->
     (df_col "listeners" d = None \/
      exists listeners e,
        df_col "listeners" d = Some listeners /\ astype_int listeners = inl e) ->
     exists st' e,
       transform_global w df level st = (st', inl e) /\
       df_col "artist_name" (frame_at st' df) = Some name /\
       df_col "listeners" (frame_at st' df) = df_col "listeners" d /\
       df_col "timestamp" (frame_at st' df) = df_col "timestamp" d).
Proof.
  intros Hv He d. unfold d. split.
  - intros name reach rz Hn Hr Hrz Hbad.
    rewrite transform_tags_run by done. cbv zeta. rewrite Hn, Hr, Hrz.
    destruct Hbad as [Ht | [taggings [e [Ht Htz]]]]; rewrite Ht; [|rewrite Htz];
      (eexists _, _; split; [reflexivity|];
       rewrite frame_at_with_frame by done; other_column; by rewrite ?Ht).
  - intros level name Hl Hn Hbad.
    rewrite transform_artists_run by auto using level_artists. cbv zeta. rewrite Hn.
    destruct Hbad as [Hli | [listeners [e [Hli Hz]]]]; rewrite Hli; [|rewrite Hz];
      (eexists _, _; split; [reflexivity|];
       rewrite frame_at_with_frame by done; other_column; by rewrite ?Hli).
Qed.

(** X8.  On a non-empty table of a track shape whose [artist], [name] and
    [listeners] columns are there, with [listeners] cells [int()]
    accepts, [transform_global] returns rows with exactly the columns
    artist_name, track_name, listeners, timestamp in this order:
    [artist_name] is the lambda of line 79 applied to the source [artist]
    cell, [track_name] is the source [name], [listeners] the integer read
    from the source cell, and the timestamp is the same in every row. *)
Theorem transform_global_track_rows w st df level artist name listeners :
  valid df st ->
  wf_frame (frame_at st df) ->
  DataFrame_empty (frame_at st df) = false ->
  level = "geo_tracks" \/ level = "chart_tracks" ->
  df_col "artist" (frame_at st df) = Some artist ->
  df_col "name" (frame_at st df) = Some name ->
  df_col "listeners" (frame_at st df) = Some listeners ->
  Forall (fun v => exists z, py_int v = inr z) listeners ->
  exists st' out ts,
    transform_global w df level st = (st', inr out) /\
    map fst (columns (frame_at st' out)) =
      ["artist_name"; "track_name"; "listeners"; "timestamp"] /\
    length (DataFrame_rows (frame_at st' out)) = nrows (frame_at st df) /\
    forall i row,
      DataFrame_rows (frame_at st' out) !! i = Some row ->
      exists z,
        py_int (nth i listeners PNull) = inr z /\
        row = [ ("artist_name", artist_name_of (nth i artist PNull));
                ("track_name", nth i name PNull);
                ("listeners", PInt z); ("timestamp", PStr ts) ].
Proof.
  intros Hv Hwf He Hl Har Hn Hli Hok.
  destruct (astype_int_ok _ Hok) as [zs Hz].
  eexists _, _, _. split; [by eapply transform_tracks_ok|].
  rewrite frame_at_out. split; [done|]. split.
  { unfold DataFrame_rows. by rewrite length_map, length_seq. }
  intros i row Hrow. apply DataFrame_rows_lookup in Hrow as [Hi ->].
  cbn [tracks_out nrows] in Hi.
  assert (Hlen : length listeners = nrows (frame_at st df)) by eauto using df_col_length.
  destruct (nth_astype_int listeners zs i Hz) as [z [Hpy Hnth]]; [lia|].
  assert (Hla : length artist = nrows (frame_at st df)) by eauto using df_col_length.
  exists z. split; [done|].
  unfold row_at, tracks_out. cbn [columns map fst snd].
  rewrite (nth_map_lt artist_name_of artist i PNull PNull) by lia.
  by rewrite Hnth, nth_replicate_lt.
Qed.

(** ** The parameters of the request *)

Lemma dict_get_set_eq k v d : dict_get k (dict_set k v d) = Some v.
Proof.
  induction d as [|[k' v'] d IH]; simpl.
  - by rewrite String.eqb_refl.
  - destruct (String.eqb k k') eqn:E; simpl; rewrite ?String.eqb_refl, ?E; done.
Qed.

Lemma dict_get_set_ne k k' v d :
  String.eqb k' k = false -> dict_get k' (dict_set k v d) = dict_get k' d.
Proof.
  intros Hne. induction d as [|[j v'] d IH]; simpl.
  - by rewrite Hne.
  - destruct (String.eqb k j) eqn:E; simpl.
    + apply String.eqb_eq in E. subst j. by rewrite Hne.
    + by rewrite IH.
Qed.

Lemma dict_get_absent k (d : dict) : ~ In k (map fst d) -> dict_get k d = None.
Proof.
  induction d as [|[j v] d IH]; simpl; [done|].
  intros Hno. destruct (String.eqb k j) eqn:E.
  - apply String.eqb_eq in E. destruct Hno. by left.
  - apply IH. intros Hin. apply Hno. by right.
Qed.

(** [d.update(e)] read back: the keys of [e] win, the others are as in [d]. *)
Lemma dict_get_update k (d e : dict) :
  NoDup (map fst e) ->
  dict_get k (dict_update d e) =
  match dict_get k e with
  | Some v => Some v
  | None => dict_get k d
  end.
Proof.
  unfold dict_update. revert d.
  induction e as [|[j v] e IH]; intros d Hnd; simpl; [done|].
  apply NoDup_cons in Hnd as [Hj Hnd]. rewrite IH by done.
  destruct (String.eqb k j) eqn:E.
  - apply String.eqb_eq in E. subst j.
    rewrite dict_get_absent by (by rewrite <- list_elem_of_In).
    apply dict_get_set_eq.
  - destruct (dict_get k e); [done|]. by apply dict_get_set_ne.
Qed.

(** X9.  The parameters [extract_global] sends, for keyword arguments
    with distinct names, none of them [method] (Python refuses both at the
    call): [method] is the method; every keyword is sent with the caller's
    value, also when it is named [limit], [format] or [api_key] (the
    caller's value replaces the default); a parameter the caller does not
    give is [api_key] = the configured key (null when it is not set),
    [format] = json, [limit] = 100, and nothing else is sent. *)
Theorem base_params_lookup cfg method params k :
  NoDup (map fst params) ->
  dict_get "method" params = None ->
  dict_get "method" (base_params cfg method params) = Some (PStr method) /\
  dict_get k (base_params cfg method params) =
  match dict_get k params with
  | Some v => Some v
  | None =>
      if String.eqb k "method" then Some (PStr method)
      else if String.eqb k "api_key" then Some (opt_str (LASTFM_API_KEY cfg))
      else if String.eqb k "format" then Some (PStr "json")
      else if String.eqb k "limit" then Some (PInt 100)
      else None
  end.
Proof.
  intros Hnd Hm. unfold base_params. rewrite !dict_get_update by done.
  by rewrite Hm.
Qed.

(** ** [load_to_bigquery] on a table with rows *)

Lemma bind_warehouse {A B} e (answer : list event -> option A) (k : A -> M B) st :
  (warehouse e answer ≫= k) st =
  match answer (log st) with
  | Some a => k a (add_log e st)
  | None => (add_log e st, inl GoogleAPIError)
  end.
Proof.
  unfold mbind, M_bind, warehouse. by destruct (answer (log st)).
Qed.

Lemma load_nonempty_run w cfg st df table_name :
  DataFrame_empty (frame_at st df) = false ->
  let d := frame_at st df in
  let table_id := table_id_of cfg table_name in
  let st1 := add_log (EvClient (GCP_PROJECT_ID cfg)) st in
  let st2 := add_log (EvLoadJob d table_id "WRITE_APPEND" true)
               (add_log (EvPrint (MsgUploading (nrows d) table_id)) st1) in
  let st3 := add_log EvJobResult st2 in
  let st4 := add_log (EvGetTable table_id) st3 in
  load_to_bigquery w cfg df table_name st =
  if bq_client w (log st) (GCP_PROJECT_ID cfg) then
    if bq_load w (log st1 ++ [EvPrint (MsgUploading (nrows d) table_id)]) d table_id then
      if bq_result w (log st2) then
        match bq_get_table w (log st3) table_id with
        | Some n => (add_log (EvPrint (MsgUploaded n)) st4, inr tt)
        | None => (st4, inl GoogleAPIError)
        end
      else (st3, inl GoogleAPIError)
    else (st2, inl GoogleAPIError)
  else (st1, inl GoogleAPIError).
Proof.
  intros He. cbv zeta. unfold load_to_bigquery.
  rewrite bind_frame, He, bind_warehouse.
  destruct (bq_client w (log st) (GCP_PROJECT_ID cfg)); [|done].
  cbn [succeeded]. rewrite bind_say, bind_warehouse.
  fold (table_id_of cfg table_name). cbn [log add_log].
  destruct (bq_load w _ _ _); [|done].
  cbn [succeeded]. rewrite bind_warehouse. cbn [log add_log].
  destruct (bq_result w _); [|done].
  cbn [succeeded]. rewrite bind_warehouse. cbn [log add_log].
  by destruct (bq_get_table w _ _).
Qed.



(** ** What a run loads *)

Lemma projected_not_empty level d out :
  In level known_levels ->
  DataFrame_empty d = false ->
  nrows out = nrows d ->
  map fst (columns out) = derived_columns level ->
  DataFrame_empty out = false.
Proof.
  intros Hk He Hn Hc. unfold DataFrame_empty in *.
  apply orb_false_iff in He as [Hrows _]. rewrite Hn, Hrows. simpl.
  assert (Hlen : length (columns out) = length (derived_columns level))
    by (by rewrite <- Hc, length_map).
  rewrite Hlen. unfold known_levels in Hk. simpl in Hk.
  by destruct Hk as [<-|[<-|[<-|[<-|[<-|[]]]]]].
Qed.

Ltac all_well_loaded :=
  cbn [app];
  repeat match goal with
         | |- Forall _ [] => constructor
         | |- Forall _ (_ :: _) => constructor; [first [exact I | assumption]|]
         | |- Forall _ _ => assumption
         end.

Lemma load_to_bigquery_well_loaded w cfg stages s st df :
  In s stages ->
  DataFrame_empty (frame_at st df) = true \/
  map fst (columns (frame_at st df)) = derived_columns (stage_level s) ->
  exists new,
    log (fst (load_to_bigquery w cfg df (stage_table s) st)) = (log st ++ new)%list /\
    Forall (well_loaded cfg stages) new.
Proof.
  intros Hs Hd.
  destruct (DataFrame_empty (frame_at st df)) eqn:He.
  { rewrite load_empty by done. eexists. split; [reflexivity|]. all_well_loaded. }
  destruct Hd as [Hd|Hd]; [done|].
  assert (Hjob : well_loaded cfg stages
                   (EvLoadJob (frame_at st df) (table_id_of cfg (stage_table s))
                      "WRITE_APPEND" true)).
  { simpl. split; [done|]. split; [done|]. split; [done|]. by exists s. }
  rewrite load_nonempty_run by done. cbv zeta.
  destruct (bq_client w (log st) (GCP_PROJECT_ID cfg)).
  2:{ eexists. split; [reflexivity|]. all_well_loaded. }
  destruct (bq_load w _ _ _).
  2:{ eexists. split; [cbn [fst log add_log]; by rewrite <- !app_assoc|].
      all_well_loaded. }
  destruct (bq_result w _).
  2:{ eexists. split; [cbn [fst log add_log]; by rewrite <- !app_assoc|].
      all_well_loaded. }
  destruct (bq_get_table w _ _).
  - eexists. split; [cbn [fst log add_log]; by rewrite <- !app_assoc|].
    all_well_loaded.
  - eexists. split; [cbn [fst log add_log]; by rewrite <- !app_assoc|].
    all_well_loaded.
Qed.

Lemma run_stage_well_loaded w DataFrame_other cfg stages s :
  In s stages ->
  In (stage_level s) known_levels ->
  quiet (well_loaded cfg stages) (run_stage w DataFrame_other cfg s).
Proof.
  intros Hs Hk st. rewrite run_stage_steps, extract_global_fetched.
  destruct (fetched _ _ _ _ _ _) as [e|d].
  { eexists. split; [cbn [fst log add_log requested]; by rewrite <- !app_assoc|].
    all_well_loaded. }
  set (st1 := add_log (EvPrint (fetch_line (stage_method s) d))
                (with_new_frame d (requested cfg (stage_method s) (stage_params s) st))).
  assert (Hlog1 : log st1 =
            (log st ++ [ EvPrint (MsgFetching (stage_method s));
                         EvHttpGet BASE_URL
                           (base_params cfg (stage_method s) (stage_params s));
                         EvPrint (fetch_line (stage_method s) d) ])%list).
  { unfold st1. cbn [log add_log with_new_frame requested]. by rewrite <- !app_assoc. }
  assert (Hv : valid (length (heap st)) st1).
  { unfold valid, st1. cbn [heap add_log with_new_frame requested].
    rewrite length_app. simpl. lia. }
  destruct (transform_global_state w st1 (length (heap st)) (stage_level s) Hv)
    as [m [D [_ [[Hn _] Hend]]]].
  cbv zeta in Hend.
  destruct Hend as [[e He] | [[He [HD Hempty]] | [out [He [Hrows [Hcols [_ [_ [Hfull _]]]]]]]]];
    rewrite He.
  - eexists. split; [cbn [fst log with_frame add_log]; rewrite Hlog1; by rewrite <- !app_assoc|].
    all_well_loaded.
  - destruct Hempty as [Hempty|Hno]; [|done].
    rewrite load_empty.
    + eexists. split;
        [cbn [fst log with_frame add_log]; rewrite Hlog1; by rewrite <- !app_assoc|].
      all_well_loaded.
    + rewrite frame_at_with_frame by done. by rewrite HD.
  - match goal with
    | |- context [load_to_bigquery w cfg ?r (stage_table s) ?st2] =>
        destruct (load_to_bigquery_well_loaded w cfg stages s st2 r Hs)
          as [new [Hlog Hnew]]
    end.
    { right.
      destruct (returned_state (length (heap st)) st1 (EvPrint m) D out Hv)
        as [_ [Hout _]].
      by rewrite Hout. }
    eexists. split.
    + rewrite Hlog. cbn [log with_new_frame with_frame add_log]. rewrite Hlog1.
      by rewrite <- !app_assoc.
    + all_well_loaded.
Qed.

Lemma run_stages_well_loaded w DataFrame_other cfg stages l :
  (forall s, In s l -> In s stages /\ In (stage_level s) known_levels) ->
  quiet (well_loaded cfg stages) (run_stages w DataFrame_other cfg l).
Proof.
  induction l as [|s l IH]; intros Hl; simpl; [apply quiet_ret|].
  apply quiet_bind.
  - apply run_stage_well_loaded; apply Hl; by left.
  - intros _. apply IH. intros s' Hs'. apply Hl. by right.
Qed.

(** X11.  Whatever the world answers, every load job a run of the flow
    issues is an append ([WRITE_APPEND], schema detection on) of a table
    that has rows and exactly the columns of one of the five shapes, to
    the destination of that same sub-pipeline, [project.dataset.table]:
    artist rows never go to a track or tag table, and an empty table is
    never sent. *)
Theorem etl_global_topdata_loads w DataFrame_other cfg st :
  exists new,
    log (fst (etl_global_topdata w DataFrame_other cfg st)) = (log st ++ new)%list /\
    Forall (well_loaded cfg five_stages) new.
Proof.
  rewrite etl_global_topdata_stages.
  assert (Hq : quiet (well_loaded cfg five_stages)
                 (say MsgStart;; run_stages w DataFrame_other cfg five_stages)).
  { apply quiet_bind; [by apply quiet_emit|]. intros _.
    apply run_stages_well_loaded. intros s Hs. split; [done|].
    unfold five_stages in Hs. simpl in Hs.
    destruct Hs as [<-|[<-|[<-|[<-|[<-|[]]]]]]; simpl; auto 10. }
  apply Hq.
Qed.

(** ** Tables built from records *)

Lemma col_lookup_keys c keys (f : string -> list pyval) :
  col_lookup c (map (fun k => (k, f k)) keys) =
  if mem_str c keys then Some (f c) else None.
Proof.
  induction keys as [|k keys IH]; simpl; [done|].
  destruct (String.eqb c k) eqn:E; simpl; [|done].
  apply String.eqb_eq in E. by subst.
Qed.

Lemma mem_str_app c l1 l2 : mem_str c (l1 ++ l2) = mem_str c l1 || mem_str c l2.
Proof. apply existsb_app. Qed.

Lemma mem_str_first_seen c seen ks :
  mem_str c (first_seen seen ks) = mem_str c seen || mem_str c ks.
Proof.
  revert seen. induction ks as [|k ks IH]; intros seen; simpl.
  - by rewrite orb_false_r.
  - rewrite IH. destruct (mem_str k seen) eqn:Hk.
    + destruct (String.eqb c k) eqn:E; [|done].
      apply String.eqb_eq in E. subst. by rewrite Hk.
    + rewrite mem_str_app. simpl. rewrite orb_false_r. by rewrite orb_assoc.
Qed.

Lemma mem_str_keys c (r : dict) : mem_str c (map fst r) = bool_decide (is_Some (dict_get c r)).
Proof.
  induction r as [|[k v] r IH]; simpl; [done|].
  by destruct (String.eqb c k).
Qed.

Lemma mem_str_record_keys c recs :
  mem_str c (record_keys recs) = existsb (fun r => bool_decide (is_Some (dict_get c r))) recs.
Proof.
  unfold record_keys. rewrite mem_str_first_seen. simpl.
  induction recs as [|r recs IH]; simpl; [done|].
  by rewrite mem_str_app, mem_str_keys, IH.
Qed.

Lemma df_col_of_records c recs :
  df_col c (DataFrame_of_records recs) =
  if existsb (fun r => bool_decide (is_Some (dict_get c r))) recs
  then Some (map (fun r => default PNull (dict_get c r)) recs)
  else None.
Proof.
  unfold df_col, DataFrame_of_records. cbn [columns].
  by rewrite col_lookup_keys, mem_str_record_keys.
Qed.


Lemma hole_in_column c recs col (r : dict) :
  df_col c (DataFrame_of_records recs) = Some col ->
  In r recs -> dict_get c r = None -> PNull ∈ col.
Proof.
  rewrite df_col_of_records. destruct (existsb _ recs); [|done].
  intros [= <-] Hr Hc. apply list_elem_of_fmap. exists r.
  split; [by rewrite Hc|]. by apply list_elem_of_In.
Qed.

Lemma hole_not_integer c recs col (r : dict) zs :
  df_col c (DataFrame_of_records recs) = Some col ->
  In r recs -> dict_get c r = None -> astype_int col = inr zs -> False.
Proof.
  intros Hcol Hr Hc Hzs.
  destruct (astype_int_fault col PNull (IntCastError PNull)) as [e He];
    [by eapply hole_in_column|done|congruence].
Qed.

(** X13.  Records with a field missing, through [pd.DataFrame] and
    [transform_global].  A record without [listeners] (artist shapes), or
    without [reach] or [taggings] (tag shape), makes the call raise for
    the whole table, whatever the other records hold.  A record without
    [name] does not: when some record has a [name] and every record has a
    [listeners] that [int()] accepts, the call returns, and [artist_name]
    is null in the rows of the records without [name]. *)
Theorem transform_global_missing_fields w st df recs :
  valid df st ->
  frame_at st df = DataFrame_of_records recs ->
  DataFrame_empty (DataFrame_of_records recs) = false ->
  (forall level r,
     level = "geo_artists" \/ level = "chart_artists" ->
     In r recs -> dict_get "listeners" r = None ->
     exists st' e, transform_global w df level st = (st', inl e)) /\
  (forall c r,
     c = "reach" \/ c = "taggings" ->
     In r recs -> dict_get c r = None ->
     exists st' e, transform_global w df "chart_tags" st = (st', inl e)) /\
  (forall level,
     level = "geo_artists" \/ level = "chart_artists" ->
     (exists r, In r recs /\ is_Some (dict_get "name" r)) ->
     (forall r, In r recs -> exists v z, dict_get "listeners" r = Some v /\ py_int v = inr z) ->
     exists st' out,
       transform_global w df level st = (st', inr out) /\
       df_col "artist_name" (frame_at st' out) =
         Some (map (fun r => default PNull (dict_get "name" r)) recs)).
Proof.
  intros Hv Hd He. split; [|split].
  - intros level r Hl Hr Hc.
    rewrite transform_artists_run by (rewrite ?Hd; auto using level_artists).
    cbv zeta. rewrite Hd.
    destruct (df_col "name" _); [|eauto].
    destruct (df_col "listeners" _) as [listeners|] eqn:Hli; [|eauto].
    destruct (astype_int listeners) as [e|zs] eqn:Hz; [eauto|].
    destruct (hole_not_integer _ _ _ _ _ Hli Hr Hc Hz).
  - intros c r Hcol Hr Hc.
    rewrite transform_tags_run by (rewrite ?Hd; done).
    cbv zeta. rewrite Hd.
    destruct (df_col "name" _); [|eauto].
    destruct (df_col "reach" _) as [reach|] eqn:Hre; [|eauto].
    destruct (astype_int reach) as [e|rz] eqn:Hrz; [eauto|].
    destruct (df_col "taggings" _) as [taggings|] eqn:Htg; [|eauto].
    destruct (astype_int taggings) as [e|tz] eqn:Htz; [eauto|].
    destruct Hcol as [-> | ->].
    + destruct (hole_not_integer _ _ _ _ _ Hre Hr Hc Hrz).
    + destruct (hole_not_integer _ _ _ _ _ Htg Hr Hc Htz).
  - intros level Hl [r0 [Hr0 Hname]] Hlisteners.
    assert (Hn : df_col "name" (DataFrame_of_records recs) =
                 Some (map (fun r => default PNull (dict_get "name" r)) recs)).
    { rewrite df_col_of_records.
      assert (existsb (fun r => bool_decide (is_Some (dict_get "name" r))) recs = true)
        as ->; [|done].
      apply existsb_exists. exists r0. split; [done|]. by apply bool_decide_eq_true. }
    assert (Hli : df_col "listeners" (DataFrame_of_records recs) =
                  Some (map (fun r => default PNull (dict_get "listeners" r)) recs)).
    { rewrite df_col_of_records.
      assert (existsb (fun r => bool_decide (is_Some (dict_get "listeners" r))) recs = true)
        as ->; [|done].
      apply existsb_exists. exists r0. split; [done|]. apply bool_decide_eq_true.
      destruct (Hlisteners r0 Hr0) as [v [z [-> _]]]. eauto. }
    destruct (astype_int_ok (map (fun r => default PNull (dict_get "listeners" r)) recs))
      as [zs Hz].
    { apply Forall_forall. intros x Hx. apply list_elem_of_fmap in Hx as [r [-> Hr]].
      apply list_elem_of_In in Hr. destruct (Hlisteners r Hr) as [v [z [-> Hv']]]. eauto. }
    eexists _, _. split.
    + eapply transform_artists_ok; rewrite ?Hd; eauto.
    + by rewrite frame_at_out.
Qed.

(** ** Counts written as plain decimal text *)

Lemma digit_range c d :
  digit_of c = Some d ->
  0 <= d <= 9 /\ is_space c = false /\ is_underscore c = false /\
  (nat_of_ascii c =? 43)%nat = false /\ (nat_of_ascii c =? 45)%nat = false.
Proof.
  unfold digit_of, is_space, is_underscore.
  destruct ((48 <=? nat_of_ascii c)%nat && (nat_of_ascii c <=? 57)%nat) eqn:E; [|done].
  intros [= <-]. apply andb_true_iff in E as [Hlo Hhi].
  apply Nat.leb_le in Hlo. apply Nat.leb_le in Hhi.
  split; [lia|]. split; [|split; [|split]].
  - apply orb_false_iff. split.
    + apply andb_false_iff. right. apply Nat.leb_gt. lia.
    + apply Nat.eqb_neq. lia.
  - apply Nat.eqb_neq. lia.
  - apply Nat.eqb_neq. lia.
  - apply Nat.eqb_neq. lia.
Qed.

Lemma lstrip_digits l : Forall (fun c => is_Some (digit_of c)) l -> lstrip l = l.
Proof.
  destruct 1 as [|c l [d Hd] _]; simpl; [done|].
  by destruct (digit_range c d Hd) as [_ [-> _]].
Qed.

Lemma strip_digits l : Forall (fun c => is_Some (digit_of c)) l -> strip l = l.
Proof.
  intros Hl. unfold strip. rewrite (lstrip_digits l Hl).
  rewrite lstrip_digits.
  - apply rev_involutive.
  - apply Forall_forall. intros c Hc. rewrite Forall_forall in Hl. apply Hl.
    apply list_elem_of_In. apply in_rev. by apply list_elem_of_In.
Qed.

Lemma more_digits_plain l acc :
  Forall (fun c => is_Some (digit_of c)) l ->
  more_digits acc false l =
  Some (fold_left (fun a c => 10 * a + default 0 (digit_of c)) l acc).
Proof.
  intros Hl. revert acc. induction Hl as [|c l [d Hd] _ IH]; intros acc; simpl; [done|].
  destruct (digit_range c d Hd) as [_ [_ [-> _]]]. rewrite Hd. simpl. apply IH.
Qed.

Lemma fold_digits_bound l acc :
  Forall (fun c => is_Some (digit_of c)) l ->
  0 <= acc ->
  0 <= fold_left (fun a c => 10 * a + default 0 (digit_of c)) l acc
    < (acc + 1) * 10 ^ Z.of_nat (length l).
Proof.
  intros Hl. revert acc. induction Hl as [|c l [d Hd] _ IH]; intros acc Hacc.
  - simpl. lia.
  - cbn [fold_left length]. rewrite Hd. cbn [default from_option id].
    destruct (digit_range c d Hd) as [Hrange _].
    destruct (IH (10 * acc + d)) as [Hlo Hhi]; [lia|].
    split; [done|].
    rewrite Nat2Z.inj_succ, Z.pow_succ_r by lia.
    assert (0 < 10 ^ Z.of_nat (length l)) by (apply Z.pow_pos_nonneg; lia).
    nia.
Qed.

Lemma int_of_str_plain s :
  plain_decimal s ->
  int_of_str s = Some (decimal_value (String.list_ascii_of_string s)) /\
  0 <= decimal_value (String.list_ascii_of_string s) < 10 ^ 18.
Proof.
  intros [Hne [Hl Hlen]]. unfold int_of_str, decimal_value.
  rewrite (strip_digits _ Hl).
  destruct (String.list_ascii_of_string s) as [|c r]; [done|].
  apply Forall_cons in Hl as [[d Hd] Hr].
  destruct (digit_range c d Hd) as [Hrange [_ [_ [-> ->]]]].
  cbn [unsigned_literal fold_left]. rewrite Hd. cbn [default from_option id].
  rewrite (more_digits_plain r d Hr). replace (10 * 0 + d) with d by lia.
  split; [done|].
  destruct (fold_digits_bound r d Hr) as [Hlo Hhi]; [lia|].
  split; [done|].
  simpl in Hlen.
  assert (10 ^ Z.of_nat (length r) <= 10 ^ 17) by (apply Z.pow_le_mono_r; lia).
  assert (0 < 10 ^ Z.of_nat (length r)) by (apply Z.pow_pos_nonneg; lia).
  change (10 ^ 18) with (10 * 10 ^ 17). nia.
Qed.

(** X14.  Text made of one to eighteen decimal digits, the way Last.fm
    writes its counts, is always read: [int()] gives the number the digits
    write, which is non-negative and fits 64 bits, and a column of such
    text is coerced cell by cell without an exception. *)
Theorem astype_int_plain_decimal (texts : list string) :
  Forall plain_decimal texts ->
  (forall s, In s texts ->
     py_int (PStr s) = inr (decimal_value (String.list_ascii_of_string s)) /\
     0 <= decimal_value (String.list_ascii_of_string s) < 10 ^ 18) /\
  astype_int (map PStr texts) =
  inr (map (fun s => PInt (decimal_value (String.list_ascii_of_string s))) texts).
Proof.
  intros Hall.
  assert (Hcell : forall s, plain_decimal s ->
            py_int (PStr s) = inr (decimal_value (String.list_ascii_of_string s)) /\
            0 <= decimal_value (String.list_ascii_of_string s) < 10 ^ 18).
  { intros s Hs. destruct (int_of_str_plain s Hs) as [Hint Hbound].
    split; [|done]. cbn [py_int]. rewrite Hint.
    assert (Hfit : fits_int64 (decimal_value (String.list_ascii_of_string s)) = true).
    { unfold fits_int64, int64_min, int64_max.
      apply andb_true_iff. split; apply Z.leb_le; lia. }
    by rewrite Hfit. }
  split.
  - intros s Hs. apply Hcell. rewrite Forall_forall in Hall. apply Hall.
    by apply list_elem_of_In.
  - induction Hall as [|s texts Hs _ IH]; [done|].
    cbn [map astype_int]. destruct (Hcell s Hs) as [-> _]. by rewrite IH.
Qed.

(** ** One stage, from the answer to the load job *)

Lemma df_col_of_records_default c recs :
  default (replicate (length recs) PNull) (df_col c (DataFrame_of_records recs)) =
  map (fun r => default PNull (dict_get c r)) recs.
Proof.
  rewrite df_col_of_records.
  destruct (existsb (fun r => bool_decide (is_Some (dict_get c r))) recs) eqn:E; [done|].
  cbn [default from_option id].
  assert (Hnone : forall r, In r recs -> dict_get c r = None).
  { intros r Hr. destruct (dict_get c r) as [v|] eqn:Hc; [|done].
    assert (existsb (fun r => bool_decide (is_Some (dict_get c r))) recs = true);
      [|congruence].
    apply existsb_exists. exists r. split; [done|].
    apply bool_decide_eq_true. rewrite Hc. eauto. }
  clear E. induction recs as [|r recs IH]; [done|].
  cbn [length replicate map]. rewrite (Hnone r) by (by left).
  cbn [default from_option id]. f_equal. apply IH. intros r' Hr'. apply Hnone. by right.
Qed.

Lemma df_col_of_records_some c recs r :
  In r recs -> is_Some (dict_get c r) ->
  df_col c (DataFrame_of_records recs) = Some (map (fun r => default PNull (dict_get c r)) recs).
Proof.
  intros Hr Hc. rewrite df_col_of_records.
  assert (existsb (fun r => bool_decide (is_Some (dict_get c r))) recs = true) as ->; [|done].
  apply existsb_exists. exists r. split; [done|]. by apply bool_decide_eq_true.
Qed.

(** X15.  One sub-pipeline on a good answer.  When the service answers
    the request of the stage with a JSON object that holds, under the two
    keys of the method, a list of records, some record has a [name],
    every record has a [listeners] that [int()] accepts, and the warehouse
    accepts every call, a stage of an artist shape returns, and what left
    the process is the request followed by the four warehouse calls of one
    load to the stage's table.  The table loaded has one row per record,
    in the order of the answer: the record's [name] (null if it has
    none), its [listeners] as an integer, its [playcount] (null if it has
    none) and the time of the call. *)
Theorem run_stage_artists_loaded w DataFrame_other cfg s st outer inner r data sub l recs :
  accepting w ->
  stage_level s = "geo_artists" \/ stage_level s = "chart_artists" ->
  In (stage_method s, (outer, inner)) key_map ->
  http_get w (log st ++ [EvPrint (MsgFetching (stage_method s))]) BASE_URL
    (base_params cfg (stage_method s) (stage_params s)) = Some r ->
  (400 <=? status_code r) && (status_code r <? 600) = false ->
  json_body r = Some (PDict data) ->
  dict_get outer data = Some (PDict sub) ->
  dict_get inner sub = Some (PList l) ->
  as_records l = Some recs ->
  (exists rec, In rec recs /\ is_Some (dict_get "name" rec)) ->
  (forall rec, In rec recs ->
     exists v z, dict_get "listeners" rec = Some v /\ py_int v = inr z) ->
  exists st' rows now,
    run_stage w DataFrame_other cfg s st = (st', inr tt) /\
    filter (fun e => is_external_call e = true) (log st') =
      (filter (fun e => is_external_call e = true) (log st)
         ++ EvHttpGet BASE_URL (base_params cfg (stage_method s) (stage_params s))
            :: load_calls cfg rows (stage_table s))%list /\
    nrows rows = length recs /\
    map fst (columns rows) = ["artist_name"; "listeners"; "playcount"; "timestamp"] /\
    forall i rec,
      recs !! i = Some rec ->
      exists z,
        py_int (default PNull (dict_get "listeners" rec)) = inr z /\
        row_at rows i =
          [ ("artist_name", default PNull (dict_get "name" rec));
            ("listeners", PInt z);
            ("playcount", default PNull (dict_get "playcount" rec));
            ("timestamp", PStr now) ].
Proof.
  intros [Hclient [Hload [Hresult Htable]]] Hlevel Hkeys Hget Hstatus Hjson Houter Hinner
    Hrecs [r0 [Hr0 Hname]] Hlisteners.
  set (method := stage_method s) in *.
  set (D := DataFrame_of_records recs).
  assert (Hfetched : fetched w DataFrame_other cfg method (stage_params s)
                       (log st ++ [EvPrint (MsgFetching method)]) = inr D).
  { unfold fetched. rewrite Hget, Hstatus, Hjson, (key_map_getitem_known _ _ _ Hkeys).
    cbn [fst snd py_get]. rewrite Houter. cbn [default from_option id py_get].
    rewrite Hinner. cbn [default from_option id frame_of_value]. by rewrite Hrecs. }
  assert (Hn : df_col "name" D = Some (map (fun r => default PNull (dict_get "name" r)) recs))
    by (by eapply df_col_of_records_some).
  assert (Hli : df_col "listeners" D =
                Some (map (fun r => default PNull (dict_get "listeners" r)) recs)).
  { eapply df_col_of_records_some; [exact Hr0|].
    destruct (Hlisteners r0 Hr0) as [v [z [-> _]]]. eauto. }
  destruct (astype_int_ok (map (fun r => default PNull (dict_get "listeners" r)) recs))
    as [zs Hz].
  { apply Forall_forall. intros x Hx. apply list_elem_of_fmap in Hx as [rec [-> Hrec]].
    apply list_elem_of_In in Hrec. destruct (Hlisteners rec Hrec) as [v [z [-> Hv]]]. eauto. }
  assert (Hlen : length recs <> 0%nat) by (destruct recs; [destruct Hr0|done]).
  assert (HD : DataFrame_empty D = false).
  { unfold DataFrame_empty. apply orb_false_iff. split; apply Nat.eqb_neq; [done|].
    unfold df_col in Hn. destruct (columns D); [done|]. simpl. lia. }
  set (st1 := add_log (EvPrint (fetch_line method D))
                (with_new_frame D (requested cfg method (stage_params s) st))).
  assert (Hframe : frame_at st1 (length (heap st)) = D)
    by exact (frame_at_new D (requested cfg method (stage_params s) st)).
  assert (Hvalid : valid (length (heap st)) st1).
  { unfold valid, st1. cbn [heap add_log with_new_frame requested].
    rewrite length_app. simpl. lia. }
  set (now := utcnow w (log (add_log (EvPrint (MsgTransforming (stage_level s))) st1))).
  set (pc := map (fun r => default PNull (dict_get "playcount" r)) recs).
  set (name := map (fun r => default PNull (dict_get "name" r)) recs) in *.
  set (rows := artists_out name zs pc now (length recs)).
  assert (Htransform :
    exists d4, transform_global w (length (heap st)) (stage_level s) st1 =
     (with_new_frame rows
        (with_frame (length (heap st)) d4
           (add_log (EvPrint (MsgTransforming (stage_level s))) st1)),
      inr (length (heap st1)))).
  { eexists.
    rewrite (transform_artists_ok w st1 (length (heap st)) (stage_level s) name
               (map (fun r => default PNull (dict_get "listeners" r)) recs) zs);
      rewrite ?Hframe; try done.
    cbv zeta. rewrite ?Hframe. unfold rows, pc, now.
    change (nrows D) with (length recs).
    pose proof (df_col_of_records_default "playcount" recs) as Hpc. fold D in Hpc.
    by rewrite Hpc. }
  destruct Htransform as [d4 Htransform].
  set (st2 := with_new_frame rows
                (with_frame (length (heap st)) d4
                   (add_log (EvPrint (MsgTransforming (stage_level s))) st1))) in *.
  assert (Hout : frame_at st2 (length (heap st1)) = rows) by apply frame_at_out.
  assert (Hrows : DataFrame_empty rows = false).
  { unfold DataFrame_empty, rows, artists_out. cbn [nrows columns length].
    apply orb_false_iff. split; apply Nat.eqb_neq; [done|lia]. }
  destruct (Htable
    (log (add_log EvJobResult
       (add_log (EvLoadJob rows (table_id_of cfg (stage_table s)) "WRITE_APPEND" true)
          (add_log (EvPrint (MsgUploading (nrows rows) (table_id_of cfg (stage_table s))))
             (add_log (EvClient (GCP_PROJECT_ID cfg)) st2)))))
    (table_id_of cfg (stage_table s))) as [n Hn'].
  eexists _, rows, now. split; [|split; [|split; [done|split; [done|]]]].
  - unfold run_stage. unfold mbind at 1, M_bind at 1.
    fold method. rewrite extract_global_fetched, Hfetched. fold st1.
    unfold mbind at 1, M_bind at 1. rewrite Htransform. fold st2.
    rewrite load_nonempty_run by (by rewrite Hout).
    cbv zeta. rewrite Hout, Hclient, Hload, Hresult, Hn'. reflexivity.
  - unfold load_calls, st2, st1, requested.
    cbn [log add_log with_new_frame with_frame].
    rewrite !filter_app. cbn [filter list_filter]. simpl.
    by rewrite ?app_nil_r, <- ?app_assoc.
  - intros i rec Hi.
    assert (Hlt : (i < length recs)%nat) by (by eapply lookup_lt_Some).
    destruct (nth_astype_int _ zs i Hz) as [z [Hpy Hnth]]; [by rewrite length_map|].
    rewrite (nth_map_lt _ recs i rec) in Hpy by done.
    assert (Hrec : nth i recs rec = rec).
    { apply nth_lookup_Some with (d := rec) in Hi. exact Hi. }
    rewrite Hrec in Hpy. exists z. split; [done|].
    unfold row_at, rows, artists_out, name, pc. cbn [columns map fst snd].
    rewrite Hnth, nth_replicate_lt by done.
    rewrite !(nth_map_lt _ recs i rec) by done. by rewrite Hrec.
Qed.

(** * The properties on sample inputs *)

Lemma C1_artist_rows_sample :
  exists st' out ts,
    transform_global refusing_world 0%nat "geo_artists" (sample_state sample_artists)
      = (st', inr out) /\
    DataFrame_rows (frame_at st' out) =
      [ [ ("artist_name", PStr "X"); ("listeners", PInt 10);
          ("playcount", PNull); ("timestamp", PStr ts) ];
        [ ("artist_name", PStr "Y"); ("listeners", PInt 2000);
          ("playcount", PNull); ("timestamp", PStr ts) ] ].
Proof.
  destruct (C1_artist_rows refusing_world refuse_other (sample_state sample_artists)
              0%nat "geo_artists" [PStr "X"; PStr "Y"] [PStr "10"; PStr " 2_000 "])
    as [[st' [out [ts [Hrun [Hcols [Hlen Hrows]]]]]] _].
  - unfold valid. simpl. lia.
  - repeat constructor.
  - reflexivity.
  - by left.
  - reflexivity.
  - reflexivity.
  - repeat constructor; eexists; reflexivity.
  - exists st', out, ts. split; [exact Hrun|].
    destruct (DataFrame_rows (frame_at st' out)) as [|r0 [|r1 [|r2 rows]]];
      try discriminate Hlen.
    destruct (Hrows 0%nat r0 eq_refl) as [z0 [Hz0 ->]].
    destruct (Hrows 1%nat r1 eq_refl) as [z1 [Hz1 ->]].
    injection Hz0 as <-. injection Hz1 as <-. reflexivity.
Defined.

Lemma C2_empty_table_sample :
  transform_global refusing_world 0%nat "geo_tracks" (sample_state sample_empty)
    = (mkState [sample_empty] [EvPrint (MsgNoData "geo_tracks")], inr 0%nat) /\
  load_to_bigquery refusing_world sample_config 0%nat BQ_TABLE_GEO_TRACKS
    (sample_state sample_empty)
    = (mkState [sample_empty] [EvPrint (MsgSkipUpload "lastfm_geo_top_tracks")], inr tt).
Proof.
  destruct (C2_empty_table refusing_world sample_config (sample_state sample_empty)
              0%nat "geo_tracks" BQ_TABLE_GEO_TRACKS eq_refl)
    as [[st1 [H1 [Hh1 [_ Hl1]]]] [st2 [H2 [Hh2 [Hl2 _]]]]].
  split.
  - rewrite H1. destruct st1 as [h l]. simpl in *. by subst.
  - rewrite H2. destruct st2 as [h l]. simpl in *. by subst.
Defined.

Lemma C3_track_artist_name_sample :
  exists st' out,
    transform_global refusing_world 0%nat "chart_tracks" (sample_state sample_tracks)
      = (st', inr out) /\
    map (dict_get "artist_name") (DataFrame_rows (frame_at st' out)) =
      [Some (PStr "A"); Some PNull].
Proof.
  destruct (C3_track_artist_name refusing_world refuse_other (sample_state sample_tracks)
              0%nat "chart_tracks"
              [PDict [("name", PStr "A"); ("mbid", PStr "")]; PStr "B"]
              [PStr "T"; PStr "U"] [PStr "5"; PInt 7])
    as [[st' [out [Hrun [Hlen Hrows]]]] _].
  - unfold valid. simpl. lia.
  - repeat constructor.
  - reflexivity.
  - by right.
  - reflexivity.
  - reflexivity.
  - reflexivity.
  - repeat constructor; eexists; reflexivity.
  - exists st', out. split; [exact Hrun|].
    destruct (DataFrame_rows (frame_at st' out)) as [|r0 [|r1 [|r2 rows]]];
      try discriminate Hlen.
    destruct (Hrows 0%nat r0 eq_refl) as [H0 _].
    destruct (Hrows 1%nat r1 eq_refl) as [_ H1].
    simpl. rewrite (H0 _ eq_refl), H1; [reflexivity|]. intros a. discriminate.
Defined.

Lemma C4_tag_rows_sample :
  (exists st' out ts,
     transform_global refusing_world 0%nat "chart_tags" (sample_state sample_tags)
       = (st', inr out) /\
     DataFrame_rows (frame_at st' out) =
       [ [ ("tag_name", PStr "rock"); ("reach", PInt 12);
           ("taggings", PInt 345); ("timestamp", PStr ts) ] ]) /\
  (exists st' e,
     transform_global refusing_world 0%nat "chart_tags" (sample_state sample_tags_text)
       = (st', inl e)).
Proof.
  split.
  - destruct (C4_tag_rows refusing_world (sample_state sample_tags) 0%nat)
      as [Hok _].
    + unfold valid. simpl. lia.
    + repeat constructor.
    + reflexivity.
    + destruct (Hok [PStr "rock"] [PStr "12"] [PStr "345"])
        as [st' [out [ts [Hrun [Hcols [Hlen Hrows]]]]]];
        try reflexivity; try (repeat constructor; eexists; reflexivity).
      exists st', out, ts. split; [exact Hrun|].
      destruct (DataFrame_rows (frame_at st' out)) as [|r0 [|r1 rows]];
        try discriminate Hlen.
      destruct (Hrows 0%nat r0 eq_refl) as [r [t [Hr [Ht ->]]]].
      injection Hr as <-. injection Ht as <-. reflexivity.
  - destruct (C4_tag_rows refusing_world (sample_state sample_tags_text) 0%nat)
      as [_ [Htext _]].
    + unfold valid. simpl. lia.
    + repeat constructor.
    + reflexivity.
    + apply (Htext "reach" [PStr "many"] "many").
      * by left.
      * reflexivity.
      * by left.
      * reflexivity.
Defined.

Lemma C5_extract_lookup_sample :
  (exists st' df,
     extract_global (answering_world sample_error_body) refuse_other sample_config
       "geo.gettopartists" [("country", PStr "indonesia")] initial_state = (st', inr df) /\
     frame_at st' df = mkFrame [] 0) /\
  (exists st' df,
     extract_global (answering_world sample_no_tracks) refuse_other sample_config
       "chart.gettoptracks" [] initial_state = (st', inr df) /\
     frame_at st' df = mkFrame [] 0) /\
  (exists st',
     extract_global (answering_world sample_error_body) refuse_other sample_config
       "user.getinfo" [] initial_state = (st', inl (KeyError "user.getinfo"))).
Proof.
  split; [|split].
  - destruct (C5_extract_lookup (answering_world sample_error_body) refuse_other
                sample_config "geo.gettopartists" [("country", PStr "indonesia")]
                initial_state) as [Habsent _].
    destruct (Habsent "topartists" "artist"
                (mkResponse 200 (Some sample_error_body))
                [("error", PInt 6); ("message", PStr "Invalid parameters")])
      as [st' [df [Hrun [Hframe _]]]]; try reflexivity.
    + by left.
    + by left.
    + by exists st', df.
  - destruct (C5_extract_lookup (answering_world sample_no_tracks) refuse_other
                sample_config "chart.gettoptracks" [] initial_state) as [_ [Hlist _]].
    destruct (Hlist "tracks" "track" (mkResponse 200 (Some sample_no_tracks))
                [("tracks", PDict [("track", PList [])])] [("track", PList [])] [] [])
      as [st' [df [Hrun Hframe]]]; try reflexivity.
    + do 3 right. by left.
    + by exists st', df.
  - destruct (C5_extract_lookup (answering_world sample_error_body) refuse_other
                sample_config "user.getinfo" [] initial_state) as [_ [_ Hunknown]].
    destruct Hunknown as [st' [e [Hrun He]]].
    + simpl. intros [H|[H|[H|[H|[H|[]]]]]]; discriminate H.
    + exists st'. rewrite Hrun.
      by rewrite (He (mkResponse 200 (Some sample_error_body)) sample_error_body).
Defined.

Lemma C6_configuration_sample :
  run refusing_world refuse_other (fun _ => None) = (initial_state, inl TypeError) /\
  exists rest,
    log (fst (run refusing_world refuse_other env_complete)) =
    EvPrint MsgStart
      :: EvPrint (MsgFetching "geo.gettopartists")
      :: EvHttpGet BASE_URL
           [ ("method", PStr "geo.gettopartists"); ("api_key", PStr "0123abcd");
             ("format", PStr "json"); ("limit", PInt 100);
             ("country", PStr "indonesia") ]
      :: rest.
Proof.
  split.
  - by apply (C6_configuration refusing_world refuse_other (fun _ => None)).
  - destruct (C6_configuration refusing_world refuse_other env_complete) as [_ Hset].
    by destruct (Hset "key.json" eq_refl) as [_ Hlog].
Defined.

Lemma C7_same_rows_twice_sample :
  same_modulo_timestamp
    (transform_global refusing_world 0%nat "geo_artists" (sample_state sample_artists))
    (transform_global (answering_world PNull) 0%nat "geo_artists"
       (fst (transform_global refusing_world 0%nat "geo_artists"
               (sample_state sample_artists)))) /\
  same_modulo_timestamp
    (transform_global refusing_world 0%nat "chart_tags" (sample_state sample_tags_text))
    (transform_global (answering_world PNull) 0%nat "chart_tags"
       (fst (transform_global refusing_world 0%nat "chart_tags"
               (sample_state sample_tags_text)))).
Proof.
  assert (Hv : forall d, valid 0%nat (sample_state d))
    by (intros d; unfold valid; simpl; lia).
  split.
  - exact (proj1 (C7_same_rows_twice refusing_world (answering_world PNull)
                    (sample_state sample_artists) 0%nat "geo_artists" (Hv _))).
  - exact (proj1 (C7_same_rows_twice refusing_world (answering_world PNull)
                    (sample_state sample_tags_text) 0%nat "chart_tags" (Hv _))).
Defined.

Lemma C8_flow_order_sample :
  snd (etl_global_topdata (answering_world sample_error_body) refuse_other sample_config
         initial_state) = inr tt /\
  http_methods
    (log (fst (etl_global_topdata (answering_world sample_error_body) refuse_other
                 sample_config initial_state))) = five_methods /\
  http_methods
    (log (fst (etl_global_topdata refusing_world refuse_other sample_config
                 initial_state))) = [PStr "geo.gettopartists"].
Proof.
  split; [reflexivity|]. split.
  - destruct (C8_flow_order (answering_world sample_error_body) refuse_other sample_config
                initial_state) as [_ [_ [[k [Hk [Hm Hret]]] _]]].
    rewrite Hm, (Hret eq_refl). reflexivity.
  - destruct (C8_flow_order refusing_world refuse_other sample_config initial_state)
      as [_ [_ [_ [Hfault _]]]].
    rewrite (Hfault [] (mkStage "geo.gettopartists" [("country", PStr "indonesia")]
                          "geo_artists" BQ_TABLE_GEO_ARTISTS)
               (tl five_stages) (add_log (EvPrint MsgStart) initial_state)
               (add_log (EvHttpGet BASE_URL
                           (base_params sample_config "geo.gettopartists"
                              [("country", PStr "indonesia")]))
                  (add_log (EvPrint (MsgFetching "geo.gettopartists"))
                     (add_log (EvPrint MsgStart) initial_state)))
               (HTTPError 403)); reflexivity.
Defined.

Lemma C9_input_mutated_sample :
  exists st' out,
    transform_global refusing_world 0%nat "geo_artists" (sample_state sample_artists)
      = (st', inr out) /\
    out = 1%nat /\
    map fst (columns (frame_at (sample_state sample_artists) 0%nat)) = ["name"; "listeners"] /\
    map fst (columns (frame_at st' 0%nat)) =
      ["name"; "listeners"; "artist_name"; "playcount"; "timestamp"] /\
    df_col "listeners" (frame_at st' 0%nat) = df_col "listeners" (frame_at st' out).
Proof.
  set (r := transform_global refusing_world 0%nat "geo_artists"
              (sample_state sample_artists)).
  exists (fst r), 1%nat. split; [reflexivity|].
  destruct (C9_input_mutated refusing_world (sample_state sample_artists) 0%nat
              "geo_artists" (fst r) 1%nat) as [Hout [_ [_ [Hcols _]]]].
  - unfold valid. simpl. lia.
  - reflexivity.
  - by left.
  - reflexivity.
  - split; [exact Hout|]. split; [reflexivity|]. split; [reflexivity|].
    apply (Hcols "listeners"). simpl. auto.
Defined.

Lemma C10_unknown_level_sample :
  transform_global refusing_world 0%nat "user_artists" (sample_state sample_artists)
  = (mkState [sample_artists] [EvPrint (MsgTransforming "user_artists")], inr 0%nat).
Proof.
  destruct (C10_unknown_level refusing_world (sample_state sample_artists) 0%nat
              "user_artists") as [st' [Hrun [Hheap [_ Hlog]]]].
  - reflexivity.
  - simpl. intros [H|[H|[H|[H|[H|[]]]]]]; discriminate H.
  - rewrite Hrun. destruct st' as [h l]. simpl in *. by subst.
Defined.

(** * More of the module, on sample inputs *)

Lemma extract_global_faults_sample :
  snd (extract_global refusing_world refuse_other sample_config "geo.gettopartists" []
         initial_state) = inl (HTTPError 403) /\
  heap (fst (extract_global refusing_world refuse_other sample_config "geo.gettopartists" []
               initial_state)) = [].
Proof.
  destruct (extract_global_faults refusing_world refuse_other sample_config
              "geo.gettopartists" [] initial_state) as [_ [Hstatus [_ [_ [_ Hheap]]]]].
  split.
  - exact (Hstatus (mkResponse 403 None) eq_refl eq_refl).
  - exact (Hheap (HTTPError 403) (Hstatus (mkResponse 403 None) eq_refl eq_refl)).
Defined.

Lemma extract_global_fresh_table_sample :
  exists st',
    extract_global (answering_world sample_top_artists) refuse_other sample_config
      "geo.gettopartists" [("country", PStr "indonesia")] initial_state = (st', inr 0%nat) /\
    heap st' = [frame_at st' 0%nat] /\
    log st' =
      [ EvPrint (MsgFetching "geo.gettopartists");
        EvHttpGet BASE_URL
          (base_params sample_config "geo.gettopartists" [("country", PStr "indonesia")]);
        EvPrint (MsgFetched 1 "geo.gettopartists") ].
Proof.
  set (r := extract_global (answering_world sample_top_artists) refuse_other sample_config
              "geo.gettopartists" [("country", PStr "indonesia")] initial_state).
  exists (fst r). split; [reflexivity|].
  destruct (extract_global_fresh_table (answering_world sample_top_artists) refuse_other
              sample_config "geo.gettopartists" [("country", PStr "indonesia")]
              initial_state (fst r) 0%nat eq_refl) as [_ [_ [Hheap [_ Hlog]]]].
  split; [exact Hheap|]. rewrite Hlog. reflexivity.
Defined.

Lemma transform_global_effect_sample :
  (exists m,
     log (fst (transform_global refusing_world 0%nat "chart_tags"
                 (sample_state sample_tags_text))) = [EvPrint m]) /\
  length (heap (fst (transform_global refusing_world 0%nat "chart_tags"
                       (sample_state sample_tags_text)))) = 1%nat /\
  nrows (frame_at (fst (transform_global refusing_world 0%nat "chart_tags"
                          (sample_state sample_tags_text))) 0%nat) = 1%nat.
Proof.
  destruct (transform_global_effect refusing_world (sample_state sample_tags_text) 0%nat
              "chart_tags") as [Hline [_ [Hrows [_ Hfault]]]].
  - unfold valid. simpl. lia.
  - split; [exact Hline|]. split; [|exact Hrows].
    apply (Hfault (IntCastError (PStr "many"))). reflexivity.
Defined.

Lemma transform_global_keeps_rows_sample :
  exists st' out,
    transform_global refusing_world 0%nat "geo_tracks" (sample_state sample_tracks)
      = (st', inr out) /\
    nrows (frame_at st' out) = 2%nat /\
    wf_frame (frame_at st' out) /\
    wf_frame (frame_at st' 0%nat).
Proof.
  set (r := transform_global refusing_world 0%nat "geo_tracks" (sample_state sample_tracks)).
  exists (fst r), 1%nat. split; [reflexivity|].
  destruct (transform_global_keeps_rows refusing_world (sample_state sample_tracks) 0%nat
              "geo_tracks" (fst r) 1%nat) as [_ [Hrows [_ Hwf]]].
  - unfold valid. simpl. lia.
  - reflexivity.
  - split; [exact Hrows|]. apply Hwf. repeat constructor.
Defined.

Lemma transform_global_returns_iff_sample :
  (exists st' out,
     transform_global refusing_world 0%nat "chart_tags" (sample_state sample_tags)
       = (st', inr out)) /\
  ~ (exists st' out,
       transform_global refusing_world 0%nat "chart_tags" (sample_state sample_tags_text)
         = (st', inr out)).
Proof.
  split.
  - destruct (transform_global_returns_iff refusing_world (sample_state sample_tags) 0%nat
                "chart_tags") as [_ [_ Htags]].
    + unfold valid. simpl. lia.
    + reflexivity.
    + apply (Htags eq_refl). split; [by eexists|].
      split; eexists; (split; [reflexivity|]); repeat constructor; eexists; reflexivity.
  - destruct (transform_global_returns_iff refusing_world (sample_state sample_tags_text)
                0%nat "chart_tags") as [_ [_ Htags]].
    + unfold valid. simpl. lia.
    + reflexivity.
    + intros Hret. apply (Htags eq_refl) in Hret as [_ [[col [Hcol Hint]] _]].
      injection Hcol as <-. apply Forall_cons in Hint as [[z Hz] _]. discriminate Hz.
Defined.

Lemma transform_global_no_rollback_sample :
  exists st' e,
    transform_global refusing_world 0%nat "chart_tags" (sample_state sample_tags_half)
      = (st', inl e) /\
    df_col "tag_name" (frame_at st' 0%nat) = Some [PStr "rock"] /\
    df_col "reach" (frame_at st' 0%nat) = Some [PInt 12] /\
    df_col "taggings" (frame_at st' 0%nat) = Some [PStr "many"] /\
    df_col "timestamp" (frame_at st' 0%nat) = None.
Proof.
  destruct (transform_global_no_rollback refusing_world (sample_state sample_tags_half)
              0%nat) as [Htags _].
  - unfold valid. simpl. lia.
  - reflexivity.
  - destruct (Htags [PStr "rock"] [PStr "12"] [PInt 12] eq_refl eq_refl eq_refl)
      as [st' [e [Hrun [Hname [Hreach [Htaggings Hts]]]]]].
    + right. exists [PStr "many"], (IntCastError (PStr "many")). by split.
    + exists st', e. by repeat split.
Defined.

Lemma transform_global_track_rows_sample :
  exists st' out ts,
    transform_global refusing_world 0%nat "chart_tracks" (sample_state sample_tracks)
      = (st', inr out) /\
    DataFrame_rows (frame_at st' out) =
      [ [ ("artist_name", PStr "A"); ("track_name", PStr "T");
          ("listeners", PInt 5); ("timestamp", PStr ts) ];
        [ ("artist_name", PNull); ("track_name", PStr "U");
          ("listeners", PInt 7); ("timestamp", PStr ts) ] ].
Proof.
  destruct (transform_global_track_rows refusing_world (sample_state sample_tracks)
              0%nat "chart_tracks"
              [PDict [("name", PStr "A"); ("mbid", PStr "")]; PStr "B"]
              [PStr "T"; PStr "U"] [PStr "5"; PInt 7])
    as [st' [out [ts [Hrun [Hcols [Hlen Hrows]]]]]].
  - unfold valid. simpl. lia.
  - repeat constructor.
  - reflexivity.
  - by right.
  - reflexivity.
  - reflexivity.
  - reflexivity.
  - repeat constructor; eexists; reflexivity.
  - exists st', out, ts. split; [exact Hrun|].
    destruct (DataFrame_rows (frame_at st' out)) as [|r0 [|r1 [|r2 rows]]];
      try discriminate Hlen.
    destruct (Hrows 0%nat r0 eq_refl) as [z0 [Hz0 ->]].
    destruct (Hrows 1%nat r1 eq_refl) as [z1 [Hz1 ->]].
    injection Hz0 as <-. injection Hz1 as <-. reflexivity.
Defined.

Lemma base_params_lookup_sample :
  dict_get "method"
    (base_params sample_config "geo.gettopartists"
       [("country", PStr "indonesia"); ("limit", PInt 5)]) = Some (PStr "geo.gettopartists") /\
  dict_get "limit"
    (base_params sample_config "geo.gettopartists"
       [("country", PStr "indonesia"); ("limit", PInt 5)]) = Some (PInt 5) /\
  dict_get "page"
    (base_params sample_config "geo.gettopartists"
       [("country", PStr "indonesia"); ("limit", PInt 5)]) = None.
Proof.
  assert (Hnd : NoDup (map fst [("country", PStr "indonesia"); ("limit", PInt 5)])).
  { apply NoDup_cons. split; [|apply NoDup_singleton].
    intros H. apply list_elem_of_In in H. destruct H as [H|[]]. discriminate H. }
  split; [|split].
  - exact (proj1 (base_params_lookup sample_config "geo.gettopartists"
                    [("country", PStr "indonesia"); ("limit", PInt 5)] "limit" Hnd eq_refl)).
  - exact (proj2 (base_params_lookup sample_config "geo.gettopartists"
                    [("country", PStr "indonesia"); ("limit", PInt 5)] "limit" Hnd eq_refl)).
  - exact (proj2 (base_params_lookup sample_config "geo.gettopartists"
                    [("country", PStr "indonesia"); ("limit", PInt 5)] "page" Hnd eq_refl)).
Defined.


Lemma transform_global_missing_fields_sample :
  (exists st' out,
     transform_global refusing_world 0%nat "geo_artists"
       (sample_state (DataFrame_of_records sample_records)) = (st', inr out) /\
     df_col "artist_name" (frame_at st' out) = Some [PStr "X"; PNull]) /\
  (exists st' e,
     transform_global refusing_world 0%nat "chart_tags"
       (sample_state (DataFrame_of_records sample_records)) = (st', inl e)).
Proof.
  destruct (transform_global_missing_fields refusing_world
              (sample_state (DataFrame_of_records sample_records)) 0%nat sample_records)
    as [_ [Htags Hnames]].
  - unfold valid. simpl. lia.
  - reflexivity.
  - reflexivity.
  - split.
    + apply (Hnames "geo_artists").
      * by left.
      * exists [("name", PStr "X"); ("listeners", PStr "10")].
        split; [by left|by eexists].
      * intros r [<-|[<-|[]]]; eexists _, _; (split; [reflexivity|reflexivity]).
    + apply (Htags "reach" [("name", PStr "X"); ("listeners", PStr "10")]).
      * by left.
      * by left.
      * reflexivity.
Defined.

Lemma astype_int_plain_decimal_sample :
  astype_int [PStr "10"; PStr "0012"; PStr "123456789012345678"] =
  inr [PInt 10; PInt 12; PInt 123456789012345678].
Proof.
  assert (Hplain : forall s,
            String.list_ascii_of_string s <> [] ->
            forallb (fun c => bool_decide (is_Some (digit_of c)))
              (String.list_ascii_of_string s) = true ->
            (length (String.list_ascii_of_string s) <= 18)%nat ->
            plain_decimal s).
  { intros s Hne Hall Hlen. split; [exact Hne|]. split; [|exact Hlen].
    apply Forall_forall. intros c Hc. apply list_elem_of_In in Hc.
    rewrite forallb_forall in Hall. eapply bool_decide_eq_true_1, Hall, Hc. }
  destruct (astype_int_plain_decimal ["10"; "0012"; "123456789012345678"]) as [_ Hcol].
  - constructor; [|constructor; [|constructor; [|constructor]]];
      (apply Hplain; [done|reflexivity|simpl; lia]).
  - exact Hcol.
Defined.

Lemma run_stage_artists_loaded_sample :
  exists st' now,
    run_stage (answering_world sample_top_artists) refuse_other sample_config
      (mkStage "geo.gettopartists" [("country", PStr "indonesia")] "geo_artists"
         BQ_TABLE_GEO_ARTISTS) initial_state = (st', inr tt) /\
    exists rows,
      filter (fun e => is_external_call e = true) (log st') =
        EvHttpGet BASE_URL
          (base_params sample_config "geo.gettopartists" [("country", PStr "indonesia")])
        :: load_calls sample_config rows BQ_TABLE_GEO_ARTISTS /\
      nrows rows = 1%nat /\
      row_at rows 0 =
        [ ("artist_name", PStr "X"); ("listeners", PInt 10);
          ("playcount", PNull); ("timestamp", PStr now) ].
Proof.
  destruct (run_stage_artists_loaded (answering_world sample_top_artists) refuse_other
              sample_config
              (mkStage "geo.gettopartists" [("country", PStr "indonesia")] "geo_artists"
                 BQ_TABLE_GEO_ARTISTS)
              initial_state "topartists" "artist"
              (mkResponse 200 (Some sample_top_artists))
              [("topartists",
                PDict [("artist",
                        PList [PDict [("name", PStr "X"); ("listeners", PStr "10")]])])]
              [("artist", PList [PDict [("name", PStr "X"); ("listeners", PStr "10")]])]
              [PDict [("name", PStr "X"); ("listeners", PStr "10")]]
              [[("name", PStr "X"); ("listeners", PStr "10")]])
    as [st' [rows [now [Hrun [Hcalls [Hn [_ Hrows]]]]]]].
  - split; [done|]. split; [done|]. split; [done|]. intros h t. by eexists.
  - by left.
  - by left.
  - reflexivity.
  - reflexivity.
  - reflexivity.
  - reflexivity.
  - reflexivity.
  - reflexivity.
  - eexists. split; [by left|by eexists].
  - intros rec [<-|[]]. eexists _, _. split; reflexivity.
  - exists st', now. split; [exact Hrun|]. exists rows.
    split; [exact Hcalls|]. split; [exact Hn|].
    destruct (Hrows 0%nat [("name", PStr "X"); ("listeners", PStr "10")] eq_refl)
      as [z [Hz Hrow]].
    injection Hz as <-. exact Hrow.
Defined.
